(** * PDF extraction servers: the extraction orchestration pipeline

    A shallow embedding of the processing logic of the two extraction
    servers of the repository,

      - [docker/pdf-extract-kit/api_server.py]  (module [ApiServer]), the
        model-based assembler, and
      - [scripts/pdf_extract_server.py]         (module [PdfExtractServer]),
        the local server with the PyMuPDF fallback,

    followed by the properties of the document model they build.

    The detection and extraction models and the PyMuPDF document are
    external capability providers: their answers (a value or a raised
    exception) are inputs of the embedding.  Python exceptions are an
    explicit [outcome]; Python [float]s are the binary64 primitive floats;
    Python [str] is [string]; [len] and [enumerate] count in [Z].  The
    [logger] calls are part of the embedding of the local server, whose
    two strategies differ in them only; elsewhere they are left out.
    Saving the upload and removing the saved file are inputs of the
    model-based endpoint too, since their exceptions are answered by it;
    the local endpoint is given the name of the temporary file the upload
    was saved to. *)

From Stdlib Require Import ZArith List String Ascii Bool Lia DecimalString.
From Stdlib Require Import DecimalPos DecimalZ.
From Stdlib Require Import Floats.PrimFloat Floats.FloatOps Floats.SpecFloat.
Import ListNotations.

Set Warnings "-inexact-float".

Open Scope Z_scope.
Open Scope string_scope.

(* ------------------------------------------------------------------ *)
(** * Python prelude *)

Module Py.

(** The exception classes the modelled code can meet.  All of them are
    subclasses of [Exception], so every [except Exception] catches them. *)
Inductive exn_class :=
| IndexError | KeyError | ValueError | OverflowError | AttributeError
| ImportError | RuntimeError | OSError.

Record exn := mk_exn { exn_cls : exn_class; exn_msg : string }.

(** [str(e)] *)
Definition str_exn (e : exn) : string := exn_msg e.

(** A Python evaluation either yields a value or raises. *)
Inductive outcome (A : Type) : Type :=
| Ok (a : A)
| Raise (e : exn).
Arguments Ok {A} a.
Arguments Raise {A} e.

Definition bind {A B} (c : outcome A) (k : A -> outcome B) : outcome B :=
  match c with
  | Ok a => k a
  | Raise e => Raise e
  end.

(** [try: c  except Exception as e: h e] *)
Definition try_except {A} (c : outcome A) (h : exn -> outcome A) : outcome A :=
  match c with
  | Ok a => Ok a
  | Raise e => h e
  end.

Definition is_ok {A} (c : outcome A) : bool :=
  match c with Ok _ => true | Raise _ => false end.

(** [len(l)] *)
Definition len {A} (l : list A) : Z := Z.of_nat (List.length l).

(** [len(s)] on a string *)
Definition strlen (s : string) : Z := Z.of_nat (String.length s).

(** [l[i]] for a constant, non-negative index *)
Definition getitem {A} (l : list A) (i : nat) : outcome A :=
  match nth_error l i with
  | Some a => Ok a
  | None => Raise (mk_exn IndexError "list index out of range")
  end.

(** [d.get(key, default)] on a dictionary whose key may be absent *)
Definition get {A} (field : option A) (default : A) : A :=
  match field with Some a => a | None => default end.

(** [str(n)] of an integer: signed decimal *)
Definition str_int (n : Z) : string := NilZero.string_of_int (Z.to_int n).

(** [int(x)] of a float: truncation towards zero; NaN and the infinities
    raise. *)
Definition int_of_float (x : float) : outcome Z :=
  match Prim2SF x with
  | S754_zero _ => Ok 0
  | S754_finite s m e =>
      let a := match e with
               | Z0 => Zpos m
               | Zpos p => Z.shiftl (Zpos m) (Zpos p)
               | Zneg p => Z.shiftr (Zpos m) (Zpos p)
               end in
      Ok (if s then - a else a)
  | S754_infinity _ =>
      Raise (mk_exn OverflowError "cannot convert float infinity to integer")
  | S754_nan =>
      Raise (mk_exn ValueError "cannot convert float NaN to integer")
  end.

(** [math.floor(x)], for comparison with [int(x)] *)
Definition floor_of_float (x : float) : outcome Z :=
  match Prim2SF x with
  | S754_zero _ => Ok 0
  | S754_finite s m e =>
      Ok (match e with
          | Z0 => if s then Zneg m else Zpos m
          | Zpos p => Z.shiftl (if s then Zneg m else Zpos m) (Zpos p)
          | Zneg p => Z.shiftr (if s then Zneg m else Zpos m) (Zpos p)
          end)
  | S754_infinity _ =>
      Raise (mk_exn OverflowError "cannot convert float infinity to integer")
  | S754_nan =>
      Raise (mk_exn ValueError "cannot convert float NaN to integer")
  end.

(** The sign bit of a float. *)
Definition is_negative (x : float) : bool :=
  match Prim2SF x with
  | S754_zero s => s
  | S754_infinity s => s
  | S754_nan => false
  | S754_finite s _ _ => s
  end.

(** [s in [a, b, ...]] for strings *)
Definition str_in (s : string) (l : list string) : bool :=
  existsb (String.eqb s) l.

(** Characters [str.strip()] removes (the white space below code point
    256). *)
Definition is_space (c : ascii) : bool :=
  let n := N_of_ascii c in
  ((9 <=? n) && (n <=? 13) || (28 <=? n) && (n <=? 32)
   || (n =? 133) || (n =? 160))%N.

Fixpoint lstrip (s : string) : string :=
  match s with
  | EmptyString => EmptyString
  | String c s' => if is_space c then lstrip s' else s
  end.

Fixpoint rstrip (s : string) : string :=
  match s with
  | EmptyString => EmptyString
  | String c s' =>
      match rstrip s' with
      | EmptyString => if is_space c then EmptyString else String c EmptyString
      | t => String c t
      end
  end.

(** [s.strip()] *)
Definition strip (s : string) : string := rstrip (lstrip s).

(** Truth value of a string: non-empty. *)
Definition str_truthy (s : string) : bool :=
  match s with EmptyString => false | _ => true end.

(** [s.lower()] on ASCII letters *)
Definition lower_ascii (c : ascii) : ascii :=
  let n := N_of_ascii c in
  if ((65 <=? n) && (n <=? 90))%N then ascii_of_N (n + 32) else c.

Fixpoint lower (s : string) : string :=
  match s with
  | EmptyString => EmptyString
  | String c s' => String (lower_ascii c) (lower s')
  end.

(** [sep.join(l)] *)
Definition join (sep : string) (l : list string) : string :=
  String.concat sep l.

(** [base64.b64encode(data).decode('utf-8')], bytes given as characters *)
Definition b64_alphabet : string :=
  "ABCDEFGHIJKLMNOPQRSTUVWXYZabcdefghijklmnopqrstuvwxyz0123456789+/".

Definition b64_digit (n : N) : ascii :=
  match String.get (N.to_nat n) b64_alphabet with
  | Some c => c
  | None => "="%char
  end.

Fixpoint b64encode_bytes (l : list N) : string :=
  match l with
  | [] => EmptyString
  | [a] =>
      String (b64_digit (N.shiftr a 2))
        (String (b64_digit (N.shiftl (N.land a 3) 4)) "==")
  | [a; b] =>
      String (b64_digit (N.shiftr a 2))
        (String (b64_digit (N.lor (N.shiftl (N.land a 3) 4) (N.shiftr b 4)))
           (String (b64_digit (N.shiftl (N.land b 15) 2)) "="))
  | a :: b :: c :: l' =>
      String (b64_digit (N.shiftr a 2))
        (String (b64_digit (N.lor (N.shiftl (N.land a 3) 4) (N.shiftr b 4)))
           (String (b64_digit (N.lor (N.shiftl (N.land b 15) 2) (N.shiftr c 6)))
              (String (b64_digit (N.land c 63)) (b64encode_bytes l'))))
  end.

Definition b64encode (data : string) : string :=
  b64encode_bytes (map N_of_ascii (list_ascii_of_string data)).

(** [enumerate(l, start)] *)
Fixpoint enumerate {A} (start : Z) (l : list A) : list (Z * A) :=
  match l with
  | [] => []
  | a :: l' => (start, a) :: enumerate (start + 1) l'
  end.

End Py.

Import Py.

Declare Scope py_scope.
Delimit Scope py_scope with py.
Notation "x <- c ;; k" := (Py.bind c (fun x => k))
  (at level 61, c at next level, right associativity) : py_scope.
Notation "' pat <- c ;; k" := (Py.bind c (fun x => match x with pat => k end))
  (at level 61, pat pattern, c at next level, right associativity) : py_scope.
Open Scope py_scope.

(** A bounding box [[x0, y0, x1, y1]] as the detector returns it: a list,
    whose length the code does not check. *)
Definition bbox := list float.

(* ------------------------------------------------------------------ *)
(** * docker/pdf-extract-kit/api_server.py *)

Module ApiServer.

(** ** What the capability providers return *)

(** One detected region, a dictionary with keys ['type'], ['bbox'] and,
    optionally, ['confidence']. *)
Record layout_element := mk_layout_element {
  le_type : string;
  le_bbox : bbox;
  le_confidence : option float
}.

Record page_layout := mk_page_layout {
  pl_width : float;
  pl_height : float;
  pl_elements : list layout_element
}.

(** [layout_model.detect(pdf_path)]: a dictionary with key ['pages']. *)
Record layout_results := mk_layout_results {
  lr_pages : list page_layout
}.

(** [table_model.extract(...)]: every key is read with [.get]. *)
Record table_result := mk_table_result {
  tr_html : option string;
  tr_markdown : option string;
  tr_data : option (list (list string));
  tr_headers : option (list string);
  tr_confidence : option float
}.

(** [formula_model.extract(...)] *)
Record formula_result := mk_formula_result {
  fr_latex : option string;
  fr_confidence : option float
}.

(** ** The document model *)

(** The ['pageNumber'] key of an entity is absent until [process_pdf]
    stamps it. *)
Record table := mk_table {
  table_id : string;
  table_bbox : bbox;
  table_html : string;
  table_markdown : string;
  table_data : list (list string);
  table_headers : list string;
  table_confidence : float;
  table_pageNumber : option Z
}.

Record formula := mk_formula {
  formula_id : string;
  formula_bbox : bbox;
  formula_type : string;
  formula_latex : string;
  formula_confidence : float;
  formula_pageNumber : option Z
}.

Record image := mk_image {
  image_id : string;
  image_bbox : bbox;
  image_base64 : string;
  image_type : string;
  image_confidence : float;
  image_pageNumber : option Z
}.

(** [elem_data]; the ['content'] key is present only once set. *)
Record elem_data := mk_elem_data {
  elem_type : string;
  elem_bbox : bbox;
  elem_confidence : float;
  elem_content : option string
}.

Record page_data := mk_page_data {
  pageNumber : Z;
  width : float;
  height : float;
  elements : list elem_data
}.

Record metadata := mk_metadata {
  totalPages : Z;
  totalTables : Z;
  totalImages : Z;
  totalFormulas : Z;
  textLength : Z
}.

(** [result]; ['metadata'] is the empty dictionary until the last step. *)
Record result := mk_result {
  text : string;
  pages : list page_data;            (* result['layout']['pages'] *)
  tables : list table;
  images : list image;
  formulas : list formula;
  meta : option metadata
}.

Definition set_content (e : elem_data) (c : string) : elem_data :=
  mk_elem_data (elem_type e) (elem_bbox e) (elem_confidence e) (Some c).

Definition stamp_table (t : table) (n : Z) : table :=
  mk_table (table_id t) (table_bbox t) (table_html t) (table_markdown t)
           (table_data t) (table_headers t) (table_confidence t) (Some n).

Definition stamp_formula (f : formula) (n : Z) : formula :=
  mk_formula (formula_id f) (formula_bbox f) (formula_type f)
             (formula_latex f) (formula_confidence f) (Some n).

Definition stamp_image (i : image) (n : Z) : image :=
  mk_image (image_id i) (image_bbox i) (image_base64 i) (image_type i)
           (image_confidence i) (Some n).

Definition add_text (r : result) (s : string) : result :=
  mk_result (text r ++ s) (pages r) (tables r) (images r) (formulas r) (meta r).

Definition append_table (r : result) (t : table) : result :=
  mk_result (text r) (pages r) (tables r ++ [t]) (images r) (formulas r) (meta r).

Definition append_formula (r : result) (f : formula) : result :=
  mk_result (text r) (pages r) (tables r) (images r) (formulas r ++ [f]) (meta r).

Definition append_image (r : result) (i : image) : result :=
  mk_result (text r) (pages r) (tables r) (images r ++ [i]) (formulas r) (meta r).

Definition append_page (r : result) (p : page_data) : result :=
  mk_result (text r) (pages r ++ [p]) (tables r) (images r) (formulas r) (meta r).

Definition set_metadata (r : result) (m : metadata) : result :=
  mk_result (text r) (pages r) (tables r) (images r) (formulas r) (Some m).

(** [f"{kind}_{page_num}_{int(bbox[0])}_{int(bbox[1])}"] *)
Definition entity_id (kind : string) (page_num : Z) (b : bbox) : outcome string :=
  x0 <- getitem b 0 ;;
  i0 <- int_of_float x0 ;;
  y0 <- getitem b 1 ;;
  i1 <- int_of_float y0 ;;
  Ok (kind ++ "_" ++ str_int page_num ++ "_" ++ str_int i0 ++ "_" ++ str_int i1).

(** The four flags of a request. *)
Record flags := mk_flags {
  extract_text : bool;
  extract_tables : bool;
  extract_images : bool;
  extract_formulas : bool
}.

(** The module-level model variables, [None] until initialised. *)
Record models := mk_models {
  layout_model : option (string -> outcome layout_results);
  table_model : option (string -> Z -> bbox -> outcome table_result);
  formula_model : option (string -> Z -> bbox -> outcome formula_result);
  ocr_model : option (string -> Z -> bbox -> outcome string)
}.

Definition none_has_no (attr : string) : exn :=
  mk_exn AttributeError ("'NoneType' object has no attribute '" ++ attr ++ "'").

Section Processing.

Variable g : models.

(** PyMuPDF on a clipped page region: open the document, take page
    [page_num - 1], render the clip with zoom factor 2 and return the PNG
    bytes ([pix.tobytes("png")]); any of these calls may raise. *)
Variable render_region : string -> Z -> bbox -> outcome string.

Definition extract_table (pdf_path : string) (page_num : Z) (b : bbox)
  : outcome table :=
  try_except
    (table_result <-
       match table_model g with
       | Some m => m pdf_path page_num b
       | None => Raise (none_has_no "extract")
       end ;;
     id <- entity_id "table" page_num b ;;
     Ok (mk_table id b
           (get (tr_html table_result) EmptyString)
           (get (tr_markdown table_result) EmptyString)
           (get (tr_data table_result) [])
           (get (tr_headers table_result) [])
           (get (tr_confidence table_result) 0.9%float)
           None))
    (fun _ =>
       id <- entity_id "table" page_num b ;;
       Ok (mk_table id b EmptyString EmptyString [] [] 0.0%float None)).

Definition extract_formula (pdf_path : string) (page_num : Z) (b : bbox)
  : outcome formula :=
  try_except
    (formula_result <-
       match formula_model g with
       | Some m => m pdf_path page_num b
       | None => Raise (none_has_no "extract")
       end ;;
     id <- entity_id "formula" page_num b ;;
     y1 <- getitem b 3 ;;
     y0 <- getitem b 1 ;;
     Ok (mk_formula id b
           (if PrimFloat.ltb 50%float (PrimFloat.sub y1 y0)
            then "block" else "inline")
           (get (fr_latex formula_result) EmptyString)
           (get (fr_confidence formula_result) 0.9%float)
           None))
    (fun _ =>
       id <- entity_id "formula" page_num b ;;
       Ok (mk_formula id b "unknown" EmptyString 0.0%float None)).

Definition extract_image (pdf_path : string) (page_num : Z) (b : bbox)
  : outcome image :=
  try_except
    (img_data <- render_region pdf_path page_num b ;;
     let img_base64 := b64encode img_data in
     id <- entity_id "image" page_num b ;;
     Ok (mk_image id b img_base64 "figure" 0.95%float None))
    (fun _ =>
       id <- entity_id "image" page_num b ;;
       Ok (mk_image id b EmptyString "unknown" 0.0%float None)).

Variable fl : flags.
Variable pdf_path : string.

(** The body of the loop over [page_layout['elements']], up to (not
    including) [page_data['elements'].append(elem_data)]. *)
Definition process_element (page_num : Z) (element : layout_element)
           (r : result) : outcome (elem_data * result) :=
  let elem0 := mk_elem_data (le_type element) (le_bbox element)
                            (get (le_confidence element) 1.0%float) None in
  (* Extract text content *)
  '(elem1, r1) <-
    (if extract_text fl && str_in (le_type element) ["text"; "title"; "header"]
     then match ocr_model g with
          | Some ocr =>
              text_content <- ocr pdf_path page_num (le_bbox element) ;;
              Ok (set_content elem0 text_content,
                  add_text r (text_content ++ " "))
          | None => Ok (elem0, r)
          end
     else Ok (elem0, r)) ;;
  (* Extract table *)
  '(elem2, r2) <-
    (if extract_tables fl && String.eqb (le_type element) "table"
     then t <- extract_table pdf_path page_num (le_bbox element) ;;
          let t := stamp_table t page_num in
          Ok (set_content elem1
                ("Table with " ++ str_int (len (table_data t)) ++ " rows"),
              append_table r1 t)
     else Ok (elem1, r1)) ;;
  (* Extract formula *)
  '(elem3, r3) <-
    (if extract_formulas fl && String.eqb (le_type element) "formula"
     then formula_data <- extract_formula pdf_path page_num (le_bbox element) ;;
          let formula_data := stamp_formula formula_data page_num in
          Ok (set_content elem2 (formula_latex formula_data),
              append_formula r2 formula_data)
     else Ok (elem2, r2)) ;;
  (* Extract image *)
  (if extract_images fl && str_in (le_type element) ["image"; "figure"]
   then image_data <- extract_image pdf_path page_num (le_bbox element) ;;
        let image_data := stamp_image image_data page_num in
        Ok (set_content elem3 "Image", append_image r3 image_data)
   else Ok (elem3, r3)).

(** [for element in page_layout['elements']: ...], with the list
    [page_data['elements']] built so far. *)
Fixpoint process_elements (page_num : Z) (els : list layout_element)
         (acc : list elem_data) (r : result)
  : outcome (list elem_data * result) :=
  match els with
  | [] => Ok (acc, r)
  | element :: els' =>
      '(elem, r') <- process_element page_num element r ;;
      process_elements page_num els' (acc ++ [elem]) r'
  end.

(** The body of the loop over the pages. *)
Definition process_page (page_num : Z) (page_layout : page_layout) (r : result)
  : outcome result :=
  '(els, r') <- process_elements page_num (pl_elements page_layout) [] r ;;
  let page_data := mk_page_data page_num (pl_width page_layout)
                                (pl_height page_layout) els in
  Ok (append_page r' page_data).

(** [for page_num, page_layout in enumerate(layout_results['pages'], 1)] *)
Fixpoint process_pages (page_num : Z) (pls : list page_layout) (r : result)
  : outcome result :=
  match pls with
  | [] => Ok r
  | page_layout :: pls' =>
      r' <- process_page page_num page_layout r ;;
      process_pages (page_num + 1) pls' r'
  end.

Definition empty_result : result :=
  mk_result EmptyString [] [] [] [] None.

Definition process_pdf : outcome result :=
  try_except
    (layout_results <-
       match layout_model g with
       | Some detect => detect pdf_path
       | None => Raise (none_has_no "detect")
       end ;;
     r <- process_pages 1 (lr_pages layout_results) empty_result ;;
     Ok (set_metadata r
           (mk_metadata (len (pages r)) (len (tables r)) (len (images r))
                        (len (formulas r)) (strlen (text r)))))
    (fun e => Raise e).

End Processing.

(** [format_as_html(data)] *)
Definition format_as_html (data : result) : outcome string :=
  m <- match meta data with
       | Some m => Ok m
       | None => Raise (mk_exn KeyError "'totalPages'")
       end ;;
  let html := "<html><body>" in
  let html := html ++ "<h1>Extracted Document</h1>" in
  let html := html ++ "<p>Pages: " ++ str_int (totalPages m) ++ "</p>" in
  let html :=
    if str_truthy (text data)
    then (html ++ "<h2>Text Content</h2>") ++ "<p>" ++ text data ++ "</p>"
    else html in
  let html :=
    match tables data with
    | [] => html
    | _ =>
        fold_left (fun h t => h ++ table_html t) (tables data)
          (html ++ "<h2>Tables (" ++ str_int (len (tables data)) ++ ")</h2>")
    end in
  Ok (html ++ "</body></html>").

Definition nl : string := String (ascii_of_N 10) EmptyString.

(** [format_as_markdown(data)] *)
Definition format_as_markdown (data : result) : outcome string :=
  m <- match meta data with
       | Some m => Ok m
       | None => Raise (mk_exn KeyError "'totalPages'")
       end ;;
  let md := "# Extracted Document" ++ nl ++ nl in
  let md := md ++ "**Pages:** " ++ str_int (totalPages m) ++ nl ++ nl in
  let md :=
    if str_truthy (text data)
    then (md ++ "## Text Content" ++ nl ++ nl) ++ text data ++ nl ++ nl
    else md in
  let md :=
    match tables data with
    | [] => md
    | _ =>
        fold_left (fun h t => h ++ table_markdown t ++ nl ++ nl) (tables data)
          (md ++ "## Tables (" ++ str_int (len (tables data)) ++ ")" ++ nl ++ nl)
    end in
  Ok md.

(** ** The [/extract] endpoint *)

(** [all([layout_model, table_model, formula_model, ocr_model])] *)
Definition all_models (g : models) : bool :=
  match layout_model g, table_model g, formula_model g, ocr_model g with
  | Some _, Some _, Some _, Some _ => true
  | _, _, _, _ => false
  end.

(** [health_check()]: the fields ['status'], ['service'] and
    ['models_loaded'] of the answer. *)
Definition health_check (g : models) : string * string * bool :=
  ("healthy", "pdf-extract-kit", all_models g).

(** The package [pdf_extract_kit]: the four constructors, each of which
    may raise. *)
Record kit := mk_kit {
  DocLayoutYOLO : outcome (string -> outcome layout_results);
  TableExtractor : outcome (string -> Z -> bbox -> outcome table_result);
  FormulaExtractor : outcome (string -> Z -> bbox -> outcome formula_result);
  OCRExtractor : outcome (string -> Z -> bbox -> outcome string)
}.

(** [initialize_models()]: the models constructed before a failure stay
    assigned. *)
Definition initialize_models (import_kit : outcome kit) (g : models)
  : bool * models :=
  match import_kit with
  | Raise _ => (false, g)
  | Ok k =>
      match DocLayoutYOLO k with
      | Raise _ => (false, g)
      | Ok lm =>
          let g1 := mk_models (Some lm) (table_model g) (formula_model g) (ocr_model g) in
          match TableExtractor k with
          | Raise _ => (false, g1)
          | Ok tm =>
              let g2 := mk_models (Some lm) (Some tm) (formula_model g) (ocr_model g) in
              match FormulaExtractor k with
              | Raise _ => (false, g2)
              | Ok fm =>
                  let g3 := mk_models (Some lm) (Some tm) (Some fm) (ocr_model g) in
                  match OCRExtractor k with
                  | Raise _ => (false, g3)
                  | Ok om => (true, mk_models (Some lm) (Some tm) (Some fm) (Some om))
                  end
              end
          end
      end
  end.

(** The multipart request: the file name of [request.files['file']]
    ([None] when the key is absent) and the form fields. *)
Record request := mk_request {
  req_file : option string;
  form_extract_text : option string;
  form_extract_tables : option string;
  form_extract_images : option string;
  form_extract_formulas : option string;
  form_output_format : option string
}.

Inductive body :=
| JsonError (error : string)
| JsonResult (r : result)
| Page (s : string).

Record response := mk_response { status : Z; payload : body }.

(** [request.form.get(key, default).lower() == 'true'] *)
Definition form_flag (field : option string) (default : string) : bool :=
  String.eqb (lower (get field default)) "true".

Section Endpoint.

Variable import_kit : outcome kit.
Variable render_region : string -> Z -> bbox -> outcome string.

(** [pdf_file.save(temp_path)] and [os.remove(temp_path)]: both are inside
    the [try] of the endpoint. *)
Variable save_upload : string -> outcome unit.
Variable os_remove : string -> outcome unit.

(** [extract_document()], for the current module-level models; returns the
    response and the models afterwards. *)
Definition extract_document (g : models) (req : request) : response * models :=
  match req_file req with
  | None => (mk_response 400 (JsonError "No file provided"), g)
  | Some filename =>
      if String.eqb filename EmptyString
      then (mk_response 400 (JsonError "Empty filename"), g)
      else
        let fl := mk_flags (form_flag (form_extract_text req) "true")
                           (form_flag (form_extract_tables req) "true")
                           (form_flag (form_extract_images req) "true")
                           (form_flag (form_extract_formulas req) "true") in
        let output_format := get (form_output_format req) "json" in
        let temp_path := "/tmp/" ++ filename in
        match save_upload temp_path with
        | Raise e => (mk_response 500 (JsonError (str_exn e)), g)
        | Ok _ =>
            let '(ready, g') :=
              if negb (all_models g) then initialize_models import_kit g
              else (true, g) in
            if negb ready
            then (mk_response 500 (JsonError "Failed to initialize models"), g')
            else
              let answer :=
                result <- process_pdf g' render_region fl temp_path ;;
                _ <- os_remove temp_path ;;
                if String.eqb output_format "html"
                then s <- format_as_html result ;; Ok (Page s)
                else if String.eqb output_format "markdown"
                then s <- format_as_markdown result ;; Ok (Page s)
                else Ok (JsonResult result) in
              match answer with
              | Ok b => (mk_response 200 b, g')
              | Raise e => (mk_response 500 (JsonError (str_exn e)), g')
              end
        end
  end.

End Endpoint.

End ApiServer.

(* ------------------------------------------------------------------ *)
(** * scripts/pdf_extract_server.py *)

Module PdfExtractServer.

(** ** Logging

    The two extraction strategies differ in what they log, so their
    [logger] calls are part of the embedding: a computation yields an
    outcome together with the lines it logged. *)

Inductive level := INFO | WARNING | ERROR.

Definition log := list (level * string).

Definition logged (A : Type) : Type := (outcome A * log)%type.

Definition lret {A} (a : A) : logged A := (Ok a, []).

Definition lift {A} (c : outcome A) : logged A := (c, []).

Definition lbind {A B} (c : logged A) (k : A -> logged B) : logged B :=
  match c with
  | (Ok a, l) => let '(b, l') := k a in (b, (l ++ l')%list)
  | (Raise e, l) => (Raise e, l)
  end.

Definition say (lv : level) (msg : string) : logged unit := (Ok tt, [(lv, msg)]).

Declare Scope log_scope.
Notation "x <- c ;; k" := (lbind c (fun x => k))
  (at level 61, c at next level, right associativity) : log_scope.
Notation "' pat <- c ;; k" := (lbind c (fun x => match x with pat => k end))
  (at level 61, pat pattern, c at next level, right associativity) : log_scope.

(** ** The PyMuPDF document, as the code reads it *)

(** A block of [page.get_text("dict")]: the key ['lines'] is present in
    text blocks only; a line is given by the ['text'] of its spans. *)
Record fitz_block := mk_fitz_block {
  block_lines : option (list (list string));
  block_bbox : list float
}.

(** [fitz.Pixmap(doc, xref)] *)
Record fitz_pixmap := mk_fitz_pixmap {
  pix_n : Z;
  pix_alpha : Z;
  pix_width : Z;
  pix_height : Z;
  pix_tobytes : outcome string          (* pix.tobytes("png") *)
}.

(** An entry of [page.find_tables()]; [ft_to_pandas] is [None] when the
    object has no attribute [to_pandas], else [table.to_pandas().to_html()]. *)
Record fitz_table := mk_fitz_table {
  ft_extract : outcome (list (list string));
  ft_bbox : list float;
  ft_to_pandas : option (outcome string)
}.

Record fitz_page := mk_fitz_page {
  get_text : outcome string;
  get_text_dict : outcome (list fitz_block);
  get_images : outcome (list (outcome fitz_pixmap));
  find_tables : outcome (list fitz_table);
  rect_width : float;
  rect_height : float
}.

(** An open document: what [doc.load_page(i)] gives for each [i] in
    [range(len(doc))]. *)
Definition fitz_document := list (outcome fitz_page).

(** ** The document model *)

(** Entries of a bounding box: [pix.width] is an int, rectangle
    coordinates are floats. *)
Inductive num :=
| Int (n : Z)
| Float (x : float).

Record element := mk_element {
  elem_type : string;
  elem_bbox : list num;
  elem_content : string;
  elem_confidence : float
}.

Record image := mk_image {
  image_id : string;
  image_pageNumber : Z;
  image_bbox : list num;
  image_base64 : string;
  image_type : string;
  image_confidence : float;
  image_width : Z;
  image_height : Z
}.

Record table := mk_table {
  table_id : string;
  table_pageNumber : Z;
  table_bbox : list num;
  table_html : string;
  table_markdown : string;
  table_data : list (list string);
  table_headers : list string;
  table_confidence : float;
  table_rows : Z;
  table_columns : Z
}.

(** Nothing is ever appended to ['formulas']; its entries have no shape in
    this file. *)
Definition formula := unit.

Record page_data := mk_page_data {
  pageNumber : Z;
  width : float;
  height : float;
  elements : list element
}.

(** The three shapes of the ['metadata'] dictionary. *)
Inductive metadata :=
| NoMetadata
| Counts (totalPages totalTables totalImages totalFormulas textLength : Z)
         (extractionMethod : string)
| Failure (error : string).

Record result := mk_result {
  text : string;
  pages : list page_data;              (* result['layout']['pages'] *)
  tables : list table;
  images : list image;
  formulas : list formula;
  meta : metadata
}.

Definition totalPages (m : metadata) : option Z :=
  match m with Counts n _ _ _ _ _ => Some n | _ => None end.
Definition totalTables (m : metadata) : option Z :=
  match m with Counts _ n _ _ _ _ => Some n | _ => None end.
Definition totalImages (m : metadata) : option Z :=
  match m with Counts _ _ n _ _ _ => Some n | _ => None end.
Definition totalFormulas (m : metadata) : option Z :=
  match m with Counts _ _ _ n _ _ => Some n | _ => None end.
Definition textLength (m : metadata) : option Z :=
  match m with Counts _ _ _ _ n _ => Some n | _ => None end.
Definition error (m : metadata) : option string :=
  match m with Failure e => Some e | _ => None end.

Definition nl : string := String (ascii_of_N 10) EmptyString.

Local Open Scope log_scope.

Section Strategies.

(** [import fitz; fitz.open(pdf_path)] *)
Variable fitz_open : string -> outcome fitz_document.

(** The loop over [blocks['blocks']] and the lines of each text block. *)
Definition line_elements (block : fitz_block) (line : list string) : list element :=
  let bbox := block_bbox block in
  let line_text := join " " line in
  if str_truthy (strip line_text)
  then [mk_element "text" (map Float bbox) (strip line_text) 0.9%float]
  else [].

Definition block_elements (block : fitz_block) : list element :=
  match block_lines block with
  | Some lines => flat_map (line_elements block) lines
  | None => []
  end.

Definition text_elements (blocks : list fitz_block) : list element :=
  flat_map block_elements blocks.

(** [for img_index, img in enumerate(image_list): ...] *)
Fixpoint image_loop (page_num img_index : Z) (image_list : list (outcome fitz_pixmap))
         (imgs : list image) (elements : list element)
  : outcome (list image * list element) :=
  match image_list with
  | [] => Ok (imgs, elements)
  | new_pixmap :: image_list' =>
      (pix <- new_pixmap ;;
       '(imgs', elements') <-
         (if (pix_n pix - pix_alpha pix <? 4)%Z
          then img_data <- pix_tobytes pix ;;
               let img_base64 := b64encode img_data in
               let box := [Int 0; Int 0; Int (pix_width pix); Int (pix_height pix)] in
               Ok ((imgs ++ [mk_image ("img_" ++ str_int page_num ++ "_" ++ str_int img_index)
                                      (page_num + 1) box img_base64 "photo" 0.8%float
                                      (pix_width pix) (pix_height pix)])%list,
                   (elements ++ [mk_element "image" box "Image" 0.8%float])%list)
          else Ok (imgs, elements)) ;;
       image_loop page_num (img_index + 1) image_list' imgs' elements')%py
  end.

(** The body of the [try] inside the loop over the tables. *)
Definition table_entry (page_num table_index : Z) (tb : fitz_table)
  : outcome (table * element) :=
  (table_data <- ft_extract tb ;;
   let headers := match table_data with [] => [] | h :: _ => h end in
   let data := if (len table_data >? 1)%Z then tl table_data else [] in
   html <- match ft_to_pandas tb with
           | Some to_html => to_html
           | None => Ok EmptyString
           end ;;
   Ok (mk_table ("table_" ++ str_int page_num ++ "_" ++ str_int table_index)
                (page_num + 1) (map Float (ft_bbox tb)) html EmptyString
                data headers 0.8%float (len data) (len headers),
       mk_element "table" (map Float (ft_bbox tb))
                  ("Table with " ++ str_int (len data) ++ " rows") 0.8%float))%py.

(** [for table_index, table in enumerate(tables): try: ... except ...] *)
Fixpoint table_loop (page_num table_index : Z) (tbls : list fitz_table)
         (tabs : list table) (elements : list element)
  : logged (list table * list element) :=
  match tbls with
  | [] => lret (tabs, elements)
  | tb :: tbls' =>
      '(tabs', elements') <-
        match table_entry page_num table_index tb with
        | Ok (t, el) => lret ((tabs ++ [t])%list, (elements ++ [el])%list)
        | Raise e =>
            _ <- say WARNING ("Failed to extract table: " ++ str_exn e) ;;
            lret (tabs, elements)
        end ;;
      table_loop page_num (table_index + 1) tbls' tabs' elements'
  end.

(** The body of the loop over the pages, for the page with index
    [page_num]. *)
Definition page_step (page_num : Z) (load_page : outcome fitz_page) (r : result)
  : logged result :=
  page <- lift load_page ;;
  (* Extract text *)
  txt <- lift (get_text page) ;;
  let r1 := mk_result (text r ++ txt ++ nl) (pages r) (tables r) (images r)
                      (formulas r) (meta r) in
  (* Extract basic layout *)
  blocks <- lift (get_text_dict page) ;;
  let elements := text_elements blocks in
  (* Extract images *)
  image_list <- lift (get_images page) ;;
  '(imgs, elements1) <- lift (image_loop page_num 0 image_list (images r1) elements) ;;
  (* Extract tables (basic detection) *)
  tbls <- lift (find_tables page) ;;
  '(tabs, elements2) <- table_loop page_num 0 tbls (tables r1) elements1 ;;
  (* Add page layout *)
  lret (mk_result (text r1)
                  (pages r1 ++ [mk_page_data (page_num + 1) (rect_width page)
                                             (rect_height page) elements2])
                  tabs imgs (formulas r1) (meta r1)).

(** [for page_num in range(len(doc)): ...] from [page_num] on. *)
Fixpoint page_loop (page_num : Z) (doc : fitz_document) (r : result)
  : logged result :=
  match doc with
  | [] => lret r
  | load_page :: doc' =>
      r' <- page_step page_num load_page r ;;
      page_loop (page_num + 1) doc' r'
  end.

Definition empty_result : result :=
  mk_result EmptyString [] [] [] [] NoMetadata.

(** The result built in the [except] branch. *)
Definition failed_result (e : exn) : result :=
  mk_result "Extraction failed" [] [] [] [] (Failure (str_exn e)).

(** [extract_with_basic_tools(pdf_path)]: the returned dictionary and the
    lines logged. *)
Definition extract_with_basic_tools (pdf_path : string) : result * log :=
  match (doc <- lift (fitz_open pdf_path) ;;
         r <- page_loop 0 doc empty_result ;;
         lret (mk_result (text r) (pages r) (tables r) (images r) (formulas r)
                 (Counts (len (pages r)) (len (tables r)) (len (images r))
                         (len (formulas r)) (strlen (text r)) "PyMuPDF-basic")))
  with
  | (Ok r, l) => (r, l)
  | (Raise e, l) =>
      (failed_result e, (l ++ [(ERROR, ("Basic extraction failed: " ++ str_exn e)%string)])%list)
  end.

(** [extract_with_pdf_extract_kit(pdf_path)] *)
Definition extract_with_pdf_extract_kit (pdf_path : string) : result * log :=
  let '(r, l) := extract_with_basic_tools pdf_path in
  (r, (INFO, "Using PDF-Extract-Kit models...") :: l).

(** ** The [/extract] endpoint *)

Record request := mk_request {
  req_file : option string;
  form_extract_text : option string;
  form_extract_tables : option string;
  form_extract_images : option string;
  form_extract_formulas : option string
}.

Inductive body :=
| JsonError (error : string)
| JsonResult (r : result).

Record response := mk_response { status : Z; payload : body }.

Definition form_flag (field : option string) (default : string) : bool :=
  String.eqb (lower (get field default)) "true".

(** [extract_document()], given the module-level [models_loaded] and the
    name of the temporary file the upload is saved to.  The four options
    are read from the form and not used afterwards.  The endpoint's own log
    lines and the handling of the temporary file are left out. *)
Definition extract_document (models_loaded : bool) (temp_path : string)
           (req : request) : response :=
  match req_file req with
  | None => mk_response 400 (JsonError "No file provided")
  | Some filename =>
      if String.eqb filename EmptyString
      then mk_response 400 (JsonError "Empty filename")
      else
        let extract_text := form_flag (form_extract_text req) "true" in
        let extract_tables := form_flag (form_extract_tables req) "true" in
        let extract_images := form_flag (form_extract_images req) "true" in
        let extract_formulas := form_flag (form_extract_formulas req) "false" in
        let result :=
          if models_loaded
          then fst (extract_with_pdf_extract_kit temp_path)
          else fst (extract_with_basic_tools temp_path) in
        mk_response 200 (JsonResult result)
  end.

End Strategies.

(** ** The module-level model variables *)

Section Models.

(** The classes of the layout detector, the table extractor and the OCR
    engine. *)
Variables detector extractor engine : Type.

Record globals := mk_globals {
  models_loaded : bool;
  layout_detector : option detector;
  table_extractor : option extractor;
  ocr_engine : option engine
}.

(** The state the module starts in. *)
Definition initial_globals : globals := mk_globals false None None None.

(** [from doclayout_yolo import YOLOv10; YOLOv10("path/to/doclayout_yolo.pt")]
    and [import paddleocr; paddleocr.PaddleOCR(use_angle_cls=True, lang='en')]:
    the object, or the exception of the import or of the constructor. *)
Variable new_layout_detector : outcome detector.
Variable new_ocr_engine : outcome engine.

(** [except ImportError] *)
Definition is_import_error (e : exn) : bool :=
  match exn_cls e with ImportError => true | _ => false end.

(** [load_models()]: the returned flag and the variables afterwards.  Its
    log lines are left out. *)
Definition load_models (st : globals) : bool * globals :=
  if models_loaded st then (true, st)
  else
    let after_layout : outcome globals :=
      match new_layout_detector with
      | Ok d => Ok (mk_globals (models_loaded st) (Some d) (table_extractor st)
                               (ocr_engine st))
      | Raise e => if is_import_error e then Ok st else Raise e
      end in
    match after_layout with
    | Raise _ => (false, st)
    | Ok st1 =>
        let after_ocr : outcome globals :=
          match new_ocr_engine with
          | Ok o => Ok (mk_globals (models_loaded st1) (layout_detector st1)
                                   (table_extractor st1) (Some o))
          | Raise e => if is_import_error e then Ok st1 else Raise e
          end in
        match after_ocr with
        | Raise _ => (false, st1)
        | Ok st2 =>
            (true, mk_globals true (layout_detector st2) (table_extractor st2)
                              (ocr_engine st2))
        end
    end.

(** [health_check()]: the fields ['status'], ['service'], ['models_loaded']
    and ['version']. *)
Definition health_check (st : globals) : string * string * bool * string :=
  ("healthy", "pdf-extract-kit-local", models_loaded st, "1.0.0").

(** [load_models_endpoint()]: the fields ['success'] and ['models_loaded']
    of the answer, and the variables afterwards. *)
Definition load_models_endpoint (st : globals) : (bool * bool) * globals :=
  let '(success, st') := load_models st in
  ((success, models_loaded st'), st').

(** [x is not None] *)
Definition is_not_none {A} (o : option A) : bool :=
  match o with Some _ => true | None => false end.

(** [models_status()]: ['models_loaded'] and, under ['available_models'],
    ['layout_detector'], ['table_extractor'] and ['ocr_engine']. *)
Definition models_status (st : globals) : bool * (bool * bool * bool) :=
  (models_loaded st,
   (is_not_none (layout_detector st), is_not_none (table_extractor st),
    is_not_none (ocr_engine st))).

End Models.

Arguments mk_globals {detector extractor engine}.
Arguments models_loaded {detector extractor engine}.
Arguments layout_detector {detector extractor engine}.
Arguments table_extractor {detector extractor engine}.
Arguments ocr_engine {detector extractor engine}.
Arguments initial_globals {detector extractor engine}.
Arguments load_models {detector extractor engine}.
Arguments health_check {detector extractor engine}.
Arguments load_models_endpoint {detector extractor engine}.
Arguments models_status {detector extractor engine}.

End PdfExtractServer.

(* ------------------------------------------------------------------ *)
(** * Specification vocabulary *)

Module Spec.

Import ApiServer.

Definition concat_strings (l : list string) : string :=
  fold_right String.append EmptyString l.

(** The element types dispatched to the text and to the image extractor. *)
Definition text_typed (ty : string) : bool := str_in ty ["text"; "title"; "header"].
Definition image_typed (ty : string) : bool := str_in ty ["image"; "figure"].

(** What the detector said about a region: type, bbox and confidence,
    1.0 when the detector gave none. *)
Definition detected (el : layout_element) : string * bbox * float :=
  (le_type el, le_bbox el, get (le_confidence el) 1.0%float).

Definition recorded (e : elem_data) : string * bbox * float :=
  (elem_type e, elem_bbox e, elem_confidence e).

Definition detected_pages (layout : layout_results) : list (list (string * bbox * float)) :=
  map (fun pl => map detected (pl_elements pl)) (lr_pages layout).

Definition recorded_pages (r : result) : list (list (string * bbox * float)) :=
  map (fun pd => map recorded (elements pd)) (pages r).

(** The metadata hold the sizes of the collections. *)
Definition metadata_counts (r : result) : Prop :=
  exists m, meta r = Some m /\
    totalPages m = len (pages r) /\
    totalTables m = len (tables r) /\
    totalImages m = len (images r) /\
    totalFormulas m = len (formulas r) /\
    textLength m = strlen (text r).

(** The id scheme [kind_page_int(x0)_int(y0)] on the first two entries
    of a bounding box, [int] truncating towards zero. *)
Definition id_scheme (kind : string) (n : Z) (b : bbox) (id : string) : Prop :=
  exists x0 y0 i0 i1,
    nth_error b 0 = Some x0 /\ nth_error b 1 = Some y0 /\
    int_of_float x0 = Ok i0 /\ int_of_float y0 = Ok i1 /\
    id = kind ++ "_" ++ str_int n ++ "_" ++ str_int i0 ++ "_" ++ str_int i1.

(** An entity with id [id], bounding box [b] and page stamp [pn] stems
    from a region of page [n] (counted from 1) of the layout, whose type
    satisfies [typed] and whose bbox is [b], and its id follows the scheme
    for [kind], [n] and [b]. *)
Definition identified (kind : string) (typed : string -> bool)
           (layout : layout_results) (id : string) (b : bbox) (pn : option Z)
  : Prop :=
  exists n pl el,
    In (n, pl) (enumerate 1 (lr_pages layout)) /\
    In el (pl_elements pl) /\ typed (le_type el) = true /\
    b = le_bbox el /\ pn = Some n /\
    id_scheme kind n b id.

(** The kind of a formula entity: [unknown] for the placeholder, else
    decided by the height of the bounding box. *)
Definition formula_kind_ok (f : formula) : Prop :=
  (formula_type f = "unknown" /\ formula_latex f = EmptyString /\
   formula_confidence f = 0%float)
  \/
  (exists y0 y1,
      nth_error (formula_bbox f) 1 = Some y0 /\
      nth_error (formula_bbox f) 3 = Some y1 /\
      In (formula_type f) ["block"; "inline"] /\
      (formula_type f = "block" <-> PrimFloat.ltb 50 (PrimFloat.sub y1 y0) = true)).

Section Assembler.

Variable g : models.
Variable render_region : string -> Z -> bbox -> outcome string.
Variable fl : flags.
Variable pdf_path : string.

(** What [table_model.extract] and [formula_model.extract] answer:
    [AttributeError] while the model is [None]. *)
Definition table_answer (n : Z) (b : bbox) : outcome table_result :=
  match table_model g with
  | Some m => m pdf_path n b
  | None => Raise (none_has_no "extract")
  end.

Definition formula_answer (n : Z) (b : bbox) : outcome formula_result :=
  match formula_model g with
  | Some m => m pdf_path n b
  | None => Raise (none_has_no "extract")
  end.

(** The ['content'] an element of page [n] ends with, when its processing
    returns: the summary of the last extractor that ran on it. *)
Definition content_of (n : Z) (el : layout_element) : option string :=
  if extract_images fl && image_typed (le_type el) then Some "Image"
  else if extract_formulas fl && String.eqb (le_type el) "formula" then
    match extract_formula g pdf_path n (le_bbox el) with
    | Ok f => Some (formula_latex f)
    | Raise _ => None
    end
  else if extract_tables fl && String.eqb (le_type el) "table" then
    match extract_table g pdf_path n (le_bbox el) with
    | Ok t => Some ("Table with " ++ str_int (len (table_data t)) ++ " rows")
    | Raise _ => None
    end
  else if extract_text fl && text_typed (le_type el) then
    match ocr_model g with
    | Some ocr =>
        match ocr pdf_path n (le_bbox el) with
        | Ok s => Some s
        | Raise _ => None
        end
    | None => None
    end
  else None.

(** Element [e] of the result records region [el] of page [n]. *)
Definition element_records (n : Z) (el : layout_element) (e : elem_data) : Prop :=
  recorded e = detected el /\ elem_content e = content_of n el.

(** A page of the result records a numbered page of the layout. *)
Definition page_records (npl : Z * page_layout) (pd : page_data) : Prop :=
  pageNumber pd = fst npl /\
  width pd = pl_width (snd npl) /\
  height pd = pl_height (snd npl) /\
  Forall2 (element_records (fst npl)) (pl_elements (snd npl)) (elements pd).

(** The entity an enabled extractor contributes for element [el] of page
    [n]. *)
Definition table_from (n : Z) (el : layout_element) (t : table) : Prop :=
  extract_tables fl = true /\ le_type el = "table" /\
  exists t0, extract_table g pdf_path n (le_bbox el) = Ok t0 /\ t = stamp_table t0 n.

Definition formula_from (n : Z) (el : layout_element) (f : formula) : Prop :=
  extract_formulas fl = true /\ le_type el = "formula" /\
  exists f0, extract_formula g pdf_path n (le_bbox el) = Ok f0 /\ f = stamp_formula f0 n.

Definition image_from (n : Z) (el : layout_element) (i : image) : Prop :=
  extract_images fl = true /\ image_typed (le_type el) = true /\
  exists i0, extract_image render_region pdf_path n (le_bbox el) = Ok i0 /\
             i = stamp_image i0 n.

(** [x] comes from some element of some numbered page of [npls]. *)
Definition from_pages {X} (from : Z -> layout_element -> X -> Prop)
           (npls : list (Z * page_layout)) (x : X) : Prop :=
  exists n pl el, In (n, pl) npls /\ In el (pl_elements pl) /\ from n el x.

(** The text one element adds to [result['text']]. *)
Definition text_added (n : Z) (el : layout_element) : string :=
  if extract_text fl && text_typed (le_type el)
  then match ocr_model g with
       | Some ocr =>
           match ocr pdf_path n (le_bbox el) with
           | Ok s => s ++ " "
           | Raise _ => EmptyString
           end
       | None => EmptyString
       end
  else EmptyString.

Definition page_text_added (npl : Z * page_layout) : string :=
  concat_strings (map (text_added (fst npl)) (pl_elements (snd npl))).

(** [r'] is [r] after the regions [els] of page [n] were processed and
    recorded as [es]. *)
Definition extends_by_elements (n : Z) (els : list layout_element)
           (es : list elem_data) (r r' : result) : Prop :=
  Forall2 (element_records n) els es /\
  pages r' = pages r /\ meta r' = meta r /\
  text r' = (text r ++ concat_strings (map (text_added n) els))%string /\
  (exists ts, tables r' = (tables r ++ ts)%list /\
              Forall (fun t => exists el, In el els /\ table_from n el t) ts) /\
  (exists fs, formulas r' = (formulas r ++ fs)%list /\
              Forall (fun f => exists el, In el els /\ formula_from n el f) fs) /\
  (exists ims, images r' = (images r ++ ims)%list /\
               Forall (fun i => exists el, In el els /\ image_from n el i) ims).

(** [r'] is [r] after the numbered pages [npls] were processed. *)
Definition extends_by_pages (npls : list (Z * page_layout)) (r r' : result) : Prop :=
  (exists pds, pages r' = (pages r ++ pds)%list /\ Forall2 page_records npls pds) /\
  meta r' = meta r /\
  text r' = (text r ++ concat_strings (map page_text_added npls))%string /\
  (exists ts, tables r' = (tables r ++ ts)%list /\
              Forall (from_pages table_from npls) ts) /\
  (exists fs, formulas r' = (formulas r ++ fs)%list /\
              Forall (from_pages formula_from npls) fs) /\
  (exists ims, images r' = (images r ++ ims)%list /\
               Forall (from_pages image_from npls) ims).

End Assembler.

(** ** Elements and the entities made from them *)

Definition table_typed (ty : string) : bool := String.eqb ty "table".
Definition formula_typed (ty : string) : bool := String.eqb ty "formula".

(** The elements of a document, each with the number of its page, in
    page order and then in the order of the page. *)
Definition doc_elements (r : result) : list (Z * elem_data) :=
  flat_map (fun pd => map (pair (pageNumber pd)) (elements pd)) (pages r).

Definition typed_elements (typed : string -> bool) (nes : list (Z * elem_data))
  : list (Z * elem_data) :=
  filter (fun ne => typed (elem_type (snd ne))) nes.

(** [f"Table with {len(table_data['data'])} rows"] *)
Definition table_summary (t : table) : string :=
  "Table with " ++ str_int (len (table_data t)) ++ " rows".

(** An element and the entity made from it: same page, same bbox, and
    the content of the element is the summary of the entity. *)
Definition table_linked (ne : Z * elem_data) (t : table) : Prop :=
  table_pageNumber t = Some (fst ne) /\
  table_bbox t = elem_bbox (snd ne) /\
  elem_content (snd ne) = Some (table_summary t).

Definition formula_linked (ne : Z * elem_data) (f : formula) : Prop :=
  formula_pageNumber f = Some (fst ne) /\
  formula_bbox f = elem_bbox (snd ne) /\
  elem_content (snd ne) = Some (formula_latex f).

Definition image_linked (ne : Z * elem_data) (i : image) : Prop :=
  image_pageNumber i = Some (fst ne) /\
  image_bbox i = elem_bbox (snd ne) /\
  elem_content (snd ne) = Some "Image".

(** ** Rendered pages *)

(** The HTML page for a page count, a text and the HTML of the tables. *)
Definition html_page (n : Z) (txt : string) (htmls : list string) : string :=
  "<html><body><h1>Extracted Document</h1><p>Pages: " ++ str_int n ++ "</p>"
  ++ (if str_truthy txt then "<h2>Text Content</h2><p>" ++ txt ++ "</p>"
      else EmptyString)
  ++ match htmls with
     | [] => EmptyString
     | _ => "<h2>Tables (" ++ str_int (len htmls) ++ ")</h2>" ++ concat_strings htmls
     end
  ++ "</body></html>".

(** The Markdown page for a page count, a text and the Markdown of the
    tables. *)
Definition markdown_page (n : Z) (txt : string) (mds : list string) : string :=
  "# Extracted Document" ++ nl ++ nl ++ "**Pages:** " ++ str_int n ++ nl ++ nl
  ++ (if str_truthy txt then "## Text Content" ++ nl ++ nl ++ txt ++ nl ++ nl
      else EmptyString)
  ++ match mds with
     | [] => EmptyString
     | _ => "## Tables (" ++ str_int (len mds) ++ ")" ++ nl ++ nl
            ++ concat_strings (map (fun md => md ++ nl ++ nl) mds)
     end.

(** ** Requests *)

(** The upload is missing or has an empty file name. *)
Definition bad_upload (req : request) : Prop :=
  req_file req = None \/ req_file req = Some EmptyString.

(** The flags a request asks for: on unless the form field is given and is
    not [true] in some capitalisation. *)
Definition request_flags (req : request) : flags :=
  mk_flags (form_flag (form_extract_text req) "true")
           (form_flag (form_extract_tables req) "true")
           (form_flag (form_extract_images req) "true")
           (form_flag (form_extract_formulas req) "true").

(** The body for a document in the format asked for; the format is
    compared as it is given. *)
Definition rendered (req : request) (r : result) (pages_shown : Z) : body :=
  let fmt := get (form_output_format req) "json" in
  if String.eqb fmt "html"
  then Page (html_page pages_shown (text r) (map table_html (tables r)))
  else if String.eqb fmt "markdown"
  then Page (markdown_page pages_shown (text r) (map table_markdown (tables r)))
  else JsonResult r.

(** A model variable holds a model. *)
Definition loaded {A} (o : option A) : Prop := o <> None.

(** ** The models a request works with *)

(** The models loaded before the request or, when one is missing, what
    [initialize_models] answers and leaves. *)
Definition models_for_request (import_kit : outcome kit) (g : models)
  : bool * models :=
  if all_models g then (true, g) else initialize_models import_kit g.

(** ** The corner an id is made of *)

(** [(int(bbox[0]), int(bbox[1]))] *)
Definition truncated_corner (b : bbox) : outcome (Z * Z) :=
  x0 <- getitem b 0 ;;
  i0 <- int_of_float x0 ;;
  y0 <- getitem b 1 ;;
  i1 <- int_of_float y0 ;;
  Ok (i0, i1).

(** Character [c] occurs in [s]. *)
Fixpoint has_char (c : ascii) (s : string) : bool :=
  match s with
  | EmptyString => false
  | String x s' => Ascii.eqb c x || has_char c s'
  end.

(** ** Bounding boxes the id can be formed from *)

(** The bbox has two leading entries that [int] accepts (neither NaN nor
    infinite). *)
Definition has_corner (b : bbox) : bool :=
  match b with
  | x0 :: y0 :: _ => is_ok (int_of_float x0) && is_ok (int_of_float y0)
  | _ => false
  end.

(** ** The document of a layout when nothing is extracted *)

Definition flags_off (fl : flags) : Prop :=
  extract_text fl = false /\ extract_tables fl = false /\
  extract_formulas fl = false /\ extract_images fl = false.

Definition blank_element (el : layout_element) : elem_data :=
  mk_elem_data (le_type el) (le_bbox el) (get (le_confidence el) 1.0%float) None.

Definition blank_page (npl : Z * page_layout) : page_data :=
  mk_page_data (fst npl) (pl_width (snd npl)) (pl_height (snd npl))
               (map blank_element (pl_elements (snd npl))).

Definition layout_only (layout : layout_results) : result :=
  mk_result EmptyString (map blank_page (enumerate 1 (lr_pages layout))) [] [] []
            (Some (mk_metadata (len (lr_pages layout)) 0 0 0 0)).

(** With the flag on, the entities [xs] are those of the elements of the
    type, one for one and in order; with the flag off there is none. *)
Definition linked_when {X} (flag : bool) (typed : string -> bool)
           (linked : Z * elem_data -> X -> Prop)
           (nes : list (Z * elem_data)) (xs : list X) : Prop :=
  if flag then Forall2 linked (typed_elements typed nes) xs else xs = [].

(** ** Regions every extractor called on them gets through *)

Section Ready.

Variable g : models.
Variable fl : flags.
Variable pdf_path : string.

(** Region [el] of page [n]: if it goes to the OCR model, the model
    returns; if it goes to the table, formula or image extractor, its bbox
    has a corner. *)
Definition region_ready (n : Z) (el : layout_element) : bool :=
  (if extract_text fl && text_typed (le_type el)
   then match ocr_model g with
        | Some ocr => is_ok (ocr pdf_path n (le_bbox el))
        | None => true
        end
   else true)
  && (if extract_tables fl && table_typed (le_type el)
      then has_corner (le_bbox el) else true)
  && (if extract_formulas fl && formula_typed (le_type el)
      then has_corner (le_bbox el) else true)
  && (if extract_images fl && image_typed (le_type el)
      then has_corner (le_bbox el) else true).

Definition page_ready (npl : Z * page_layout) : bool :=
  forallb (region_ready (fst npl)) (pl_elements (snd npl)).

Definition layout_ready (layout : layout_results) : bool :=
  forallb page_ready (enumerate 1 (lr_pages layout)).

End Ready.

(** [r'] is [r] with the entities of the numbered elements [nes]
    appended. *)
Definition links_added (fl : flags) (nes : list (Z * elem_data)) (r r' : result)
  : Prop :=
  (exists ts, tables r' = (tables r ++ ts)%list /\
              linked_when (extract_tables fl) table_typed table_linked nes ts) /\
  (exists fs, formulas r' = (formulas r ++ fs)%list /\
              linked_when (extract_formulas fl) formula_typed formula_linked nes fs) /\
  (exists ims, images r' = (images r ++ ims)%list /\
               linked_when (extract_images fl) image_typed image_linked nes ims).

End Spec.

Module LocalSpec.

Import PdfExtractServer.

(** The text the page loop adds for a page it gets through. *)
Definition page_text (load_page : outcome fitz_page) : string :=
  match load_page with
  | Ok page =>
      match get_text page with
      | Ok txt => txt ++ nl
      | Raise _ => EmptyString
      end
  | Raise _ => EmptyString
  end.

(** Ids and page numbers of the entities of the page with index [n]
    (counted from 0): the id holds the page index and the position in the
    page's own list of images or tables. *)
Definition image_indexed (n : Z) (i : image) : Prop :=
  exists idx, (0 <= idx)%Z /\
    image_id i = "img_" ++ str_int n ++ "_" ++ str_int idx /\
    image_pageNumber i = (n + 1)%Z.

Definition table_indexed (n : Z) (t : table) : Prop :=
  exists idx, (0 <= idx)%Z /\
    table_id t = "table_" ++ str_int n ++ "_" ++ str_int idx /\
    table_pageNumber t = (n + 1)%Z.

(** A text element of the fallback layout: the stripped, space-joined
    span texts of a line of a text block, when not blank. *)
Definition line_element (blocks : list fitz_block) (e : element) : Prop :=
  exists block lines line,
    In block blocks /\ block_lines block = Some lines /\ In line lines /\
    e = mk_element "text" (map Float (block_bbox block))
                   (strip (join " " line)) 0.9%float /\
    str_truthy (strip (join " " line)) = true.

(** A page of the result records the page with index [fst np]: its text
    lines first, then what the image and table loops added. *)
Definition page_loaded (np : Z * outcome fitz_page) (pd : page_data) : Prop :=
  pageNumber pd = (fst np + 1)%Z /\
  exists page blocks rest,
    snd np = Ok page /\
    width pd = rect_width page /\ height pd = rect_height page /\
    get_text_dict page = Ok blocks /\
    elements pd = (text_elements blocks ++ rest)%list /\
    Forall (fun e => elem_type e = "image" \/ elem_type e = "table") rest.

(** [r'] is [r] after the pages [doc], the first of index [k], were
    processed. *)
Definition extends_by_pages (k : Z) (doc : fitz_document) (r r' : result) : Prop :=
  (exists pds, pages r' = (pages r ++ pds)%list /\
               Forall2 page_loaded (enumerate k doc) pds) /\
  text r' = (text r ++ Spec.concat_strings (map page_text doc))%string /\
  (exists ims, images r' = (images r ++ ims)%list /\
               Forall (fun i => exists n, (k <= n < k + len doc)%Z /\ image_indexed n i) ims) /\
  (exists ts, tables r' = (tables r ++ ts)%list /\
              Forall (fun t => exists n, (k <= n < k + len doc)%Z /\ table_indexed n t) ts) /\
  formulas r' = formulas r /\ meta r' = meta r.

(** The metadata hold the sizes of the collections. *)
Definition metadata_counts (r : result) : Prop :=
  totalPages (meta r) = Some (len (pages r)) /\
  totalTables (meta r) = Some (len (tables r)) /\
  totalImages (meta r) = Some (len (images r)) /\
  totalFormulas (meta r) = Some (len (formulas r)) /\
  textLength (meta r) = Some (strlen (text r)).

(** The dictionary returned when every page was processed. *)
Definition with_counts (r : result) : result :=
  mk_result (text r) (pages r) (tables r) (images r) (formulas r)
    (Counts (len (pages r)) (len (tables r)) (len (images r))
            (len (formulas r)) (strlen (text r)) "PyMuPDF-basic").

(** ** Positions in the lists of a page *)

(** The pixmaps of the images of a page and the tables found on it, each
    with the index of the page and its position, counted from 0, in the
    list [page.get_images()] or [page.find_tables()] gave. *)
Definition page_pixmaps (np : Z * outcome fitz_page)
  : list (Z * Z * outcome fitz_pixmap) :=
  match snd np with
  | Ok page =>
      match get_images page with
      | Ok image_list =>
          map (fun ip => (fst np, fst ip, snd ip)) (enumerate 0 image_list)
      | Raise _ => []
      end
  | Raise _ => []
  end.

Definition page_tables (np : Z * outcome fitz_page) : list (Z * Z * fitz_table) :=
  match snd np with
  | Ok page =>
      match find_tables page with
      | Ok tbls => map (fun it => (fst np, fst it, snd it)) (enumerate 0 tbls)
      | Raise _ => []
      end
  | Raise _ => []
  end.

(** Those of a document, in page order; the first page has index 0. *)
Definition positioned_pixmaps (doc : fitz_document)
  : list (Z * Z * outcome fitz_pixmap) :=
  flat_map page_pixmaps (enumerate 0 doc).

Definition positioned_tables (doc : fitz_document) : list (Z * Z * fitz_table) :=
  flat_map page_tables (enumerate 0 doc).

(** The pixmap was built and is not CMYK. *)
Definition kept (px : outcome fitz_pixmap) : bool :=
  match px with
  | Ok pix => (pix_n pix - pix_alpha pix <? 4)%Z
  | Raise _ => false
  end.

(** The rows of the table were extracted and, where the table can be
    turned into a data frame, rendered. *)
Definition table_ready (tb : fitz_table) : bool :=
  is_ok (ft_extract tb) &&
  match ft_to_pandas tb with
  | Some to_html => is_ok to_html
  | None => true
  end.

(** Image [i] is that of the pixmap at position [snd (fst k)] of the page
    of index [fst (fst k)]; table [t] likewise. *)
Definition image_at (k : Z * Z * outcome fitz_pixmap) (i : image) : Prop :=
  image_id i = "img_" ++ str_int (fst (fst k)) ++ "_" ++ str_int (snd (fst k)) /\
  image_pageNumber i = (fst (fst k) + 1)%Z /\
  exists pix, snd k = Ok pix /\
              image_width i = pix_width pix /\ image_height i = pix_height pix.

Definition table_at (k : Z * Z * fitz_table) (t : table) : Prop :=
  table_id t = "table_" ++ str_int (fst (fst k)) ++ "_" ++ str_int (snd (fst k)) /\
  table_pageNumber t = (fst (fst k) + 1)%Z /\
  table_bbox t = map Float (ft_bbox (snd k)).

(** ** Ids made of a page index and a position *)

Definition indexed_id (prefix : string) (k : Z * Z) : string :=
  prefix ++ str_int (fst k) ++ "_" ++ str_int (snd k).

(** Page index first, position second. *)
Definition key_lt (a b : Z * Z) : Prop :=
  (fst a < fst b)%Z \/ (fst a = fst b /\ (snd a < snd b)%Z).

(** The ids are pairwise distinct and made of keys before [bound]. *)
Definition ids_below (prefix : string) (bound : Z * Z) (ids : list string) : Prop :=
  NoDup ids /\
  Forall (fun id => exists k, id = indexed_id prefix k /\ key_lt k bound) ids.

(** ** What the loops of a page get through *)

(** The pixmap was built and, unless CMYK, encoded. *)
Definition pixmap_ready (px : outcome fitz_pixmap) : bool :=
  match px with
  | Ok pix =>
      if (pix_n pix - pix_alpha pix <? 4)%Z then is_ok (pix_tobytes pix) else true
  | Raise _ => false
  end.

(** Everything but the tables of the page was read. *)
Definition page_ready (load_page : outcome fitz_page) : bool :=
  match load_page with
  | Ok page =>
      is_ok (get_text page) && is_ok (get_text_dict page) &&
      match get_images page with
      | Ok image_list => forallb pixmap_ready image_list
      | Raise _ => false
      end &&
      is_ok (find_tables page)
  | Raise _ => false
  end.

(** The tables found on the pages of a document, and the pixmaps of the
    images embedded in them. *)
Definition found_tables (doc : fitz_document) : list fitz_table :=
  flat_map (fun load_page =>
              match load_page with
              | Ok page => match find_tables page with
                           | Ok tbls => tbls
                           | Raise _ => []
                           end
              | Raise _ => []
              end) doc.

Definition found_pixmaps (doc : fitz_document) : list (outcome fitz_pixmap) :=
  flat_map (fun load_page =>
              match load_page with
              | Ok page => match get_images page with
                           | Ok image_list => image_list
                           | Raise _ => []
                           end
              | Raise _ => []
              end) doc.

(** ** Elements and the entities made with them *)

(** The elements of pages, each with the number of its page. *)
Definition page_elements (pds : list page_data) : list (Z * element) :=
  flat_map (fun pd => map (pair (pageNumber pd)) (elements pd)) pds.

Definition typed_elements (ty : string) (nes : list (Z * element))
  : list (Z * element) :=
  filter (fun ne => String.eqb (elem_type (snd ne)) ty) nes.

Definition image_linked (ne : Z * element) (i : image) : Prop :=
  image_pageNumber i = fst ne /\ image_bbox i = elem_bbox (snd ne) /\
  elem_content (snd ne) = "Image".

Definition table_linked (ne : Z * element) (t : table) : Prop :=
  table_pageNumber t = fst ne /\ table_bbox t = elem_bbox (snd ne) /\
  elem_content (snd ne) = "Table with " ++ str_int (len (table_data t)) ++ " rows".

(** [r'] is [r] with pages, images and tables added, the images and the
    tables matching the image and table elements of the added pages. *)
Definition links_added (r r' : result) : Prop :=
  exists pds ims ts,
    pages r' = (pages r ++ pds)%list /\
    images r' = (images r ++ ims)%list /\
    tables r' = (tables r ++ ts)%list /\
    Forall2 image_linked (typed_elements "image" (page_elements pds)) ims /\
    Forall2 table_linked (typed_elements "table" (page_elements pds)) ts.

(** The fields of an entity that follow from its other fields. *)
Definition image_shape (i : image) : Prop :=
  image_bbox i = [Int 0; Int 0; Int (image_width i); Int (image_height i)] /\
  image_type i = "photo".

Definition table_shape (t : table) : Prop :=
  table_rows t = len (table_data t) /\
  table_columns t = len (table_headers t) /\
  table_markdown t = EmptyString.

(** ** Loading the models *)

(** The constructor raised something other than [ImportError]. *)
Definition breaks {A} (c : outcome A) : bool :=
  match c with
  | Ok _ => false
  | Raise e => negb (is_import_error e)
  end.

End LocalSpec.

(* ------------------------------------------------------------------ *)
(** * Sample documents and capability providers *)

Module Samples.

(** ** For the model-based assembler *)

Module Api.

Import ApiServer.

Definition all_flags : flags := mk_flags true true true true.

Definition no_image_flags : flags := mk_flags true true false true.

Definition hello_element : layout_element :=
  mk_layout_element "text" [0; 0; 100; 20]%float (Some 0.9%float).

Definition table_element : layout_element :=
  mk_layout_element "table" [10.5; 30.25; 200; 120]%float None.

(** Page 1 holds the text [Hello], page 2 a table with headers [A], [B]
    and the row [1], [2]. *)
Definition hello_layout : layout_results :=
  mk_layout_results
    [ mk_page_layout 612 792 [hello_element];
      mk_page_layout 612 792 [table_element] ].

Definition ab_table : table_result :=
  mk_table_result (Some "<table></table>") (Some "|A|B|")
                  (Some [["1"; "2"]]) (Some ["A"; "B"]) (Some 0.75%float).

Definition hello_models : models :=
  mk_models (Some (fun _ => Ok hello_layout))
            (Some (fun _ _ _ => Ok ab_table))
            (Some (fun _ _ _ => Ok (mk_formula_result (Some "x^2") None)))
            (Some (fun _ _ _ => Ok "Hello")).

Definition render_png : string -> Z -> bbox -> outcome string :=
  fun _ _ _ => Ok "PNG".

(** The OCR model raises on every region. *)
Definition ocr_error : exn := mk_exn RuntimeError "OCR failed".

Definition ocr_failing_models : models :=
  mk_models (Some (fun _ => Ok hello_layout))
            (Some (fun _ _ _ => Ok ab_table))
            (Some (fun _ _ _ => Ok (mk_formula_result (Some "x^2") None)))
            (Some (fun _ _ _ => Raise ocr_error)).

(** Two pages of one text line each; the OCR model raises on page 2. *)
Definition two_text_pages : layout_results :=
  mk_layout_results
    [ mk_page_layout 612 792 [hello_element];
      mk_page_layout 612 792 [hello_element] ].

Definition page2_failing_models : models :=
  mk_models (Some (fun _ => Ok two_text_pages))
            (Some (fun _ _ _ => Ok ab_table))
            (Some (fun _ _ _ => Ok (mk_formula_result (Some "x^2") None)))
            (Some (fun _ n _ => if (n =? 2)%Z then Raise ocr_error else Ok "Hello")).

(** One page with two formula regions and a figure; the second formula
    region is 51 units high. *)
Definition formula_layout : layout_results :=
  mk_layout_results
    [ mk_page_layout 612 792
        [ mk_layout_element "formula" [72; 100; 300; 130]%float (Some 0.8%float);
          mk_layout_element "formula" [72.9; 200; 300; 251]%float None;
          mk_layout_element "figure" [-0.5; -1.5; 300; 400]%float None ] ].

Definition formula_models : models :=
  mk_models (Some (fun _ => Ok formula_layout))
            (Some (fun _ _ _ => Ok ab_table))
            (Some (fun _ _ _ => Ok (mk_formula_result (Some "x^2") None)))
            (Some (fun _ _ _ => Ok "Hello")).

Definition formula_error : exn := mk_exn RuntimeError "formula model failed".

Definition formula_failing_models : models :=
  mk_models (Some (fun _ => Ok formula_layout))
            (Some (fun _ _ _ => Ok ab_table))
            (Some (fun _ _ _ => Raise formula_error))
            (Some (fun _ _ _ => Ok "Hello")).

(** The layout model cannot read the file. *)
Definition corrupt_error : exn := mk_exn RuntimeError "cannot open broken document".


Definition no_kit : outcome kit :=
  Raise (mk_exn ImportError "No module named 'pdf_extract_kit'").

(** The upload is saved and the temporary file removed. *)
Definition save_ok : string -> outcome unit := fun _ => Ok tt.

Definition remove_ok : string -> outcome unit := fun _ => Ok tt.

(** The upload cannot be saved: its name leads into a directory that does
    not exist. *)
Definition save_error : exn :=
  mk_exn OSError "[Errno 2] No such file or directory: '/tmp/nodir/case.pdf'".

Definition save_fails : string -> outcome unit := fun _ => Raise save_error.

Definition remove_error : exn :=
  mk_exn OSError "[Errno 2] No such file or directory: '/tmp/case.pdf'".

Definition remove_fails : string -> outcome unit := fun _ => Raise remove_error.

Definition nested_upload : request :=
  mk_request (Some "nodir/case.pdf") None None None None None.


Definition upload : request :=
  mk_request (Some "case.pdf") None None None None None.

Definition no_flags : flags := mk_flags false false false false.

Definition empty_layout : layout_results := mk_layout_results [].

Definition empty_models : models :=
  mk_models (Some (fun _ => Ok empty_layout))
            (Some (fun _ _ _ => Ok ab_table))
            (Some (fun _ _ _ => Ok (mk_formula_result (Some "x^2") None)))
            (Some (fun _ _ _ => Ok "Hello")).

Definition no_models : models := mk_models None None None None.

(** A package whose table extractor cannot be constructed. *)
Definition broken_kit : outcome kit :=
  Ok (mk_kit (Ok (fun _ => Ok hello_layout))
             (Raise (mk_exn RuntimeError "weights not found"))
             (Ok (fun _ _ _ => Ok (mk_formula_result (Some "x^2") None)))
             (Ok (fun _ _ _ => Ok "Hello"))).

Definition html_upload : request :=
  mk_request (Some "case.pdf") None None None None (Some "html").

Definition markdown_upload : request :=
  mk_request (Some "case.pdf") None None None None (Some "markdown").

Definition unnamed_upload : request :=
  mk_request (Some EmptyString) None None None None None.

(** A table region whose bbox has one entry only. *)
Definition short_bbox_layout : layout_results :=
  mk_layout_results
    [ mk_page_layout 612 792 [mk_layout_element "table" [10.5]%float None] ].

Definition short_bbox_models : models :=
  mk_models (Some (fun _ => Ok short_bbox_layout))
            (Some (fun _ _ _ => Ok ab_table))
            (Some (fun _ _ _ => Ok (mk_formula_result (Some "x^2") None)))
            (Some (fun _ _ _ => Ok "Hello")).

End Api.

(** ** For the local server *)

Module Local.

Import PdfExtractServer.

Definition hello_page : fitz_page :=
  mk_fitz_page (Ok "Hello")
               (Ok [mk_fitz_block (Some [["Hello"]]) [0; 0; 100; 20]%float])
               (Ok []) (Ok []) 612 792.

Definition blank_page : fitz_page :=
  mk_fitz_page (Ok EmptyString) (Ok []) (Ok []) (Ok []) 612 792.

(** Page 1 holds the text [Hello], page 2 is blank. *)
Definition hello_open : string -> outcome fitz_document :=
  fun _ => Ok [Ok hello_page; Ok blank_page].

Definition rgb_pixmap : fitz_pixmap := mk_fitz_pixmap 3 0 10 20 (Ok "PNG").

Definition ab_fitz_table : fitz_table :=
  mk_fitz_table (Ok [["A"; "B"]; ["1"; "2"]]) [10.5; 30.25; 200; 120]%float None.

(** One page with an embedded RGB image and a table. *)
Definition photo_page : fitz_page :=
  mk_fitz_page (Ok EmptyString) (Ok [mk_fitz_block None [0; 0; 10; 20]%float])
               (Ok [Ok rgb_pixmap]) (Ok [ab_fitz_table]) 612 792.

Definition photo_open : string -> outcome fitz_document :=
  fun _ => Ok [Ok photo_page].

Definition corrupt_error : exn := mk_exn RuntimeError "cannot open broken document".


(** Page 1 is fine, page 2 cannot be loaded. *)
Definition page_error : exn := mk_exn RuntimeError "page 2 is damaged".

Definition page2_failing_open : string -> outcome fitz_document :=
  fun _ => Ok [Ok hello_page; Raise page_error].

(** A CMYK pixmap that cannot be encoded. *)
Definition cmyk_pixmap : fitz_pixmap :=
  mk_fitz_pixmap 4 0 30 40 (Raise (mk_exn ValueError "unsupported colorspace for png")).

Definition broken_table : fitz_table :=
  mk_fitz_table (Raise (mk_exn RuntimeError "table has no cells"))
                [0; 0; 50; 50]%float None.

Definition header_only_table : fitz_table :=
  mk_fitz_table (Ok [["A"; "B"]]) [0; 60; 50; 80]%float (Some (Ok "<table/>")).

(** Two pages: a CMYK image before an RGB one and a table that cannot be
    extracted before one that can; then the page [photo_page]. *)
Definition mixed_page : fitz_page :=
  mk_fitz_page (Ok "  Hello  ")
               (Ok [mk_fitz_block (Some [["  Hello"; "world  "]; ["   "]]) [0; 0; 100; 20]%float])
               (Ok [Ok cmyk_pixmap; Ok rgb_pixmap])
               (Ok [broken_table; ab_fitz_table; header_only_table]) 612 792.

Definition mixed_open : string -> outcome fitz_document :=
  fun _ => Ok [Ok mixed_page; Ok photo_page].

(** The layout detector cannot be built from its weights file; the OCR
    package is not installed. *)
Definition no_weights : outcome unit :=
  Raise (mk_exn RuntimeError "cannot read path/to/doclayout_yolo.pt").

Definition not_installed : outcome unit :=
  Raise (mk_exn ImportError "No module named 'paddleocr'").

Definition upload : request :=
  mk_request (Some "case.pdf") None None None None.

Definition upload_without_images : request :=
  mk_request (Some "case.pdf") None None (Some "false") None.

End Local.

End Samples.

(* ------------------------------------------------------------------ *)
(** * Lists, strings and numbered lists *)

Open Scope Z_scope.
Open Scope list_scope.

Lemma string_app_empty_r (s : string) : (s ++ EmptyString)%string = s.
Proof. induction s; simpl; congruence. Qed.
Lemma string_app_assoc (a b c : string) :
  ((a ++ b) ++ c)%string = (a ++ b ++ c)%string.
Proof. induction a; simpl; congruence. Qed.
Lemma appended_twice {X} (P Q R : X -> Prop) (l0 l1 l2 : list X) :
  (exists xs, l1 = l0 ++ xs /\ Forall P xs) ->
  (exists ys, l2 = l1 ++ ys /\ Forall Q ys) ->
  (forall x, P x -> R x) -> (forall x, Q x -> R x) ->
  exists zs, l2 = l0 ++ zs /\ Forall R zs.
Proof.
  intros [xs [-> Hx]] [ys [-> Hy]] HP HQ.
  exists (xs ++ ys). split.
  - now rewrite app_assoc.
  - apply Forall_app. split.
    + eapply Forall_impl; [exact HP|exact Hx].
    + eapply Forall_impl; [exact HQ|exact Hy].
Qed.

Lemma enumerate_length {A} (l : list A) k :
  List.length (enumerate k l) = List.length l.
Proof. revert k; induction l; simpl; intros; auto. Qed.

Lemma enumerate_app {A} (l1 l2 : list A) k :
  enumerate k (l1 ++ l2) = enumerate k l1 ++ enumerate (k + len l1) l2.
Proof.
  unfold len. revert k; induction l1 as [|x l1 IH]; simpl; intros k.
  - f_equal. lia.
  - rewrite IH. do 2 f_equal. f_equal. lia.
Qed.
Lemma concat_strings_app l1 l2 :
  Spec.concat_strings (l1 ++ l2) = (Spec.concat_strings l1 ++ Spec.concat_strings l2)%string.
Proof.
  induction l1 as [|s l1 IH]; simpl; [reflexivity|].
  now rewrite IH, string_app_assoc.
Qed.
Lemma len_app {A} (l1 l2 : list A) : len (l1 ++ l2) = len l1 + len l2.
Proof. unfold len. rewrite length_app. lia. Qed.

Lemma len_nonneg {A} (l : list A) : 0 <= len l.
Proof. unfold len. lia. Qed.


(** [int] and the floor agree on floats that are not negative. *)
Lemma int_is_floor_unless_negative x :
  is_negative x = false -> int_of_float x = floor_of_float x.
Proof.
  unfold is_negative, int_of_float, floor_of_float.
  destruct (Prim2SF x) as [s|s| |s m e]; try reflexivity.
  intros ->. destruct e; reflexivity.
Qed.
(* ------------------------------------------------------------------ *)
(** * Properties of the model-based assembler *)

Module ApiFacts.

Import ApiServer Spec.

(** Case analysis on computations known to have returned. *)
Ltac ok_step :=
  match goal with
  | H : Raise _ = Ok _ |- _ => discriminate H
  | H : Ok _ = Ok _ |- _ => injection H as H
  | H : (_, _) = (_, _) |- _ => injection H as ? ?
  | H : match ?c with _ => _ end = Ok _ |- _ =>
      let E := fresh "E" in destruct c eqn:E; simpl in H
  end.

Ltac ok_cases := repeat ok_step; subst.

Lemma string_eqb_true (a b : string) : String.eqb a b = true -> a = b.
Proof. apply String.eqb_eq. Qed.

Lemma getitem_ok {A} (l : list A) i a :
  getitem l i = Ok a -> nth_error l i = Some a.
Proof.
  unfold getitem. destruct (nth_error l i); intros H; [injection H as ->|discriminate].
  reflexivity.
Qed.

Lemma getitem_raises {A} (l : list A) i e :
  getitem l i = Raise e -> nth_error l i = None.
Proof.
  unfold getitem. destruct (nth_error l i); intros H; [discriminate|reflexivity].
Qed.

(** ** The region extractors *)

Section Extractors.

Variable g : models.
Variable render_region : string -> Z -> bbox -> outcome string.
Variable pdf_path : string.

(** On failure of the table model the placeholder is returned. *)
Lemma extract_table_placeholder n b e id :
  table_answer g pdf_path n b = Raise e ->
  entity_id "table" n b = Ok id ->
  extract_table g pdf_path n b =
  Ok (mk_table id b EmptyString EmptyString [] [] 0%float None).
Proof.
  unfold Spec.table_answer, extract_table, try_except, bind. intros -> ->. reflexivity.
Qed.

Lemma extract_formula_placeholder n b e id :
  formula_answer g pdf_path n b = Raise e ->
  entity_id "formula" n b = Ok id ->
  extract_formula g pdf_path n b =
  Ok (mk_formula id b "unknown" EmptyString 0%float None).
Proof.
  unfold Spec.formula_answer, extract_formula, try_except, bind. intros -> ->. reflexivity.
Qed.

Lemma extract_image_placeholder n b e id :
  render_region pdf_path n b = Raise e ->
  entity_id "image" n b = Ok id ->
  extract_image render_region pdf_path n b =
  Ok (mk_image id b EmptyString "unknown" 0%float None).
Proof.
  unfold extract_image, try_except, bind. intros -> ->. reflexivity.
Qed.

(** An extractor raises only when the id cannot be formed. *)
Lemma extract_table_raises n b e :
  extract_table g pdf_path n b = Raise e -> entity_id "table" n b = Raise e.
Proof.
  unfold extract_table, try_except, bind.
  destruct (match table_model g with Some m => m pdf_path n b | None => _ end);
    destruct (entity_id "table" n b); intros H; congruence.
Qed.

Lemma extract_formula_raises n b e :
  extract_formula g pdf_path n b = Raise e -> entity_id "formula" n b = Raise e.
Proof.
  unfold extract_formula, try_except, bind.
  destruct (match formula_model g with Some m => m pdf_path n b | None => _ end);
    destruct (entity_id "formula" n b); simpl;
    try destruct (getitem b 3); try destruct (getitem b 1); simpl;
    intros H; congruence.
Qed.

Lemma extract_image_raises n b e :
  extract_image render_region pdf_path n b = Raise e ->
  entity_id "image" n b = Raise e.
Proof.
  unfold extract_image, try_except, bind.
  destruct (render_region pdf_path n b);
    destruct (entity_id "image" n b); intros H; congruence.
Qed.

Lemma entity_id_scheme kind n b id :
  entity_id kind n b = Ok id -> id_scheme kind n b id.
Proof.
  unfold entity_id, bind. intros H.
  destruct (getitem b 0) as [x0|] eqn:H0; [|discriminate].
  destruct (int_of_float x0) as [i0|] eqn:Hi0; [|discriminate].
  destruct (getitem b 1) as [y0|] eqn:H1; [|discriminate].
  destruct (int_of_float y0) as [i1|] eqn:Hi1; [|discriminate].
  injection H as <-. apply getitem_ok in H0, H1.
  exists x0, y0, i0, i1. auto.
Qed.

(** The id an extractor gives. *)
Lemma extract_table_id n b t :
  extract_table g pdf_path n b = Ok t ->
  table_bbox t = b /\ table_pageNumber t = None /\
  entity_id "table" n b = Ok (table_id t).
Proof.
  unfold extract_table, try_except, bind.
  destruct (match table_model g with Some m => m pdf_path n b | None => _ end);
    destruct (entity_id "table" n b); intros H; try discriminate;
    injection H as <-; auto.
Qed.

Lemma extract_image_id n b i :
  extract_image render_region pdf_path n b = Ok i ->
  image_bbox i = b /\ image_pageNumber i = None /\
  entity_id "image" n b = Ok (image_id i).
Proof.
  unfold extract_image, try_except, bind.
  destruct (render_region pdf_path n b);
    destruct (entity_id "image" n b); intros H; try discriminate;
    injection H as <-; auto.
Qed.

(** The formula extractor: id and kind. *)
Lemma extract_formula_kind n b f :
  extract_formula g pdf_path n b = Ok f ->
  formula_bbox f = b /\ formula_pageNumber f = None /\
  entity_id "formula" n b = Ok (formula_id f) /\
  ((exists fr y0 y1,
       formula_answer g pdf_path n b = Ok fr /\
       nth_error b 1 = Some y0 /\ nth_error b 3 = Some y1 /\
       formula_type f = (if PrimFloat.ltb 50 (PrimFloat.sub y1 y0)
                         then "block" else "inline") /\
       formula_latex f = get (fr_latex fr) EmptyString /\
       formula_confidence f = get (fr_confidence fr) 0.9%float)
   \/
   (((exists e, formula_answer g pdf_path n b = Raise e) \/ nth_error b 3 = None) /\
    formula_type f = "unknown" /\ formula_latex f = EmptyString /\
    formula_confidence f = 0%float)).
Proof.
  unfold extract_formula, Spec.formula_answer, try_except, bind.
  destruct (match formula_model g with Some m => m pdf_path n b | None => _ end)
    as [fr|e0] eqn:Hm;
    destruct (entity_id "formula" n b) as [id|e1] eqn:Hid; try discriminate.
  - destruct (getitem b 3) as [y1|e3] eqn:H3.
    + destruct (getitem b 1) as [y0|e1] eqn:H1.
      * intros H; injection H as <-. cbn. repeat split; auto.
        left. exists fr, y0, y1.
        apply getitem_ok in H1, H3. repeat split; auto.
      * exfalso. unfold entity_id, bind in Hid.
        destruct (getitem b 0); [|discriminate].
        destruct (int_of_float a); [|discriminate].
        rewrite H1 in Hid. discriminate.
    + intros H; injection H as <-. cbn. repeat split; auto.
      right. repeat split; auto. right.
      apply getitem_raises in H3. exact H3.
  - intros H; injection H as <-. cbn. repeat split; auto.
    right. repeat split; auto. left. eauto.
Qed.

End Extractors.

(** ** The assembly loops *)

Section Assembler.

Variable g : models.
Variable render_region : string -> Z -> bbox -> outcome string.
Variable fl : flags.
Variable pdf_path : string.

(** One turn of the element loop: what is recorded and what is appended. *)
Lemma process_element_step n el r e r' :
  process_element g render_region fl pdf_path n el r = Ok (e, r') ->
  element_records g fl pdf_path n el e /\
  pages r' = pages r /\ meta r' = meta r /\
  text r' = (text r ++ text_added g fl pdf_path n el)%string /\
  (exists ts, tables r' = tables r ++ ts /\ Forall (table_from g fl pdf_path n el) ts) /\
  (exists fs, formulas r' = formulas r ++ fs /\ Forall (formula_from g fl pdf_path n el) fs) /\
  (exists ims, images r' = images r ++ ims /\
               Forall (image_from render_region fl pdf_path n el) ims).
Proof.
  unfold process_element, bind, text_added, element_records, content_of,
    text_typed, image_typed.
  intros H. ok_cases.
  all: split;
    [ split; [reflexivity|]; simpl;
      repeat match goal with
             | E : ?c = _ |- context [?c] => rewrite E
             end; try reflexivity | ].
  all: repeat match goal with
       | H : _ && _ = true |- _ => apply andb_prop in H; destruct H
       end.
  all: split; [reflexivity|]; split; [reflexivity|].
  all: split; [simpl; rewrite ?string_app_empty_r; reflexivity|].
  all: split; [|split].
  all: first
    [ exists []; split; [simpl; rewrite app_nil_r; reflexivity | constructor]
    | eexists; split;
      [ simpl; reflexivity
      | constructor; [|constructor];
        repeat split; auto using string_eqb_true; eexists; split; eauto ] ].
Qed.

Lemma process_elements_extends n els :
  forall acc r acc' r',
    process_elements g render_region fl pdf_path n els acc r = Ok (acc', r') ->
    exists es, acc' = acc ++ es /\
               extends_by_elements g render_region fl pdf_path n els es r r'.
Proof.
  induction els as [|el els IH]; simpl; intros acc r acc' r' H.
  - injection H as <- <-. exists []. split; [now rewrite app_nil_r|].
    unfold extends_by_elements; simpl. rewrite string_app_empty_r.
    repeat split; auto; exists []; rewrite app_nil_r; auto.
  - unfold bind in H.
    destruct (process_element g render_region fl pdf_path n el r)
      as [[e r1]|] eqn:Hstep; [|discriminate].
    apply process_element_step in Hstep.
    destruct Hstep as (He & Hp & Hm & Ht & Hts & Hfs & His).
    apply IH in H. destruct H as (es & -> & Hes & Hp' & Hm' & Ht' & Hts' & Hfs' & His').
    exists (e :: es). split; [now rewrite <- app_assoc|].
    unfold extends_by_elements; simpl.
    split; [constructor; assumption|]. split; [congruence|]. split; [congruence|].
    split; [rewrite Ht', Ht; apply string_app_assoc|].
    split; [|split].
    + eapply appended_twice; [exact Hts|exact Hts'| |]; simpl; eauto.
      intros t (el' & ? & ?); eauto.
    + eapply appended_twice; [exact Hfs|exact Hfs'| |]; simpl; eauto.
      intros t (el' & ? & ?); eauto.
    + eapply appended_twice; [exact His|exact His'| |]; simpl; eauto.
      intros t (el' & ? & ?); eauto.
Qed.

Lemma from_pages_incl {X} (from : Z -> layout_element -> X -> Prop) l1 l2 x :
  incl l1 l2 -> from_pages from l1 x -> from_pages from l2 x.
Proof. intros Hl (n & pl & el & ? & ? & ?). exists n, pl, el. auto. Qed.

Lemma extends_by_pages_refl r : extends_by_pages g render_region fl pdf_path [] r r.
Proof.
  unfold extends_by_pages; simpl. rewrite string_app_empty_r.
  repeat split; auto; exists []; rewrite app_nil_r; auto.
Qed.

Lemma extends_by_pages_trans l1 l2 r r1 r2 :
  extends_by_pages g render_region fl pdf_path l1 r r1 ->
  extends_by_pages g render_region fl pdf_path l2 r1 r2 ->
  extends_by_pages g render_region fl pdf_path (l1 ++ l2) r r2.
Proof.
  intros ((pds & Hp & Hpds) & Hm & Ht & Hts & Hfs & His)
         ((pds' & Hp' & Hpds') & Hm' & Ht' & Hts' & Hfs' & His').
  unfold extends_by_pages.
  split.
  { exists (pds ++ pds'). split.
    - now rewrite Hp', Hp, app_assoc.
    - now apply Forall2_app. }
  split; [congruence|].
  split; [now rewrite Ht', Ht, map_app, concat_strings_app, string_app_assoc|].
  split; [|split].
  - eapply appended_twice; [exact Hts|exact Hts'| |]; intros t;
      apply from_pages_incl; [apply incl_appl|apply incl_appr]; apply incl_refl.
  - eapply appended_twice; [exact Hfs|exact Hfs'| |]; intros t;
      apply from_pages_incl; [apply incl_appl|apply incl_appr]; apply incl_refl.
  - eapply appended_twice; [exact His|exact His'| |]; intros t;
      apply from_pages_incl; [apply incl_appl|apply incl_appr]; apply incl_refl.
Qed.

Lemma process_page_extends k pl r r' :
  process_page g render_region fl pdf_path k pl r = Ok r' ->
  extends_by_pages g render_region fl pdf_path [(k, pl)] r r'.
Proof.
  unfold process_page, bind. intros H.
  destruct (process_elements g render_region fl pdf_path k (pl_elements pl) [] r)
    as [[es r1]|] eqn:Hels; [|discriminate].
  injection H as <-.
  apply process_elements_extends in Hels.
  destruct Hels as (es' & Hes & He & Hp & Hm & Ht & Hts & Hfs & His).
  simpl in Hes. subst es'.
  unfold extends_by_pages; simpl.
  split.
  { eexists [_]. split; [now rewrite Hp|].
    constructor; [|constructor]. repeat split; auto. }
  split; [assumption|].
  split; [unfold page_text_added; simpl; now rewrite string_app_empty_r|].
  split; [|split].
  - destruct Hts as (ts & -> & Hts). exists ts. split; [reflexivity|].
    eapply Forall_impl; [|exact Hts]. intros t (el & ? & ?).
    exists k, pl, el. simpl; auto.
  - destruct Hfs as (fs & -> & Hfs). exists fs. split; [reflexivity|].
    eapply Forall_impl; [|exact Hfs]. intros t (el & ? & ?).
    exists k, pl, el. simpl; auto.
  - destruct His as (ims & -> & His). exists ims. split; [reflexivity|].
    eapply Forall_impl; [|exact His]. intros t (el & ? & ?).
    exists k, pl, el. simpl; auto.
Qed.

Lemma process_pages_extends pls :
  forall k r r',
    process_pages g render_region fl pdf_path k pls r = Ok r' ->
    extends_by_pages g render_region fl pdf_path (enumerate k pls) r r'.
Proof.
  induction pls as [|pl pls IH]; simpl; intros k r r' H.
  - injection H as <-. apply extends_by_pages_refl.
  - unfold bind in H.
    destruct (process_page g render_region fl pdf_path k pl r) as [r1|] eqn:Hpage;
      [|discriminate].
    apply process_page_extends in Hpage. apply IH in H.
    exact (extends_by_pages_trans [(k, pl)] _ _ _ _ Hpage H).
Qed.

(** A page whose processing raises ends the run: nothing is returned. *)
Lemma process_pages_failing_page pre :
  forall k r r1 pl post e,
    process_pages g render_region fl pdf_path k pre r = Ok r1 ->
    process_page g render_region fl pdf_path (k + len pre) pl r1 = Raise e ->
    process_pages g render_region fl pdf_path k (pre ++ pl :: post) r = Raise e.
Proof.
  unfold len.
  induction pre as [|p pre IH]; simpl; intros k r r1 pl post e Hpre Hfail.
  - injection Hpre as ->. rewrite Z.add_0_r in Hfail. now rewrite Hfail.
  - unfold bind in *.
    destruct (process_page g render_region fl pdf_path k p r) as [r0|]; [|discriminate].
    eapply IH; [exact Hpre|].
    replace (k + 1 + Z.of_nat (List.length pre))
      with (k + Z.of_nat (S (List.length pre))) by lia.
    exact Hfail.
Qed.

(** What it means for [process_pdf] to return. *)
Lemma process_pdf_returns r :
  process_pdf g render_region fl pdf_path = Ok r ->
  exists detect layout r0,
    layout_model g = Some detect /\ detect pdf_path = Ok layout /\
    process_pages g render_region fl pdf_path 1 (lr_pages layout) empty_result = Ok r0 /\
    r = set_metadata r0
          (mk_metadata (len (pages r0)) (len (tables r0)) (len (images r0))
                       (len (formulas r0)) (strlen (text r0))).
Proof.
  unfold process_pdf, try_except, bind. intros H.
  destruct (layout_model g) as [detect|] eqn:Hm; [|discriminate].
  destruct (detect pdf_path) as [layout|] eqn:Hd; [|discriminate].
  destruct (process_pages g render_region fl pdf_path 1 (lr_pages layout) empty_result)
    as [r0|] eqn:Hp; [|discriminate].
  injection H as <-. exists detect, layout, r0. auto.
Qed.

(** The assembled document, in terms of the layout it was built from. *)
Lemma process_pdf_assembles r :
  process_pdf g render_region fl pdf_path = Ok r ->
  exists detect layout,
    layout_model g = Some detect /\ detect pdf_path = Ok layout /\
    let npls := enumerate 1 (lr_pages layout) in
    Forall2 (page_records g fl pdf_path) npls (pages r) /\
    text r = concat_strings (map (page_text_added g fl pdf_path) npls) /\
    Forall (from_pages (table_from g fl pdf_path) npls) (tables r) /\
    Forall (from_pages (formula_from g fl pdf_path) npls) (formulas r) /\
    Forall (from_pages (image_from render_region fl pdf_path) npls) (images r) /\
    meta r = Some (mk_metadata (len (pages r)) (len (tables r)) (len (images r))
                               (len (formulas r)) (strlen (text r))).
Proof.
  intros H. apply process_pdf_returns in H.
  destruct H as (detect & layout & r0 & Hm & Hd & Hp & ->).
  apply process_pages_extends in Hp.
  destruct Hp as ((pds & Hp & Hpds) & _ & Ht & (ts & Hts & Hts') & (fs & Hfs & Hfs')
                  & (ims & His & His')).
  simpl in Hp, Ht, Hts, Hfs, His.
  exists detect, layout. simpl.
  rewrite Hp, Ht, Hts, Hfs, His. auto 10.
Qed.

End Assembler.

Lemma image_typed_only ty :
  image_typed ty = true ->
  String.eqb ty "formula" = false /\ String.eqb ty "table" = false /\
  text_typed ty = false.
Proof.
  unfold image_typed, text_typed, str_in; simpl. intros H.
  repeat (apply orb_prop in H; destruct H as [H|H]);
    try discriminate; apply String.eqb_eq in H; subst; auto.
Qed.

Lemma text_typed_only ty :
  text_typed ty = true ->
  image_typed ty = false /\ String.eqb ty "formula" = false /\
  String.eqb ty "table" = false.
Proof.
  unfold image_typed, text_typed, str_in; simpl. intros H.
  repeat (apply orb_prop in H; destruct H as [H|H]);
    try discriminate; apply String.eqb_eq in H; subst; auto.
Qed.


Lemma recorded_pages_of_records g fl pdf_path k pls pds :
  Forall2 (page_records g fl pdf_path) (enumerate k pls) pds ->
  map (fun pd => map recorded (elements pd)) pds =
  map (fun pl => map detected (pl_elements pl)) pls.
Proof.
  revert k pds; induction pls as [|pl pls IH]; simpl; intros k pds H;
    inversion H as [|? pd ? pds' Hrec Hrest]; subst; simpl; auto.
  f_equal; [|eauto].
  destruct Hrec as (_ & _ & _ & Hels). simpl in Hels.
  clear - Hels. induction Hels as [|el e els es [He _] _ IHe]; simpl; congruence.
Qed.

(** ** The assembled document *)

Section Document.

Variable g : models.
Variable render_region : string -> Z -> bbox -> outcome string.
Variable fl : flags.
Variable pdf_path : string.

Lemma api_metadata_counts r :
  process_pdf g render_region fl pdf_path = Ok r -> metadata_counts r.
Proof.
  intros H. apply process_pdf_returns in H.
  destruct H as (detect & layout & r0 & _ & _ & _ & ->).
  unfold metadata_counts. simpl. eexists. split; [reflexivity|]. simpl. auto.
Qed.

Lemma assembly_leaves_metadata k pls r r' :
  process_pages g render_region fl pdf_path k pls r = Ok r' -> meta r' = meta r.
Proof. intros H. apply process_pages_extends in H. apply H. Qed.

(** The layout a returned document was built from is the detector's. *)
Lemma process_pdf_layout detect layout r :
  layout_model g = Some detect -> detect pdf_path = Ok layout ->
  process_pdf g render_region fl pdf_path = Ok r ->
  let npls := enumerate 1 (lr_pages layout) in
  Forall2 (page_records g fl pdf_path) npls (pages r) /\
  text r = concat_strings (map (page_text_added g fl pdf_path) npls) /\
  Forall (from_pages (table_from g fl pdf_path) npls) (tables r) /\
  Forall (from_pages (formula_from g fl pdf_path) npls) (formulas r) /\
  Forall (from_pages (image_from render_region fl pdf_path) npls) (images r).
Proof.
  intros Hm Hd H. apply process_pdf_assembles in H.
  destruct H as (detect' & layout' & Hm' & Hd' & H).
  rewrite Hm in Hm'. injection Hm' as <-. rewrite Hd in Hd'. injection Hd' as <-.
  simpl in H. simpl. tauto.
Qed.

Lemma api_recorded_pages detect layout r :
  layout_model g = Some detect -> detect pdf_path = Ok layout ->
  process_pdf g render_region fl pdf_path = Ok r ->
  recorded_pages r = detected_pages layout.
Proof.
  intros Hm Hd H. destruct (process_pdf_layout detect layout r Hm Hd H) as (Hp & _).
  unfold recorded_pages, detected_pages.
  eapply recorded_pages_of_records. exact Hp.
Qed.

Lemma api_page_numbers detect layout r :
  layout_model g = Some detect -> detect pdf_path = Ok layout ->
  process_pdf g render_region fl pdf_path = Ok r ->
  map pageNumber (pages r) = map fst (enumerate 1 (lr_pages layout)) /\
  len (pages r) = len (lr_pages layout).
Proof.
  intros Hm Hd H. destruct (process_pdf_layout detect layout r Hm Hd H) as (Hp & _).
  simpl in Hp. split.
  - clear - Hp. induction Hp as [|npl pd npls pds (Hn & _) _ IH]; simpl; congruence.
  - unfold len. apply Forall2_length in Hp.
    now rewrite <- Hp, enumerate_length.
Qed.

Lemma api_entities_identified detect layout r :
  layout_model g = Some detect -> detect pdf_path = Ok layout ->
  process_pdf g render_region fl pdf_path = Ok r ->
  Forall (fun t => identified "table" (fun ty => String.eqb ty "table") layout
                              (table_id t) (table_bbox t) (table_pageNumber t))
         (tables r) /\
  Forall (fun f => identified "formula" (fun ty => String.eqb ty "formula") layout
                              (formula_id f) (formula_bbox f) (formula_pageNumber f))
         (formulas r) /\
  Forall (fun i => identified "image" image_typed layout
                              (image_id i) (image_bbox i) (image_pageNumber i))
         (images r).
Proof.
  intros Hm Hd H.
  destruct (process_pdf_layout detect layout r Hm Hd H) as (_ & _ & Ht & Hf & Hi).
  simpl in *. repeat split.
  - eapply Forall_impl; [|exact Ht].
    intros t (n & pl & el & Hin & Hel & _ & Hty & t0 & Hx & ->).
    apply extract_table_id in Hx. destruct Hx as (Hb & _ & Hid).
    apply entity_id_scheme in Hid.
    exists n, pl, el. simpl. rewrite Hb, Hty. auto 10.
  - eapply Forall_impl; [|exact Hf].
    intros f (n & pl & el & Hin & Hel & _ & Hty & f0 & Hx & ->).
    apply extract_formula_kind in Hx. destruct Hx as (Hb & _ & Hid & _).
    apply entity_id_scheme in Hid.
    exists n, pl, el. simpl. rewrite Hb, Hty. auto 10.
  - eapply Forall_impl; [|exact Hi].
    intros i (n & pl & el & Hin & Hel & _ & Hty & i0 & Hx & ->).
    apply extract_image_id in Hx. destruct Hx as (Hb & _ & Hid).
    apply entity_id_scheme in Hid.
    exists n, pl, el. simpl. rewrite Hb. auto 10.
Qed.

Lemma api_formula_kinds r :
  process_pdf g render_region fl pdf_path = Ok r ->
  Forall formula_kind_ok (formulas r).
Proof.
  intros H. apply process_pdf_assembles in H.
  destruct H as (detect & layout & _ & _ & _ & _ & _ & Hf & _).
  eapply Forall_impl; [|exact Hf].
  intros f (n & pl & el & _ & _ & _ & _ & f0 & Hx & ->).
  apply extract_formula_kind in Hx.
  destruct Hx as (Hb & _ & _ & [(fr & y0 & y1 & _ & H1 & H3 & Hk & _)|(_ & Hk & Hl & Hc)]).
  - right. exists y0, y1. simpl. rewrite Hb, Hk. repeat split; auto.
    + destruct (PrimFloat.ltb 50 (PrimFloat.sub y1 y0)); simpl; auto.
    + destruct (PrimFloat.ltb 50 (PrimFloat.sub y1 y0)); [reflexivity|discriminate].
    + intros ->. reflexivity.
  - left. simpl. auto.
Qed.

Lemma content_unset_images_disabled n el :
  extract_images fl = false -> image_typed (le_type el) = true ->
  content_of g fl pdf_path n el = None.
Proof.
  intros Hfl Hty. unfold content_of. rewrite Hfl. simpl.
  destruct (image_typed_only _ Hty) as (-> & -> & ->).
  rewrite !andb_false_r. reflexivity.
Qed.

(** With [extract_images] off: no image entity, no content on image
    regions. *)
Lemma api_images_disabled r :
  extract_images fl = false ->
  process_pdf g render_region fl pdf_path = Ok r ->
  images r = [] /\
  Forall (fun pd => Forall (fun e => image_typed (elem_type e) = true ->
                                     elem_content e = None) (elements pd))
         (pages r).
Proof.
  intros Hfl H. apply process_pdf_assembles in H.
  destruct H as (detect & layout & _ & _ & Hp & _ & _ & _ & Hi & _).
  simpl in *. split.
  - destruct (images r) as [|i ims]; [reflexivity|].
    inversion Hi as [|? ? (n & pl & el & _ & _ & Hon & _) _]. congruence.
  - clear Hi.
    induction Hp as [|npl pd npls pds (_ & _ & _ & Hels) _ IH]; constructor; auto.
    induction Hels as [|el e els es [Hrec Hc] _ IHe]; constructor; auto.
    intros Hty. rewrite Hc. apply content_unset_images_disabled; auto.
    unfold recorded, detected in Hrec. injection Hrec as Ht _ _. now rewrite <- Ht.
Qed.

(** A text-typed region, OCR model loaded and text extraction on. *)
Lemma api_text_element ocr n el r e r' :
  extract_text fl = true -> text_typed (le_type el) = true ->
  ocr_model g = Some ocr ->
  process_element g render_region fl pdf_path n el r = Ok (e, r') ->
  exists s, ocr pdf_path n (le_bbox el) = Ok s /\
            elem_content e = Some s /\
            text r' = (text r ++ s ++ " ")%string.
Proof.
  intros Hfl Hty Hocr H.
  assert (Hs : exists s, ocr pdf_path n (le_bbox el) = Ok s).
  { unfold process_element, bind in H. fold (text_typed (le_type el)) in H.
    rewrite Hfl, Hty, Hocr in H. simpl in H.
    destruct (ocr pdf_path n (le_bbox el)) as [s|]; [eauto|discriminate]. }
  destruct Hs as (s & Hs). exists s. split; [exact Hs|].
  apply process_element_step in H. destruct H as ((_ & Hc) & _ & _ & Ht & _).
  unfold content_of in Hc. unfold text_added in Ht.
  destruct (text_typed_only _ Hty) as (Hi & Hf & Htb).
  rewrite Hi, Hf, Htb, !andb_false_r, Hfl, Hty, Hocr, Hs in Hc.
  rewrite Hfl, Hty, Hocr, Hs in Ht. simpl in Hc, Ht. auto.
Qed.

Lemma text_added_untyped n el :
  text_typed (le_type el) = false -> text_added g fl pdf_path n el = EmptyString.
Proof. intros H. unfold text_added. rewrite H, andb_false_r. reflexivity. Qed.

Lemma text_added_filter n els :
  concat_strings (map (text_added g fl pdf_path n) els) =
  concat_strings (map (text_added g fl pdf_path n)
                      (filter (fun el => text_typed (le_type el)) els)).
Proof.
  induction els as [|el els IH]; simpl; [reflexivity|].
  destruct (text_typed (le_type el)) eqn:Hty; simpl.
  - now rewrite IH.
  - now rewrite text_added_untyped.
Qed.

(** Two pages whose only text-typed region is [el], on page 1. *)
Lemma api_single_text_scenario detect ocr p1 p2 el s r :
  extract_text fl = true ->
  layout_model g = Some detect -> ocr_model g = Some ocr ->
  detect pdf_path = Ok (mk_layout_results [p1; p2]) ->
  filter (fun el => text_typed (le_type el)) (pl_elements p1) = [el] ->
  filter (fun el => text_typed (le_type el)) (pl_elements p2) = [] ->
  ocr pdf_path 1 (le_bbox el) = Ok s ->
  process_pdf g render_region fl pdf_path = Ok r ->
  text r = (s ++ " ")%string.
Proof.
  intros Hfl Hm Hocr Hd H1 H2 Hs H.
  destruct (process_pdf_layout detect _ r Hm Hd H) as (_ & Ht & _).
  simpl in Ht. unfold page_text_added in Ht. simpl in Ht.
  rewrite (text_added_filter 1), (text_added_filter (1 + 1)), H1, H2 in Ht.
  simpl in Ht. unfold text_added in Ht.
  assert (Hty : text_typed (le_type el) = true).
  { assert (Hin : In el (filter (fun el => text_typed (le_type el)) (pl_elements p1)))
      by (rewrite H1; simpl; auto).
    apply filter_In in Hin. apply Hin. }
  rewrite Hfl, Hty, Hocr, Hs in Ht. simpl in Ht.
  now rewrite !string_app_empty_r in Ht.
Qed.

(** A region whose OCR raises ends the run. *)
Lemma api_text_region_raises ocr n el r e :
  extract_text fl = true -> text_typed (le_type el) = true ->
  ocr_model g = Some ocr -> ocr pdf_path n (le_bbox el) = Raise e ->
  process_element g render_region fl pdf_path n el r = Raise e.
Proof.
  intros Hfl Hty Hocr He. unfold process_element, bind.
  fold (text_typed (le_type el)). rewrite Hfl, Hty, Hocr, He. reflexivity.
Qed.

Lemma api_failing_page detect layout pre pl post r1 e :
  layout_model g = Some detect -> detect pdf_path = Ok layout ->
  lr_pages layout = pre ++ pl :: post ->
  process_pages g render_region fl pdf_path 1 pre empty_result = Ok r1 ->
  process_page g render_region fl pdf_path (1 + len pre) pl r1 = Raise e ->
  process_pdf g render_region fl pdf_path = Raise e.
Proof.
  intros Hm Hd Hl Hpre Hfail. unfold process_pdf, try_except, bind.
  rewrite Hm, Hd, Hl.
  now rewrite (process_pages_failing_page g render_region fl pdf_path
                 pre 1 empty_result r1 pl post e Hpre Hfail).
Qed.


End Document.



End ApiFacts.
(* ------------------------------------------------------------------ *)
(** * Properties of the local server *)

Module LocalFacts.

Import PdfExtractServer Spec LocalSpec.

Lemma lbind_ok {A B} (c : logged A) (k : A -> logged B) b l :
  lbind c k = (Ok b, l) ->
  exists a l1 l2, c = (Ok a, l1) /\ k a = (Ok b, l2) /\ l = l1 ++ l2.
Proof.
  unfold lbind. destruct c as [[a|e] l1]; [|discriminate].
  destruct (k a) as [b' l2] eqn:Hk. intros H. injection H as -> <-.
  exists a, l1, l2. auto.
Qed.

Lemma lbind_lift_ok {A B} (c : outcome A) (k : A -> logged B) b l :
  lbind (lift c) k = (Ok b, l) -> exists a, c = Ok a /\ k a = (Ok b, l).
Proof.
  intros H. apply lbind_ok in H. destruct H as (a & l1 & l2 & Hc & Hk & ->).
  unfold lift in Hc. injection Hc as -> <-. exists a. auto.
Qed.

Lemma image_loop_appends n image_list :
  forall idx imgs els imgs' els',
    0 <= idx ->
    image_loop n idx image_list imgs els = Ok (imgs', els') ->
    (exists new, imgs' = imgs ++ new /\ Forall (image_indexed n) new) /\
    (exists rest, els' = els ++ rest /\ Forall (fun e => elem_type e = "image") rest).
Proof.
  induction image_list as [|px image_list IH]; simpl; intros idx imgs els imgs' els' Hidx H.
  - injection H as <- <-. split; exists []; rewrite app_nil_r; auto.
  - unfold bind in H. destruct px as [pix|]; [|discriminate].
    destruct (pix_n pix - pix_alpha pix <? 4).
    + destruct (pix_tobytes pix) as [img_data|]; [|discriminate].
      apply IH in H; [|lia]. destruct H as ((new & -> & Hnew) & (rest & -> & Hrest)).
      split.
      * eexists (_ :: new). rewrite <- app_assoc. split; [reflexivity|].
        constructor; [|exact Hnew]. exists idx. simpl. auto.
      * eexists (_ :: rest). rewrite <- app_assoc. split; [reflexivity|].
        constructor; [reflexivity|exact Hrest].
    + apply IH in H; [|lia]. exact H.
Qed.

Lemma table_entry_indexed n idx tb t el :
  table_entry n idx tb = Ok (t, el) ->
  table_id t = ("table_" ++ str_int n ++ "_" ++ str_int idx)%string /\
  table_pageNumber t = n + 1 /\ elem_type el = "table".
Proof.
  unfold table_entry, bind. intros H.
  destruct (ft_extract tb); [|discriminate].
  destruct (ft_to_pandas tb) as [[h|]|]; try discriminate;
    injection H as <- <-; simpl; auto.
Qed.

Lemma table_loop_appends n tbls :
  forall idx tabs els tabs' els' l,
    0 <= idx ->
    table_loop n idx tbls tabs els = (Ok (tabs', els'), l) ->
    (exists new, tabs' = tabs ++ new /\ Forall (table_indexed n) new) /\
    (exists rest, els' = els ++ rest /\ Forall (fun e => elem_type e = "table") rest).
Proof.
  induction tbls as [|tb tbls IH]; simpl; intros idx tabs els tabs' els' l Hidx H.
  - injection H as <- <- <-. split; exists []; rewrite app_nil_r; auto.
  - apply lbind_ok in H. destruct H as ([tabs1 els1] & l1 & l2 & Hstep & H & ->).
    apply IH in H; [|lia]. destruct H as ((new & -> & Hnew) & (rest & -> & Hrest)).
    destruct (table_entry n idx tb) as [[t el]|e] eqn:Hentry.
    + injection Hstep as <- <- <-.
      apply table_entry_indexed in Hentry. destruct Hentry as (Hid & Hpn & Hty).
      split.
      * eexists (_ :: new). rewrite <- app_assoc. split; [reflexivity|].
        constructor; [|exact Hnew]. exists idx. auto.
      * eexists (_ :: rest). rewrite <- app_assoc. split; [reflexivity|].
        constructor; [exact Hty|exact Hrest].
    + unfold lbind, say, lret in Hstep. injection Hstep as <- <- <-.
      split; [exists new|exists rest]; auto.
Qed.

(** The table loop always returns. *)
Lemma table_loop_total n tbls :
  forall idx tabs els, exists out l, table_loop n idx tbls tabs els = (Ok out, l).
Proof.
  induction tbls as [|tb tbls IH]; simpl; intros idx tabs els.
  - eexists _, _. reflexivity.
  - destruct (table_entry n idx tb) as [[t el]|e]; unfold lbind, say, lret; simpl.
    + destruct (IH (idx + 1) (tabs ++ [t]) (els ++ [el])) as (out & l & ->).
      eexists _, _. reflexivity.
    + destruct (IH (idx + 1) tabs els) as (out & l & ->).
      eexists _, _. reflexivity.
Qed.

Lemma page_step_extends n load r r' l :
  page_step n load r = (Ok r', l) ->
  extends_by_pages n [load] r r'.
Proof.
  unfold page_step. intros H.
  apply lbind_lift_ok in H. destruct H as (page & -> & H).
  apply lbind_lift_ok in H. destruct H as (txt & Htxt & H).
  apply lbind_lift_ok in H. destruct H as (blocks & Hblocks & H).
  apply lbind_lift_ok in H. destruct H as (image_list & Himgs & H).
  apply lbind_lift_ok in H. destruct H as ([imgs els1] & Hloop & H).
  apply lbind_lift_ok in H. destruct H as (tbls & Htbls & H).
  apply lbind_ok in H. destruct H as ([tabs els2] & l1 & l2 & Htl & H & ->).
  unfold lret in H. injection H as <- <-.
  apply image_loop_appends in Hloop; [|lia].
  destruct Hloop as ((ims & -> & Hims) & (rest1 & -> & Hrest1)).
  apply table_loop_appends in Htl; [|lia].
  destruct Htl as ((ts & -> & Hts) & (rest2 & -> & Hrest2)).
  simpl in *.
  unfold extends_by_pages, len; simpl.
  split.
  { eexists [_]. split; [reflexivity|]. constructor; [|constructor].
    split; [reflexivity|]. simpl.
    exists page, blocks, (rest1 ++ rest2). rewrite app_assoc.
    repeat split; auto. apply Forall_app. split.
    - eapply Forall_impl; [|exact Hrest1]. simpl; auto.
    - eapply Forall_impl; [|exact Hrest2]. simpl; auto. }
  split; [rewrite Htxt, string_app_empty_r; reflexivity|].
  split; [|split].
  - exists ims. split; [reflexivity|]. eapply Forall_impl; [|exact Hims].
    intros i Hi. exists n. split; [lia|exact Hi].
  - exists ts. split; [reflexivity|]. eapply Forall_impl; [|exact Hts].
    intros t Ht. exists n. split; [lia|exact Ht].
  - auto.
Qed.

Lemma local_pages_refl k r : extends_by_pages k [] r r.
Proof.
  unfold extends_by_pages; simpl. rewrite string_app_empty_r.
  repeat split; auto; exists []; rewrite app_nil_r; auto.
Qed.

Lemma local_pages_trans k doc1 doc2 r r1 r2 :
  extends_by_pages k doc1 r r1 ->
  extends_by_pages (k + len doc1) doc2 r1 r2 ->
  extends_by_pages k (doc1 ++ doc2) r r2.
Proof.
  intros ((pds & Hp & Hpds) & Ht & His & Hts & Hf & Hm)
         ((pds' & Hp' & Hpds') & Ht' & His' & Hts' & Hf' & Hm').
  pose proof (len_nonneg doc1). pose proof (len_nonneg doc2).
  unfold extends_by_pages. rewrite len_app.
  split.
  { exists (pds ++ pds'). split.
    - now rewrite Hp', Hp, app_assoc.
    - rewrite enumerate_app. now apply Forall2_app. }
  split; [now rewrite Ht', Ht, map_app, concat_strings_app, string_app_assoc|].
  split; [|split; [|split; congruence]].
  - eapply appended_twice; [exact His|exact His'| |]; simpl;
      intros i (n & ? & ?); exists n; split; auto; lia.
  - eapply appended_twice; [exact Hts|exact Hts'| |]; simpl;
      intros i (n & ? & ?); exists n; split; auto; lia.
Qed.

Lemma page_loop_extends doc :
  forall k r r' l,
    page_loop k doc r = (Ok r', l) ->
    extends_by_pages k doc r r'.
Proof.
  induction doc as [|load doc IH]; simpl; intros k r r' l H.
  - injection H as <- <-. apply local_pages_refl.
  - apply lbind_ok in H. destruct H as (r1 & l1 & l2 & Hstep & H & ->).
    apply page_step_extends in Hstep.
    apply IH in H.
    apply (local_pages_trans k [load] doc r r1 r'); assumption.
Qed.

(** A page whose processing raises ends the loop: no result is left. *)
Lemma page_loop_failing_page pre :
  forall k r r1 l1 load post e l2,
    page_loop k pre r = (Ok r1, l1) ->
    page_step (k + len pre) load r1 = (Raise e, l2) ->
    page_loop k (pre ++ load :: post) r = (Raise e, l1 ++ l2).
Proof.
  unfold len.
  induction pre as [|p pre IH]; simpl; intros k r r1 l1 load post e l2 Hpre Hfail.
  - injection Hpre as <- <-. rewrite Z.add_0_r in Hfail.
    unfold lbind. now rewrite Hfail.
  - apply lbind_ok in Hpre. destruct Hpre as (r0 & la & lb & Hstep & Hpre & ->).
    unfold lbind. rewrite Hstep.
    erewrite IH; [|exact Hpre|].
    + now rewrite app_assoc.
    + replace (k + 1 + Z.of_nat (List.length pre))
        with (k + Z.of_nat (S (List.length pre))) by lia.
      exact Hfail.
Qed.

Lemma page_numbers_of_loaded nps pds :
  Forall2 page_loaded nps pds ->
  map pageNumber pds = map (fun np => fst np + 1) nps.
Proof.
  induction 1 as [|np pd nps pds (Hn & _) _ IH]; simpl; congruence.
Qed.

(** ** Positions of the entities in the lists of their page *)

Lemma table_entry_ok n idx tb :
  is_ok (table_entry n idx tb) = table_ready tb.
Proof.
  unfold table_entry, table_ready, bind.
  destruct (ft_extract tb) as [rows|]; [|reflexivity].
  destruct (ft_to_pandas tb) as [[html|]|]; reflexivity.
Qed.

Lemma table_entry_bbox n idx tb t el :
  table_entry n idx tb = Ok (t, el) -> table_bbox t = map Float (ft_bbox tb).
Proof.
  unfold table_entry, bind. intros H.
  destruct (ft_extract tb); [|discriminate].
  destruct (ft_to_pandas tb) as [[h|]|]; try discriminate;
    injection H as <- <-; reflexivity.
Qed.

Lemma image_loop_positions n image_list :
  forall idx imgs els imgs' els',
    image_loop n idx image_list imgs els = Ok (imgs', els') ->
    exists new,
      imgs' = imgs ++ new /\
      Forall2 image_at
              (filter (fun k => kept (snd k))
                      (map (fun ip => (n, fst ip, snd ip)) (enumerate idx image_list)))
              new.
Proof.
  induction image_list as [|px image_list IH]; simpl; intros idx imgs els imgs' els' H.
  - injection H as <- <-. exists []. rewrite app_nil_r. split; [reflexivity|constructor].
  - unfold bind in H. destruct px as [pix|]; [|discriminate]. simpl.
    destruct (pix_n pix - pix_alpha pix <? 4).
    + destruct (pix_tobytes pix) as [img_data|]; [|discriminate].
      apply IH in H. destruct H as (new & -> & Hnew).
      eexists (_ :: new). rewrite <- app_assoc. split; [reflexivity|].
      constructor; [|exact Hnew].
      split; [reflexivity|]. split; [reflexivity|]. exists pix. auto.
    + apply IH in H. exact H.
Qed.

Lemma table_loop_positions n tbls :
  forall idx tabs els tabs' els' l,
    table_loop n idx tbls tabs els = (Ok (tabs', els'), l) ->
    exists new,
      tabs' = tabs ++ new /\
      Forall2 table_at
              (filter (fun k => table_ready (snd k))
                      (map (fun it => (n, fst it, snd it)) (enumerate idx tbls)))
              new.
Proof.
  induction tbls as [|tb tbls IH]; simpl; intros idx tabs els tabs' els' l H.
  - injection H as <- <- <-. exists []. rewrite app_nil_r. split; [reflexivity|constructor].
  - apply lbind_ok in H. destruct H as ([tabs1 els1] & l1 & l2 & Hstep & H & ->).
    apply IH in H. destruct H as (new & -> & Hnew).
    rewrite <- (table_entry_ok n idx tb).
    destruct (table_entry n idx tb) as [[t el]|e] eqn:Hentry; simpl is_ok; cbv iota.
    + injection Hstep as <- <- <-.
      pose proof (table_entry_bbox n idx tb t el Hentry) as Hbb.
      apply table_entry_indexed in Hentry. destruct Hentry as (Hid & Hpn & _).
      exists (t :: new). rewrite <- app_assoc. split; [reflexivity|].
      constructor; [|exact Hnew]. split; [exact Hid|]. split; [exact Hpn|exact Hbb].
    + unfold lbind, say, lret in Hstep. injection Hstep as <- <- <-.
      exists new. auto.
Qed.

Lemma page_step_positions n load r r' l :
  page_step n load r = (Ok r', l) ->
  exists ims ts,
    images r' = images r ++ ims /\ tables r' = tables r ++ ts /\
    Forall2 image_at (filter (fun k => kept (snd k)) (page_pixmaps (n, load))) ims /\
    Forall2 table_at (filter (fun k => table_ready (snd k)) (page_tables (n, load))) ts.
Proof.
  unfold page_step. intros H.
  apply lbind_lift_ok in H. destruct H as (page & -> & H).
  apply lbind_lift_ok in H. destruct H as (txt & Htxt & H).
  apply lbind_lift_ok in H. destruct H as (blocks & Hblocks & H).
  apply lbind_lift_ok in H. destruct H as (image_list & Himgs & H).
  apply lbind_lift_ok in H. destruct H as ([imgs els1] & Hloop & H).
  apply lbind_lift_ok in H. destruct H as (tbls & Htbls & H).
  apply lbind_ok in H. destruct H as ([tabs els2] & l1 & l2 & Htl & H & ->).
  unfold lret in H. injection H as <- <-.
  apply image_loop_positions in Hloop. destruct Hloop as (ims & -> & Hims).
  apply table_loop_positions in Htl. destruct Htl as (ts & -> & Hts).
  exists ims, ts. unfold page_pixmaps, page_tables. simpl.
  rewrite Himgs, Htbls. auto.
Qed.

Lemma page_loop_positions doc :
  forall k r r' l,
    page_loop k doc r = (Ok r', l) ->
    exists ims ts,
      images r' = images r ++ ims /\ tables r' = tables r ++ ts /\
      Forall2 image_at
              (filter (fun k => kept (snd k)) (flat_map page_pixmaps (enumerate k doc)))
              ims /\
      Forall2 table_at
              (filter (fun k => table_ready (snd k)) (flat_map page_tables (enumerate k doc)))
              ts.
Proof.
  induction doc as [|load doc IH]; simpl; intros k r r' l H.
  - injection H as <- <-. exists [], []. rewrite !app_nil_r.
    repeat split; constructor.
  - apply lbind_ok in H. destruct H as (r1 & l1 & l2 & Hstep & H & ->).
    apply page_step_positions in Hstep.
    destruct Hstep as (ims1 & ts1 & Hi1 & Ht1 & Him1 & Htb1).
    apply IH in H. destruct H as (ims2 & ts2 & Hi2 & Ht2 & Him2 & Htb2).
    exists (ims1 ++ ims2), (ts1 ++ ts2).
    rewrite Hi2, Hi1, Ht2, Ht1, !app_assoc, !filter_app.
    repeat split; auto using Forall2_app.
Qed.

Section Basic.

Variable fitz_open : string -> outcome fitz_document.

Lemma basic_tools_completes pdf_path doc r0 l :
  fitz_open pdf_path = Ok doc ->
  page_loop 0 doc empty_result = (Ok r0, l) ->
  extract_with_basic_tools fitz_open pdf_path = (with_counts r0, l).
Proof.
  intros Ho Hl. unfold extract_with_basic_tools, lbind, lift, lret.
  rewrite Ho, Hl. simpl. now rewrite app_nil_r.
Qed.

Lemma basic_tools_cannot_open pdf_path e :
  fitz_open pdf_path = Raise e ->
  extract_with_basic_tools fitz_open pdf_path =
  (failed_result e, [(ERROR, ("Basic extraction failed: " ++ str_exn e)%string)]).
Proof.
  intros Ho. unfold extract_with_basic_tools, lbind, lift. now rewrite Ho.
Qed.

Lemma basic_tools_page_fails pdf_path doc e l :
  fitz_open pdf_path = Ok doc ->
  page_loop 0 doc empty_result = (Raise e, l) ->
  extract_with_basic_tools fitz_open pdf_path =
  (failed_result e, l ++ [(ERROR, ("Basic extraction failed: " ++ str_exn e)%string)]).
Proof.
  intros Ho Hl. unfold extract_with_basic_tools, lbind, lift.
  rewrite Ho, Hl. reflexivity.
Qed.

(** A result without the ['error'] key comes from a run through all pages. *)
Lemma basic_tools_completed pdf_path :
  error (meta (fst (extract_with_basic_tools fitz_open pdf_path))) = None ->
  exists doc r0 l,
    fitz_open pdf_path = Ok doc /\
    page_loop 0 doc empty_result = (Ok r0, l) /\
    extract_with_basic_tools fitz_open pdf_path = (with_counts r0, l).
Proof.
  intros H.
  destruct (fitz_open pdf_path) as [doc|e] eqn:Ho.
  - destruct (page_loop 0 doc empty_result) as [[r0|e] l] eqn:Hl.
    + exists doc, r0, l. repeat split; auto.
      now apply (basic_tools_completes pdf_path doc).
    + rewrite (basic_tools_page_fails pdf_path doc e l Ho Hl) in H. discriminate.
  - rewrite (basic_tools_cannot_open pdf_path e Ho) in H. discriminate.
Qed.

Lemma local_metadata_counts pdf_path :
  error (meta (fst (extract_with_basic_tools fitz_open pdf_path))) = None ->
  metadata_counts (fst (extract_with_basic_tools fitz_open pdf_path)).
Proof.
  intros H. apply basic_tools_completed in H. destruct H as (doc & r0 & l & _ & _ & ->).
  unfold metadata_counts. simpl. auto.
Qed.

Lemma local_loop_leaves_metadata k doc r r' l :
  page_loop k doc r = (Ok r', l) -> meta r' = meta r.
Proof. intros H. apply page_loop_extends in H. apply H. Qed.

(** The document returned after a run through all pages [doc]. *)
Lemma local_completed_document pdf_path doc :
  fitz_open pdf_path = Ok doc ->
  error (meta (fst (extract_with_basic_tools fitz_open pdf_path))) = None ->
  let r := fst (extract_with_basic_tools fitz_open pdf_path) in
  Forall2 page_loaded (enumerate 0 doc) (pages r) /\
  text r = concat_strings (map page_text doc) /\
  Forall (fun i => image_indexed (image_pageNumber i - 1) i) (images r) /\
  Forall (fun t => table_indexed (table_pageNumber t - 1) t) (tables r) /\
  formulas r = [].
Proof.
  intros Ho H. apply basic_tools_completed in H.
  destruct H as (doc' & r0 & l & Ho' & Hl & ->).
  rewrite Ho in Ho'. injection Ho' as <-.
  apply page_loop_extends in Hl.
  destruct Hl as ((pds & Hp & Hpds) & Ht & (ims & Hi & Hims) & (ts & Hts & Htabs) & Hf & _).
  simpl in *. subst. repeat split; auto.
  - eapply Forall_impl; [|exact Hims].
    intros i (n & _ & idx & Hidx & Hid & Hpn). exists idx.
    rewrite Hpn. replace (n + 1 - 1) with n by lia. auto.
  - eapply Forall_impl; [|exact Htabs].
    intros t (n & _ & idx & Hidx & Hid & Hpn). exists idx.
    rewrite Hpn. replace (n + 1 - 1) with n by lia. auto.
Qed.

(** In a completed document the images are the pixmaps that are not CMYK
    and the tables those that were extracted, in order, each with the
    index of its page and its position in the list of the page. *)
Lemma local_positions pdf_path doc :
  fitz_open pdf_path = Ok doc ->
  error (meta (fst (extract_with_basic_tools fitz_open pdf_path))) = None ->
  let r := fst (extract_with_basic_tools fitz_open pdf_path) in
  Forall2 image_at (filter (fun k => kept (snd k)) (positioned_pixmaps doc)) (images r) /\
  Forall2 table_at (filter (fun k => table_ready (snd k)) (positioned_tables doc))
          (tables r).
Proof.
  intros Ho H. apply basic_tools_completed in H.
  destruct H as (doc' & r0 & l & Ho' & Hl & ->).
  rewrite Ho in Ho'. injection Ho' as <-.
  apply page_loop_positions in Hl.
  destruct Hl as (ims & ts & Hi & Ht & Him & Htb). simpl in *. subst.
  split; assumption.
Qed.

Lemma local_page_numbers pdf_path doc :
  fitz_open pdf_path = Ok doc ->
  error (meta (fst (extract_with_basic_tools fitz_open pdf_path))) = None ->
  let r := fst (extract_with_basic_tools fitz_open pdf_path) in
  totalPages (meta r) = Some (len doc) /\
  map pageNumber (pages r) = map (fun np => fst np + 1) (enumerate 0 doc).
Proof.
  intros Ho H.
  destruct (local_completed_document pdf_path doc Ho H) as (Hp & _).
  destruct (local_metadata_counts pdf_path H) as (Hn & _).
  simpl. split.
  - rewrite Hn. unfold len. apply Forall2_length in Hp.
    now rewrite <- Hp, enumerate_length.
  - now apply page_numbers_of_loaded.
Qed.

Lemma local_failing_page pdf_path pre load post r1 l1 e l2 :
  fitz_open pdf_path = Ok (pre ++ load :: post) ->
  page_loop 0 pre empty_result = (Ok r1, l1) ->
  page_step (len pre) load r1 = (Raise e, l2) ->
  fst (extract_with_basic_tools fitz_open pdf_path) = failed_result e.
Proof.
  intros Ho Hpre Hfail.
  rewrite (basic_tools_page_fails pdf_path _ e (l1 ++ l2) Ho); [reflexivity|].
  now apply (page_loop_failing_page pre 0 empty_result r1 l1 load post e l2).
Qed.


(** The model-based strategy returns what the fallback returns and logs
    one more line. *)
Lemma kit_is_basic pdf_path :
  fst (extract_with_pdf_extract_kit fitz_open pdf_path) =
  fst (extract_with_basic_tools fitz_open pdf_path) /\
  snd (extract_with_pdf_extract_kit fitz_open pdf_path) =
  (INFO, "Using PDF-Extract-Kit models...")
    :: snd (extract_with_basic_tools fitz_open pdf_path).
Proof.
  unfold extract_with_pdf_extract_kit.
  destruct (extract_with_basic_tools fitz_open pdf_path) as [r l]. auto.
Qed.

Lemma models_loaded_irrelevant temp_path req :
  extract_document fitz_open true temp_path req =
  extract_document fitz_open false temp_path req.
Proof.
  unfold extract_document.
  destruct (req_file req) as [filename|]; [|reflexivity].
  destruct (String.eqb filename EmptyString); [reflexivity|].
  now rewrite (proj1 (kit_is_basic temp_path)).
Qed.

End Basic.

(** The text elements of a page are its non-blank lines. *)
Lemma text_elements_lines blocks :
  Forall (line_element blocks) (text_elements blocks).
Proof.
  apply Forall_forall. intros e He.
  unfold text_elements in He. apply in_flat_map in He.
  destruct He as (block & Hb & He). unfold block_elements in He.
  destruct (block_lines block) as [lines|] eqn:Hl; [|contradiction].
  apply in_flat_map in He. destruct He as (line & Hline & He).
  unfold line_elements in He.
  destruct (str_truthy (strip (join " " line))) eqn:Hs; [|contradiction].
  destruct He as [<-|[]]. exists block, lines, line. auto.
Qed.

End LocalFacts.

(* ------------------------------------------------------------------ *)
(** * Decimal numerals in ids *)

Module IdFacts.

Import Spec.

Lemma str_int_parses z : NilZero.int_of_string (str_int z) = Some (Z.to_int z).
Proof.
  unfold str_int. apply NilZero.isi; destruct z; simpl; intros H;
    try discriminate; injection H as H;
    try discriminate; now apply DecimalPos.Unsigned.to_uint_nonnil in H.
Qed.

Lemma str_int_inj a b : str_int a = str_int b -> a = b.
Proof.
  intros H. apply DecimalZ.to_int_inj.
  pose proof (str_int_parses a) as Ha. rewrite H, str_int_parses in Ha.
  now injection Ha.
Qed.

Lemma digits_no_underscore d : has_char "_" (NilEmpty.string_of_uint d) = false.
Proof. induction d; simpl; auto. Qed.

Lemma str_int_no_underscore z : has_char "_" (str_int z) = false.
Proof.
  unfold str_int, NilZero.string_of_int, NilZero.string_of_uint.
  destruct (Z.to_int z) as [d|d]; destruct d; simpl;
    auto using digits_no_underscore.
Qed.

(** Two strings cut at the first occurrence of a character. *)
Lemma split_at_char c a :
  forall a' r r',
    has_char c a = false -> has_char c a' = false ->
    (a ++ String c r)%string = (a' ++ String c r')%string ->
    a = a' /\ r = r'.
Proof.
  induction a as [|x a IH]; intros [|y a'] r r'; simpl; intros Ha Ha' H.
  - injection H as ->. auto.
  - injection H as -> _. now rewrite Ascii.eqb_refl in Ha'.
  - injection H as -> _. now rewrite Ascii.eqb_refl in Ha.
  - injection H as -> H.
    apply orb_false_iff in Ha, Ha'. destruct Ha as [_ Ha], Ha' as [_ Ha'].
    destruct (IH a' r r' Ha Ha' H) as [-> ->]. auto.
Qed.

Lemma string_app_inv_head (k x y : string) :
  (k ++ x)%string = (k ++ y)%string -> x = y.
Proof. induction k as [|c k IH]; simpl; intros H; [exact H|]. injection H as H. auto. Qed.

(** The id of an entity, from its page and its truncated corner. *)
Lemma entity_id_corner kind n b id :
  ApiServer.entity_id kind n b = Ok id <->
  exists i0 i1,
    truncated_corner b = Ok (i0, i1) /\
    id = (kind ++ "_" ++ str_int n ++ "_" ++ str_int i0 ++ "_" ++ str_int i1)%string.
Proof.
  unfold ApiServer.entity_id, truncated_corner, bind.
  destruct (getitem b 0) as [x0|]; [|split; [discriminate|intros (? & ? & H & _); discriminate]].
  destruct (int_of_float x0) as [i0|];
    [|split; [discriminate|intros (? & ? & H & _); discriminate]].
  destruct (getitem b 1) as [y0|];
    [|split; [discriminate|intros (? & ? & H & _); discriminate]].
  destruct (int_of_float y0) as [i1|];
    [|split; [discriminate|intros (? & ? & H & _); discriminate]].
  split.
  - intros H. injection H as <-. exists i0, i1. auto.
  - intros (j0 & j1 & H & ->). injection H as <- <-. reflexivity.
Qed.

Lemma ids_equal_iff kind n n' i0 i1 j0 j1 :
  (kind ++ "_" ++ str_int n ++ "_" ++ str_int i0 ++ "_" ++ str_int i1)%string =
  (kind ++ "_" ++ str_int n' ++ "_" ++ str_int j0 ++ "_" ++ str_int j1)%string <->
  n = n' /\ i0 = j0 /\ i1 = j1.
Proof.
  split.
  - intros H. apply string_app_inv_head in H. simpl in H. injection H as H.
    apply split_at_char in H; auto using str_int_no_underscore.
    destruct H as [Hn H]. apply str_int_inj in Hn.
    apply split_at_char in H; auto using str_int_no_underscore.
    destruct H as [H0 H1]. apply str_int_inj in H0, H1. auto.
  - intros (-> & -> & ->). reflexivity.
Qed.

End IdFacts.

(* ------------------------------------------------------------------ *)
(** * More on the model-based server *)

Module ApiMore.

Import ApiServer Spec.

(** A type test that holds settles the others. *)
Ltac settle_types :=
  repeat match goal with
  | H : String.eqb ?ty _ = true |- _ => apply String.eqb_eq in H; subst ty
  | H : _ && _ = true |- _ => apply andb_prop in H; destruct H
  | H : _ || _ = true |- _ => apply orb_prop in H; destruct H
  end;
  simpl in *; rewrite ?andb_false_r in *; try discriminate.

(** ** When the extractors return *)

Lemma entity_id_ok kind n b : is_ok (entity_id kind n b) = has_corner b.
Proof.
  unfold entity_id, bind, getitem, has_corner.
  destruct b as [|x0 [|y0 b]]; simpl; try reflexivity.
  - destruct (int_of_float x0); reflexivity.
  - destruct (int_of_float x0); simpl; [|reflexivity].
    destruct (int_of_float y0); reflexivity.
Qed.

Lemma extract_table_ok g pdf_path n b :
  is_ok (extract_table g pdf_path n b) = has_corner b.
Proof.
  rewrite <- (entity_id_ok "table" n b).
  unfold extract_table, try_except, bind.
  destruct (match table_model g with Some m => m pdf_path n b | None => _ end);
    destruct (entity_id "table" n b); reflexivity.
Qed.

Lemma extract_formula_ok g pdf_path n b :
  is_ok (extract_formula g pdf_path n b) = has_corner b.
Proof.
  rewrite <- (entity_id_ok "formula" n b).
  unfold extract_formula, try_except, bind.
  destruct (match formula_model g with Some m => m pdf_path n b | None => _ end);
    destruct (entity_id "formula" n b); try reflexivity.
  destruct (getitem b 3); [destruct (getitem b 1)|]; reflexivity.
Qed.

Lemma extract_image_ok render_region pdf_path n b :
  is_ok (extract_image render_region pdf_path n b) = has_corner b.
Proof.
  rewrite <- (entity_id_ok "image" n b).
  unfold extract_image, try_except, bind.
  destruct (render_region pdf_path n b);
    destruct (entity_id "image" n b); reflexivity.
Qed.

Lemma is_ok_true {A} (c : outcome A) : is_ok c = true -> exists a, c = Ok a.
Proof. destruct c; [eauto|discriminate]. Qed.

Lemma linked_when_nil {X} flag typed (linked : Z * elem_data -> X -> Prop) :
  linked_when flag typed linked [] [].
Proof. unfold linked_when. destruct flag; constructor. Qed.

Lemma linked_when_app {X} flag typed (linked : Z * elem_data -> X -> Prop)
      nes1 nes2 xs1 xs2 :
  linked_when flag typed linked nes1 xs1 ->
  linked_when flag typed linked nes2 xs2 ->
  linked_when flag typed linked (nes1 ++ nes2) (xs1 ++ xs2).
Proof.
  unfold linked_when, typed_elements. destruct flag.
  - intros H1 H2. rewrite filter_app. now apply Forall2_app.
  - intros -> ->. reflexivity.
Qed.

Lemma links_added_refl fl r : links_added fl [] r r.
Proof.
  repeat split; exists []; rewrite app_nil_r; auto using linked_when_nil.
Qed.

Lemma links_added_trans fl nes1 nes2 r r1 r2 :
  links_added fl nes1 r r1 -> links_added fl nes2 r1 r2 ->
  links_added fl (nes1 ++ nes2) r r2.
Proof.
  intros ((ts & Ht & Hts) & (fs & Hf & Hfs) & (ims & Hi & His))
         ((ts' & Ht' & Hts') & (fs' & Hf' & Hfs') & (ims' & Hi' & His')).
  repeat split.
  - exists (ts ++ ts'). rewrite Ht', Ht, app_assoc. auto using linked_when_app.
  - exists (fs ++ fs'). rewrite Hf', Hf, app_assoc. auto using linked_when_app.
  - exists (ims ++ ims'). rewrite Hi', Hi, app_assoc. auto using linked_when_app.
Qed.

Section Assembly.

Variable g : models.
Variable render_region : string -> Z -> bbox -> outcome string.
Variable fl : flags.
Variable pdf_path : string.

(** One turn of the element loop: the entities appended are those of the
    element. *)
Lemma process_element_links n el r e r' :
  process_element g render_region fl pdf_path n el r = Ok (e, r') ->
  links_added fl [(n, e)] r r'.
Proof.
  destruct el as [ty b c].
  unfold links_added, process_element, bind, linked_when, typed_elements, table_typed,
    formula_typed, image_typed, str_in.
  simpl. intros H. ApiFacts.ok_cases.
  all: settle_types.
  all: split; [|split].
  all: first [ exists []; split; [now rewrite app_nil_r|]
             | eexists; split; [reflexivity|] ].
  all: repeat match goal with
       | |- context [if ?c then _ else _] => destruct c eqn:?
       end; simpl in *; try discriminate; try reflexivity.
  all: repeat constructor; simpl; auto.
  all: match goal with
       | H : extract_image _ _ _ _ = Ok _ |- _ =>
           apply ApiFacts.extract_image_id in H; apply H
       | H : extract_formula _ _ _ _ = Ok _ |- _ =>
           apply ApiFacts.extract_formula_kind in H; apply H
       | H : extract_table _ _ _ _ = Ok _ |- _ =>
           apply ApiFacts.extract_table_id in H; apply H
       end.
Qed.

Lemma process_elements_links n els :
  forall acc r acc' r',
    process_elements g render_region fl pdf_path n els acc r = Ok (acc', r') ->
    exists es, acc' = acc ++ es /\ links_added fl (map (pair n) es) r r'.
Proof.
  induction els as [|el els IH]; simpl; intros acc r acc' r' H.
  - injection H as <- <-. exists []. rewrite app_nil_r.
    split; [reflexivity|apply links_added_refl].
  - unfold bind in H.
    destruct (process_element g render_region fl pdf_path n el r)
      as [[e r1]|] eqn:Hstep; [|discriminate].
    apply process_element_links in Hstep. apply IH in H.
    destruct H as (es & -> & Hes).
    exists (e :: es). rewrite <- app_assoc. split; [reflexivity|].
    exact (links_added_trans fl [(n, e)] _ _ _ _ Hstep Hes).
Qed.

Lemma process_pages_links pls :
  forall k r r',
    process_pages g render_region fl pdf_path k pls r = Ok r' ->
    exists pds, pages r' = pages r ++ pds /\
      links_added fl
        (flat_map (fun pd => map (pair (pageNumber pd)) (elements pd)) pds) r r'.
Proof.
  induction pls as [|pl pls IH]; simpl; intros k r r' H.
  - injection H as <-. exists []. rewrite app_nil_r.
    split; [reflexivity|apply links_added_refl].
  - unfold bind, process_page in H. unfold bind in H.
    destruct (process_elements g render_region fl pdf_path k (pl_elements pl) [] r)
      as [[es r1]|] eqn:Hels; [|discriminate].
    destruct (ApiFacts.process_elements_extends g render_region fl pdf_path
                k _ _ _ _ _ Hels) as (_ & _ & _ & Hsame & _).
    apply process_elements_links in Hels. destruct Hels as (es' & Hes & Hl).
    simpl in Hes. subst es'.
    apply IH in H. destruct H as (pds & Hp & Hl').
    eexists (_ :: pds). simpl in Hp. rewrite <- app_assoc, Hsame in Hp.
    split; [exact Hp|]. simpl.
    eapply links_added_trans; [|exact Hl'].
    destruct Hl as (Ht & Hf & Hi). repeat split; assumption.
Qed.

Lemma process_pdf_links r :
  process_pdf g render_region fl pdf_path = Ok r ->
  linked_when (extract_tables fl) table_typed table_linked (doc_elements r) (tables r) /\
  linked_when (extract_formulas fl) formula_typed formula_linked (doc_elements r)
              (formulas r) /\
  linked_when (extract_images fl) image_typed image_linked (doc_elements r) (images r).
Proof.
  intros H. apply ApiFacts.process_pdf_returns in H.
  destruct H as (detect & layout & r0 & _ & _ & Hp & ->).
  apply process_pages_links in Hp.
  destruct Hp as (pds & Hpds & (ts & Ht & Hts) & (fs & Hf & Hfs) & (ims & Hi & His)).
  simpl in *. subst. unfold doc_elements. simpl. auto.
Qed.

(** The table, formula and image stages of the loop body return when the
    bbox has a corner wherever an extractor is called. *)
Lemma later_stages (e1 : elem_data) (r1 : result) n el :
  (if extract_tables fl && String.eqb (le_type el) "table"
   then has_corner (le_bbox el) else true) = true ->
  (if extract_formulas fl && String.eqb (le_type el) "formula"
   then has_corner (le_bbox el) else true) = true ->
  (if extract_images fl && image_typed (le_type el)
   then has_corner (le_bbox el) else true) = true ->
  exists e r',
    match
      (if extract_tables fl && String.eqb (le_type el) "table"
       then
         match extract_table g pdf_path n (le_bbox el) with
         | Ok t =>
             Ok (set_content e1
                   ("Table with " ++ str_int (len (table_data (stamp_table t n)))
                                  ++ " rows")%string,
                 append_table r1 (stamp_table t n))
         | Raise e => Raise e
         end
       else Ok (e1, r1))
    with
    | Ok (elem2, r2) =>
        match
          (if extract_formulas fl && String.eqb (le_type el) "formula"
           then
             match extract_formula g pdf_path n (le_bbox el) with
             | Ok f =>
                 Ok (set_content elem2 (formula_latex (stamp_formula f n)),
                     append_formula r2 (stamp_formula f n))
             | Raise e => Raise e
             end
           else Ok (elem2, r2))
        with
        | Ok (elem3, r3) =>
            if extract_images fl && image_typed (le_type el)
            then
              match extract_image render_region pdf_path n (le_bbox el) with
              | Ok i => Ok (set_content elem3 "Image",
                            append_image r3 (stamp_image i n))
              | Raise e => Raise e
              end
            else Ok (elem3, r3)
        | Raise e => Raise e
        end
    | Raise e => Raise e
    end = Ok (e, r').
Proof.
  intros Htb Hf Hi.
  destruct (extract_tables fl && String.eqb (le_type el) "table").
  - rewrite <- (extract_table_ok g pdf_path n) in Htb.
    apply is_ok_true in Htb. destruct Htb as (t & ->).
    destruct (extract_formulas fl && String.eqb (le_type el) "formula").
    + rewrite <- (extract_formula_ok g pdf_path n) in Hf.
      apply is_ok_true in Hf. destruct Hf as (f & ->).
      destruct (extract_images fl && image_typed (le_type el)); [|eauto].
      rewrite <- (extract_image_ok render_region pdf_path n) in Hi.
      apply is_ok_true in Hi. destruct Hi as (i & ->). eauto.
    + destruct (extract_images fl && image_typed (le_type el)); [|eauto].
      rewrite <- (extract_image_ok render_region pdf_path n) in Hi.
      apply is_ok_true in Hi. destruct Hi as (i & ->). eauto.
  - destruct (extract_formulas fl && String.eqb (le_type el) "formula").
    + rewrite <- (extract_formula_ok g pdf_path n) in Hf.
      apply is_ok_true in Hf. destruct Hf as (f & ->).
      destruct (extract_images fl && image_typed (le_type el)); [|eauto].
      rewrite <- (extract_image_ok render_region pdf_path n) in Hi.
      apply is_ok_true in Hi. destruct Hi as (i & ->). eauto.
    + destruct (extract_images fl && image_typed (le_type el)); [|eauto].
      rewrite <- (extract_image_ok render_region pdf_path n) in Hi.
      apply is_ok_true in Hi. destruct Hi as (i & ->). eauto.
Qed.

(** A ready region gets through its turn of the loop. *)
Lemma process_element_ready n el r :
  region_ready g fl pdf_path n el = true ->
  exists e r', process_element g render_region fl pdf_path n el r = Ok (e, r').
Proof.
  unfold region_ready, process_element, bind, table_typed, formula_typed.
  fold (text_typed (le_type el)). fold (image_typed (le_type el)).
  intros H.
  apply andb_prop in H. destruct H as [H Hi].
  apply andb_prop in H. destruct H as [H Hf].
  apply andb_prop in H. destruct H as [Ht Htb].
  destruct (extract_text fl && text_typed (le_type el)).
  - destruct (ocr_model g) as [ocr|].
    + apply is_ok_true in Ht. destruct Ht as (s & ->).
      revert Htb Hf Hi. generalize (set_content
        (mk_elem_data (le_type el) (le_bbox el) (get (le_confidence el) 1%float) None) s).
      generalize (add_text r (s ++ " ")%string).
      intros r1 e1 Htb Hf Hi. apply (later_stages e1 r1); assumption.
    + apply later_stages; assumption.
  - apply later_stages; assumption.
Qed.

(** And only a ready region does. *)
Lemma process_element_returned_ready n el r e r' :
  process_element g render_region fl pdf_path n el r = Ok (e, r') ->
  region_ready g fl pdf_path n el = true.
Proof.
  unfold region_ready, process_element, bind, table_typed, formula_typed,
    text_typed, image_typed, str_in.
  simpl. intros H. ApiFacts.ok_cases.
  all: repeat match goal with
       | H : extract_table _ _ _ ?b = Ok _ |- _ =>
           assert (has_corner b = true)
             by (rewrite <- (extract_table_ok g pdf_path n), H; reflexivity);
           clear H
       | H : extract_formula _ _ _ ?b = Ok _ |- _ =>
           assert (has_corner b = true)
             by (rewrite <- (extract_formula_ok g pdf_path n), H; reflexivity);
           clear H
       | H : extract_image _ _ _ ?b = Ok _ |- _ =>
           assert (has_corner b = true)
             by (rewrite <- (extract_image_ok render_region pdf_path n), H; reflexivity);
           clear H
       end.
  all: repeat match goal with
              | E : ?c = _ |- context [?c] => rewrite E
              end; reflexivity.
Qed.

Lemma process_elements_ready n els :
  forall acc r,
    is_ok (process_elements g render_region fl pdf_path n els acc r) =
    forallb (region_ready g fl pdf_path n) els.
Proof.
  induction els as [|el els IH]; simpl; intros acc r; [reflexivity|].
  unfold bind.
  destruct (region_ready g fl pdf_path n el) eqn:Hready.
  - destruct (process_element_ready n el r Hready) as (e & r' & ->). apply IH.
  - destruct (process_element g render_region fl pdf_path n el r) as [[e r']|] eqn:H;
      [|reflexivity].
    apply process_element_returned_ready in H. congruence.
Qed.

Lemma process_pages_ready pls :
  forall k r,
    is_ok (process_pages g render_region fl pdf_path k pls r) =
    forallb (page_ready g fl pdf_path) (enumerate k pls).
Proof.
  induction pls as [|pl pls IH]; simpl; intros k r; [reflexivity|].
  unfold bind, process_page, page_ready at 1. unfold bind. simpl.
  rewrite <- (process_elements_ready k (pl_elements pl) [] r).
  destruct (process_elements g render_region fl pdf_path k (pl_elements pl) [] r)
    as [[es r']|]; simpl; [apply IH|reflexivity].
Qed.

Lemma process_pdf_ready detect layout :
  layout_model g = Some detect -> detect pdf_path = Ok layout ->
  is_ok (process_pdf g render_region fl pdf_path) = layout_ready g fl pdf_path layout.
Proof.
  intros Hm Hd. unfold process_pdf, try_except, bind, layout_ready.
  rewrite Hm, Hd.
  rewrite <- (process_pages_ready (lr_pages layout) 1 empty_result).
  destruct (process_pages g render_region fl pdf_path 1 (lr_pages layout) empty_result);
    reflexivity.
Qed.

(** ** Nothing to extract *)

Lemma process_element_blank n el r :
  flags_off fl ->
  process_element g render_region fl pdf_path n el r = Ok (blank_element el, r).
Proof.
  intros (Ht & Htb & Hf & Hi). unfold process_element, bind.
  rewrite Ht, Htb, Hf, Hi. reflexivity.
Qed.

Lemma process_elements_blank n els :
  flags_off fl ->
  forall acc r,
    process_elements g render_region fl pdf_path n els acc r =
    Ok (acc ++ map blank_element els, r).
Proof.
  intros Hoff. induction els as [|el els IH]; simpl; intros acc r.
  - now rewrite app_nil_r.
  - rewrite (process_element_blank n el r Hoff). simpl.
    rewrite IH, <- app_assoc. reflexivity.
Qed.

Lemma process_pages_blank pls :
  flags_off fl ->
  forall k r,
    process_pages g render_region fl pdf_path k pls r =
    Ok (mk_result (text r) (pages r ++ map blank_page (enumerate k pls))
                  (tables r) (images r) (formulas r) (meta r)).
Proof.
  intros Hoff. induction pls as [|pl pls IH]; simpl; intros k r.
  - rewrite app_nil_r. now destruct r.
  - unfold process_page, bind.
    rewrite (process_elements_blank k (pl_elements pl) Hoff). simpl.
    rewrite IH. simpl. now rewrite <- app_assoc.
Qed.

Lemma process_pdf_blank detect layout :
  flags_off fl ->
  layout_model g = Some detect -> detect pdf_path = Ok layout ->
  process_pdf g render_region fl pdf_path = Ok (layout_only layout).
Proof.
  intros Hoff Hm Hd. unfold process_pdf, try_except, bind.
  rewrite Hm, Hd, (process_pages_blank (lr_pages layout) Hoff). simpl.
  unfold layout_only, set_metadata, len. simpl.
  now rewrite length_map, enumerate_length.
Qed.

(** ** A disabled flag *)

Lemma content_of_text_off n el :
  extract_text fl = false -> text_typed (le_type el) = true ->
  content_of g fl pdf_path n el = None.
Proof.
  intros Hfl Hty. unfold content_of.
  destruct (ApiFacts.text_typed_only _ Hty) as (-> & -> & ->).
  now rewrite Hfl, !andb_false_r.
Qed.

Lemma content_of_tables_off n el :
  extract_tables fl = false -> table_typed (le_type el) = true ->
  content_of g fl pdf_path n el = None.
Proof.
  intros Hfl Hty. unfold content_of, table_typed in *.
  apply String.eqb_eq in Hty. rewrite Hty, Hfl. simpl.
  now rewrite !andb_false_r.
Qed.

Lemma content_of_formulas_off n el :
  extract_formulas fl = false -> formula_typed (le_type el) = true ->
  content_of g fl pdf_path n el = None.
Proof.
  intros Hfl Hty. unfold content_of, formula_typed in *.
  apply String.eqb_eq in Hty. rewrite Hty, Hfl. simpl.
  now rewrite !andb_false_r.
Qed.

(** Every element of the document records a region of its page. *)
Lemma doc_elements_recorded npls pds :
  Forall2 (page_records g fl pdf_path) npls pds ->
  Forall (fun ne => exists el,
              elem_type (snd ne) = le_type el /\
              elem_content (snd ne) = content_of g fl pdf_path (fst ne) el)
         (flat_map (fun pd => map (pair (pageNumber pd)) (elements pd)) pds).
Proof.
  induction 1 as [|npl pd npls pds (Hn & _ & _ & Hels) _ IH]; simpl; [constructor|].
  apply Forall_app. split; [|exact IH].
  rewrite Hn. clear - Hels.
  induction Hels as [|el e els es [Hrec Hc] _ IHe]; simpl; constructor; auto.
  exists el. simpl. split; [|exact Hc].
  unfold recorded, detected in Hrec. now injection Hrec.
Qed.

Lemma contents_unset typed r :
  process_pdf g render_region fl pdf_path = Ok r ->
  (forall n el, typed (le_type el) = true -> content_of g fl pdf_path n el = None) ->
  Forall (fun ne => typed (elem_type (snd ne)) = true -> elem_content (snd ne) = None)
         (doc_elements r).
Proof.
  intros H Hnone. apply ApiFacts.process_pdf_assembles in H.
  destruct H as (detect & layout & _ & _ & Hp & _).
  apply doc_elements_recorded in Hp.
  eapply Forall_impl; [|exact Hp].
  intros ne (el & Hty & Hc) Htyped. rewrite Hc. apply Hnone. now rewrite <- Hty.
Qed.

Lemma concat_strings_empty (l : list string) :
  Forall (fun s => s = EmptyString) l -> concat_strings l = EmptyString.
Proof. induction 1 as [|s l -> _ IH]; simpl; auto. Qed.

Lemma text_empty_when_off r :
  extract_text fl = false ->
  process_pdf g render_region fl pdf_path = Ok r -> text r = EmptyString.
Proof.
  intros Hfl H. apply ApiFacts.process_pdf_assembles in H.
  destruct H as (detect & layout & _ & _ & _ & Ht & _). rewrite Ht.
  apply concat_strings_empty. apply Forall_forall. intros s Hs.
  apply in_map_iff in Hs. destruct Hs as (npl & <- & _).
  apply concat_strings_empty. apply Forall_forall. intros s Hs.
  apply in_map_iff in Hs. destruct Hs as (el & <- & _).
  unfold text_added. now rewrite Hfl.
Qed.

End Assembly.

Lemma enumerate_bounds {A} (l : list A) k n a :
  In (n, a) (enumerate k l) -> k <= n < k + len l.
Proof.
  unfold len. revert k; induction l as [|x l IH]; simpl; intros k H; [tauto|].
  destruct H as [H|H].
  - injection H as <- <-. lia.
  - apply IH in H. lia.
Qed.

(** ** The renderers *)

Lemma fold_left_append {X} (f : X -> string) (l : list X) (init : string) :
  fold_left (fun h x => (h ++ f x)%string) l init =
  (init ++ concat_strings (map f l))%string.
Proof.
  revert init. induction l as [|x l IH]; simpl; intros init.
  - now rewrite string_app_empty_r.
  - now rewrite IH, string_app_assoc.
Qed.

(** Both sides as right-nested appends. *)
Ltac normalize_append :=
  repeat first [ rewrite string_app_assoc
               | rewrite string_app_empty_r
               | progress cbn [String.append] ].

Lemma format_as_html_page data m :
  meta data = Some m ->
  format_as_html data =
  Ok (html_page (totalPages m) (text data) (map table_html (tables data))).
Proof.
  intros Hm. unfold format_as_html, html_page, bind. rewrite Hm.
  f_equal.
  destruct (str_truthy (text data)); destruct (tables data) as [|t ts];
    cbv iota; rewrite ?fold_left_append; unfold len; rewrite ?length_map;
    cbn [map]; normalize_append; reflexivity.
Qed.

Lemma format_as_markdown_page data m :
  meta data = Some m ->
  format_as_markdown data =
  Ok (markdown_page (totalPages m) (text data) (map table_markdown (tables data))).
Proof.
  intros Hm. unfold format_as_markdown, markdown_page, bind. rewrite Hm.
  f_equal.
  rewrite (fold_left_append (fun t => (table_markdown t ++ nl ++ nl)%string)).
  rewrite map_map.
  destruct (str_truthy (text data)); destruct (tables data) as [|t ts];
    cbv iota; unfold len; rewrite ?length_map;
    cbn [map]; normalize_append; reflexivity.
Qed.

Lemma format_without_metadata data :
  meta data = None ->
  is_ok (format_as_html data) = false /\ is_ok (format_as_markdown data) = false.
Proof.
  intros Hm. unfold format_as_html, format_as_markdown, bind. now rewrite Hm.
Qed.

(** ** Model initialisation and the endpoint *)

Lemma initialize_models_success import_kit g :
  fst (initialize_models import_kit g) = true ->
  all_models (snd (initialize_models import_kit g)) = true /\
  exists k lm tm fm om,
    import_kit = Ok k /\ DocLayoutYOLO k = Ok lm /\ TableExtractor k = Ok tm /\
    FormulaExtractor k = Ok fm /\ OCRExtractor k = Ok om /\
    snd (initialize_models import_kit g) =
    mk_models (Some lm) (Some tm) (Some fm) (Some om).
Proof.
  unfold initialize_models.
  destruct import_kit as [k|]; [|discriminate].
  destruct (DocLayoutYOLO k) as [lm|] eqn:H1; [|discriminate].
  destruct (TableExtractor k) as [tm|] eqn:H2; [|discriminate].
  destruct (FormulaExtractor k) as [fm|] eqn:H3; [|discriminate].
  destruct (OCRExtractor k) as [om|] eqn:H4; [|discriminate].
  intros _. split; [reflexivity|]. exists k, lm, tm, fm, om. auto 10.
Qed.

Lemma initialize_models_keeps import_kit g :
  let g' := snd (initialize_models import_kit g) in
  (loaded (layout_model g) -> loaded (layout_model g')) /\
  (loaded (table_model g) -> loaded (table_model g')) /\
  (loaded (formula_model g) -> loaded (formula_model g')) /\
  (loaded (ocr_model g) -> loaded (ocr_model g')).
Proof.
  unfold initialize_models, loaded.
  destruct import_kit as [k|]; simpl; [|tauto].
  destruct (DocLayoutYOLO k); simpl; [|tauto].
  destruct (TableExtractor k); simpl; [|repeat split; auto; discriminate].
  destruct (FormulaExtractor k); simpl; [|repeat split; auto; discriminate].
  destruct (OCRExtractor k); simpl; repeat split; auto; discriminate.
Qed.

Section Answers.

Variable import_kit : outcome kit.
Variable render_region : string -> Z -> bbox -> outcome string.
Variable save_upload : string -> outcome unit.
Variable os_remove : string -> outcome unit.

(** The answer for a document, or for the exception, of [process_pdf]. *)
Lemma answer_of_process_pdf g req temp_path :
  match
    (result <- process_pdf g render_region (request_flags req) temp_path ;;
     _ <- os_remove temp_path ;;
     if String.eqb (get (form_output_format req) "json") "html"
     then s <- format_as_html result ;; Ok (Page s)
     else if String.eqb (get (form_output_format req) "json") "markdown"
     then s <- format_as_markdown result ;; Ok (Page s)
     else Ok (JsonResult result))
  with
  | Ok b => (mk_response 200 b, g)
  | Raise e => (mk_response 500 (JsonError (str_exn e)), g)
  end =
  (match process_pdf g render_region (request_flags req) temp_path with
   | Ok r =>
       match os_remove temp_path with
       | Ok _ => mk_response 200 (rendered req r (len (pages r)))
       | Raise e => mk_response 500 (JsonError (str_exn e))
       end
   | Raise e => mk_response 500 (JsonError (str_exn e))
   end, g).
Proof.
  unfold bind at 1.
  destruct (process_pdf g render_region (request_flags req) temp_path) as [r|e] eqn:H;
    [|reflexivity].
  unfold bind at 1. destruct (os_remove temp_path) as [u|e]; [|reflexivity].
  apply ApiFacts.api_metadata_counts in H. destruct H as (m & Hm & Hp & _).
  unfold rendered, bind.
  rewrite (format_as_html_page r m Hm), (format_as_markdown_page r m Hm), Hp.
  destruct (String.eqb (get (form_output_format req) "json") "html"); [reflexivity|].
  destruct (String.eqb (get (form_output_format req) "json") "markdown"); reflexivity.
Qed.

(** The endpoint on a named upload. *)
Lemma extract_document_named g req filename :
  req_file req = Some filename -> filename <> EmptyString ->
  extract_document import_kit render_region save_upload os_remove g req =
  match save_upload ("/tmp/" ++ filename)%string with
  | Raise e => (mk_response 500 (JsonError (str_exn e)), g)
  | Ok _ =>
      let '(ready, g') := models_for_request import_kit g in
      if ready
      then (match process_pdf g' render_region (request_flags req)
                              ("/tmp/" ++ filename)%string with
            | Ok r =>
                match os_remove ("/tmp/" ++ filename)%string with
                | Ok _ => mk_response 200 (rendered req r (len (pages r)))
                | Raise e => mk_response 500 (JsonError (str_exn e))
                end
            | Raise e => mk_response 500 (JsonError (str_exn e))
            end, g')
      else (mk_response 500 (JsonError "Failed to initialize models"), g')
  end.
Proof.
  intros Hf Hne. unfold extract_document, models_for_request. rewrite Hf.
  destruct (String.eqb filename EmptyString) eqn:Heq.
  { apply String.eqb_eq in Heq. contradiction. }
  destruct (save_upload ("/tmp/" ++ filename)%string) as [u|e]; [|reflexivity].
  destruct (all_models g); simpl negb; cbv iota.
  - simpl negb. cbv iota. apply answer_of_process_pdf.
  - destruct (initialize_models import_kit g) as [[|] g']; simpl negb; cbv iota;
      [|reflexivity].
    apply answer_of_process_pdf.
Qed.

Lemma extract_document_rejected g req :
  bad_upload req ->
  status (fst (extract_document import_kit render_region save_upload os_remove g req))
  = 400 /\
  snd (extract_document import_kit render_region save_upload os_remove g req) = g.
Proof.
  unfold bad_upload, extract_document. intros [->| ->]; simpl; auto.
Qed.

End Answers.

End ApiMore.

(* ------------------------------------------------------------------ *)
(** * More on the local server *)

Module LocalMore.

Import PdfExtractServer LocalSpec.

Lemma Forall2_in_right {A B} (R : A -> B -> Prop) l l' y :
  Forall2 R l l' -> In y l' -> exists x, In x l /\ R x y.
Proof.
  induction 1 as [|x y' l l' HR _ IH]; intros Hin; [contradiction|].
  destruct Hin as [<-|Hin].
  - exists x. split; [now left|exact HR].
  - destruct (IH Hin) as (x' & Hx' & HR'). exists x'. split; [now right|exact HR'].
Qed.

(** ** Ids *)

Lemma indexed_id_inj prefix k k' :
  indexed_id prefix k = indexed_id prefix k' -> k = k'.
Proof.
  unfold indexed_id. destruct k as [p i], k' as [p' i']. simpl fst; simpl snd.
  intros H. apply IdFacts.string_app_inv_head in H.
  change (str_int p ++ String "_" (str_int i) =
          str_int p' ++ String "_" (str_int i'))%string in H.
  apply IdFacts.split_at_char in H; auto using IdFacts.str_int_no_underscore.
  destruct H as [Hp Hi]. apply IdFacts.str_int_inj in Hp, Hi. congruence.
Qed.

Lemma key_lt_irrefl k : ~ key_lt k k.
Proof. unfold key_lt. lia. Qed.

Lemma ids_below_nil prefix b : ids_below prefix b [].
Proof. split; constructor. Qed.

Lemma ids_below_weaken prefix b b' ids :
  (forall k, key_lt k b -> key_lt k b') ->
  ids_below prefix b ids -> ids_below prefix b' ids.
Proof.
  intros Hlt [Hnd Hall]. split; [exact Hnd|].
  eapply Forall_impl; [|exact Hall]. intros id (k & -> & Hk). exists k. auto.
Qed.

Lemma ids_below_snoc prefix b b' ids :
  key_lt b b' -> (forall k, key_lt k b -> key_lt k b') ->
  ids_below prefix b ids ->
  ids_below prefix b' (ids ++ [indexed_id prefix b]).
Proof.
  intros Hb Hlt [Hnd Hall]. split.
  - apply NoDup_app; [exact Hnd|repeat constructor; intros []|].
    intros id Hin [Heq|[]]. rewrite Forall_forall in Hall.
    destruct (Hall id Hin) as (k & -> & Hk).
    apply indexed_id_inj in Heq. subst k. now apply key_lt_irrefl in Hk.
  - apply Forall_app. split.
    + eapply Forall_impl; [|exact Hall]. intros id (k & -> & Hk). exists k. auto.
    + repeat constructor. exists b. auto.
Qed.

Lemma len_cons {A} (x : A) l : len (x :: l) = 1 + len l.
Proof. unfold len. simpl List.length. lia. Qed.

Lemma image_loop_ids n image_list :
  forall idx imgs els imgs' els',
    ids_below "img_" (n, idx) (map image_id imgs) ->
    image_loop n idx image_list imgs els = Ok (imgs', els') ->
    ids_below "img_" (n, idx + len image_list) (map image_id imgs').
Proof.
  induction image_list as [|px image_list IH]; intros idx imgs els imgs' els' Hinv H.
  - simpl in H. injection H as <- <-. unfold len; simpl. now rewrite Z.add_0_r.
  - rewrite len_cons, Z.add_assoc. simpl in H. unfold bind in H.
    destruct px as [pix|]; [|discriminate].
    destruct (pix_n pix - pix_alpha pix <? 4).
    + destruct (pix_tobytes pix) as [img_data|]; [|discriminate].
      apply IH in H; [exact H|]. rewrite map_app. simpl map.
      apply (ids_below_snoc "img_" (n, idx) (n, idx + 1)); auto;
        unfold key_lt; simpl; lia.
    + apply IH in H; [exact H|].
      apply (ids_below_weaken "img_" (n, idx)); auto.
      unfold key_lt; simpl; lia.
Qed.

Lemma table_loop_ids n tbls :
  forall idx tabs els tabs' els' l,
    ids_below "table_" (n, idx) (map table_id tabs) ->
    table_loop n idx tbls tabs els = (Ok (tabs', els'), l) ->
    ids_below "table_" (n, idx + len tbls) (map table_id tabs').
Proof.
  induction tbls as [|tb tbls IH]; intros idx tabs els tabs' els' l Hinv H.
  - simpl in H. injection H as <- <- <-. unfold len; simpl. now rewrite Z.add_0_r.
  - rewrite len_cons, Z.add_assoc. simpl in H.
    apply LocalFacts.lbind_ok in H.
    destruct H as ([tabs1 els1] & l1 & l2 & Hstep & H & ->).
    apply IH in H; [exact H|].
    destruct (table_entry n idx tb) as [[t el]|e] eqn:Hentry.
    + injection Hstep as <- <- <-.
      apply LocalFacts.table_entry_indexed in Hentry. destruct Hentry as (Hid & _).
      rewrite map_app. simpl map. rewrite Hid.
      apply (ids_below_snoc "table_" (n, idx) (n, idx + 1)); auto;
        unfold key_lt; simpl; lia.
    + unfold lbind, say, lret in Hstep. injection Hstep as <- <- <-.
      apply (ids_below_weaken "table_" (n, idx)); auto.
      unfold key_lt; simpl; lia.
Qed.

(** ** The image loop *)

Lemma image_loop_ok n image_list :
  forall idx imgs els,
    is_ok (image_loop n idx image_list imgs els) = forallb pixmap_ready image_list.
Proof.
  induction image_list as [|px image_list IH]; intros idx imgs els; simpl.
  - reflexivity.
  - unfold bind. destruct px as [pix|]; [|reflexivity]. simpl.
    destruct (pix_n pix - pix_alpha pix <? 4).
    + destruct (pix_tobytes pix) as [img_data|]; [|reflexivity]. simpl. apply IH.
    + simpl. apply IH.
Qed.

Lemma image_loop_links n image_list :
  forall idx imgs els imgs' els',
    image_loop n idx image_list imgs els = Ok (imgs', els') ->
    exists new rest,
      imgs' = imgs ++ new /\ els' = els ++ rest /\
      Forall2 image_linked (map (pair (n + 1)) rest) new /\
      Forall (fun e => elem_type e = "image") rest /\
      Forall image_shape new /\
      len new = len (filter kept image_list).
Proof.
  induction image_list as [|px image_list IH]; simpl; intros idx imgs els imgs' els' H.
  - injection H as <- <-. exists [], []. rewrite !app_nil_r.
    repeat split; constructor.
  - unfold bind in H. destruct px as [pix|]; [|discriminate]. simpl kept.
    destruct (pix_n pix - pix_alpha pix <? 4).
    + destruct (pix_tobytes pix) as [img_data|]; [|discriminate].
      apply IH in H. destruct H as (new & rest & -> & -> & Hl & Hty & Hsh & Hn).
      eexists (_ :: new), (_ :: rest). rewrite <- !app_assoc.
      split; [reflexivity|]. split; [reflexivity|].
      split; [constructor; [repeat split|exact Hl]|].
      split; [constructor; [reflexivity|exact Hty]|].
      split; [constructor; [split; reflexivity|exact Hsh]|].
      rewrite !len_cons. now rewrite Hn.
    + apply IH in H. exact H.
Qed.

(** ** The table loop *)

Lemma table_entry_fields n idx tb t el :
  table_entry n idx tb = Ok (t, el) ->
  exists rows,
    ft_extract tb = Ok rows /\
    table_headers t = match rows with [] => [] | h :: _ => h end /\
    table_data t = tl rows /\
    table_pageNumber t = n + 1 /\
    table_bbox t = map Float (ft_bbox tb) /\
    table_html t = match ft_to_pandas tb with
                   | Some (Ok html) => html
                   | _ => EmptyString
                   end /\
    table_shape t /\
    el = mk_element "table" (table_bbox t)
                    ("Table with " ++ str_int (len (table_data t)) ++ " rows")
                    0.8%float.
Proof.
  unfold table_entry, bind. intros H.
  destruct (ft_extract tb) as [rows|]; [|discriminate].
  exists rows. split; [reflexivity|].
  assert (Hdata : (if len rows >? 1 then tl rows else []) = tl rows).
  { destruct rows as [|h [|x rest]]; try reflexivity.
    destruct (Z.gtb_spec (len (h :: x :: rest)) 1) as [_|Hle]; [reflexivity|].
    rewrite !len_cons in Hle. pose proof (len_nonneg rest). lia. }
  rewrite Hdata in H.
  destruct (ft_to_pandas tb) as [[html|]|]; try discriminate;
    injection H as <- <-; simpl; repeat split; reflexivity.
Qed.

Lemma table_loop_links n tbls :
  forall idx tabs els,
    exists new rest l,
      table_loop n idx tbls tabs els = (Ok (tabs ++ new, els ++ rest), l) /\
      Forall2 table_linked (map (pair (n + 1)) rest) new /\
      Forall (fun e => elem_type e = "table") rest /\
      Forall table_shape new /\
      len new = len (filter table_ready tbls) /\
      len new + len l = len tbls /\
      Forall (fun m => fst m = WARNING) l.
Proof.
  induction tbls as [|tb tbls IH]; simpl; intros idx tabs els.
  - exists [], [], []. rewrite !app_nil_r.
    repeat split; constructor.
  - rewrite <- (LocalFacts.table_entry_ok n idx tb).
    destruct (table_entry n idx tb) as [[t el]|e] eqn:Hentry; simpl is_ok; cbv iota.
    + destruct (IH (idx + 1) (tabs ++ [t]) (els ++ [el]))
        as (new & rest & l & Heq & Hl & Hty & Hsh & Hn & Hlen & Hw).
      apply table_entry_fields in Hentry.
      destruct Hentry as (rows & _ & _ & _ & Hpn & Hbb & _ & Hshape & ->).
      eexists (t :: new), (_ :: rest), l.
      unfold lbind, lret. rewrite Heq, <- !app_assoc. simpl app.
      split; [reflexivity|].
      split; [constructor; [repeat split; auto|exact Hl]|].
      split; [constructor; [reflexivity|exact Hty]|].
      split; [constructor; [exact Hshape|exact Hsh]|].
      rewrite !len_cons. repeat split; [lia|lia|exact Hw].
    + destruct (IH (idx + 1) tabs els)
        as (new & rest & l & Heq & Hl & Hty & Hsh & Hn & Hlen & Hw).
      exists new, rest, ((WARNING, ("Failed to extract table: " ++ str_exn e)%string) :: l).
      unfold lbind, say, lret. simpl. rewrite Heq. simpl app.
      split; [reflexivity|].
      split; [exact Hl|]. split; [exact Hty|]. split; [exact Hsh|].
      split; [exact Hn|]. split; [rewrite !len_cons; lia|].
      constructor; [reflexivity|exact Hw].
Qed.

(** ** Elements by type *)

Lemma typed_elements_app ty l l' :
  typed_elements ty (l ++ l') = typed_elements ty l ++ typed_elements ty l'.
Proof. apply filter_app. Qed.

Lemma typed_elements_all ty n els :
  Forall (fun e => elem_type e = ty) els ->
  typed_elements ty (map (pair n) els) = map (pair n) els.
Proof.
  induction 1 as [|e els He _ IH]; simpl; [reflexivity|].
  rewrite He, String.eqb_refl. f_equal. exact IH.
Qed.

Lemma typed_elements_none ty n els :
  Forall (fun e => elem_type e <> ty) els ->
  typed_elements ty (map (pair n) els) = [].
Proof.
  induction 1 as [|e els He _ IH]; simpl; [reflexivity|].
  apply String.eqb_neq in He. rewrite He. exact IH.
Qed.

Lemma text_elements_typed blocks :
  Forall (fun e => elem_type e = "text") (text_elements blocks).
Proof.
  eapply Forall_impl; [|apply LocalFacts.text_elements_lines].
  intros e (block & lines & line & _ & _ & _ & -> & _). reflexivity.
Qed.

(** ** Text elements are trimmed *)

Lemma rstrip_idem s : rstrip (rstrip s) = rstrip s.
Proof.
  induction s as [|c s IH]; simpl; [reflexivity|].
  destruct (rstrip s) as [|d t] eqn:Hr.
  - destruct (is_space c) eqn:Hc; simpl; [reflexivity|]. now rewrite Hc.
  - simpl in *. now rewrite IH.
Qed.

Lemma lstrip_head s :
  match lstrip s with
  | EmptyString => True
  | String c _ => is_space c = false
  end.
Proof.
  induction s as [|c s IH]; simpl; [exact I|].
  destruct (is_space c) eqn:Hc; [exact IH|exact Hc].
Qed.

Lemma rstrip_head c s :
  is_space c = false -> exists t, rstrip (String c s) = String c t.
Proof.
  intros Hc. simpl. destruct (rstrip s) as [|d t]; rewrite ?Hc; eauto.
Qed.

Lemma strip_idem s : strip (strip s) = strip s.
Proof.
  unfold strip. pose proof (lstrip_head s) as Hh.
  destruct (lstrip s) as [|c s'] eqn:Hl; [reflexivity|].
  destruct (rstrip_head c s' Hh) as (t & Ht). rewrite Ht.
  simpl lstrip. rewrite Hh, <- Ht. apply rstrip_idem.
Qed.

Lemma line_elements_trimmed blocks :
  Forall (fun e => strip (elem_content e) = elem_content e /\
                   elem_content e <> EmptyString /\
                   exists block, In block blocks /\
                                 elem_bbox e = map Float (block_bbox block))
         (text_elements blocks).
Proof.
  eapply Forall_impl; [|apply LocalFacts.text_elements_lines].
  intros e (block & lines & line & Hb & _ & _ & -> & Htruthy). simpl.
  split; [apply strip_idem|]. split.
  - intros Heq. now rewrite Heq in Htruthy.
  - exists block. auto.
Qed.

(** ** A page *)

Lemma local_links_refl r : links_added r r.
Proof.
  exists [], [], []. rewrite !app_nil_r. repeat split; constructor.
Qed.

Lemma page_elements_app pds pds' :
  page_elements (pds ++ pds') = page_elements pds ++ page_elements pds'.
Proof. apply flat_map_app. Qed.

Lemma local_links_trans r r1 r2 :
  links_added r r1 -> links_added r1 r2 -> links_added r r2.
Proof.
  intros (pds & ims & ts & Hp & Hi & Ht & Hli & Hlt)
         (pds' & ims' & ts' & Hp' & Hi' & Ht' & Hli' & Hlt').
  exists (pds ++ pds'), (ims ++ ims'), (ts ++ ts').
  rewrite Hp', Hp, Hi', Hi, Ht', Ht, !app_assoc.
  repeat split; rewrite page_elements_app, typed_elements_app;
    now apply Forall2_app.
Qed.

(** What a page the loop gets through leaves in the result. *)
Lemma page_step_adds n load r r' l :
  page_step n load r = (Ok r', l) ->
  exists page blocks image_list tbls ims rest1 ts rest2,
    load = Ok page /\ get_text_dict page = Ok blocks /\
    get_images page = Ok image_list /\ find_tables page = Ok tbls /\
    pages r' = pages r ++ [mk_page_data (n + 1) (rect_width page) (rect_height page)
                                        (text_elements blocks ++ rest1 ++ rest2)] /\
    images r' = images r ++ ims /\ tables r' = tables r ++ ts /\
    Forall2 image_linked (map (pair (n + 1)) rest1) ims /\
    Forall (fun e => elem_type e = "image") rest1 /\
    Forall image_shape ims /\
    len ims = len (filter kept image_list) /\
    Forall2 table_linked (map (pair (n + 1)) rest2) ts /\
    Forall (fun e => elem_type e = "table") rest2 /\
    Forall table_shape ts /\
    len ts = len (filter table_ready tbls) /\
    len ts + len l = len tbls /\
    Forall (fun m => fst m = WARNING) l.
Proof.
  unfold page_step. intros H.
  apply LocalFacts.lbind_lift_ok in H. destruct H as (page & -> & H).
  apply LocalFacts.lbind_lift_ok in H. destruct H as (txt & Htxt & H).
  apply LocalFacts.lbind_lift_ok in H. destruct H as (blocks & Hblocks & H).
  apply LocalFacts.lbind_lift_ok in H. destruct H as (image_list & Himgs & H).
  apply LocalFacts.lbind_lift_ok in H. destruct H as ([imgs els1] & Hloop & H).
  apply LocalFacts.lbind_lift_ok in H. destruct H as (tbls & Htbls & H).
  apply LocalFacts.lbind_ok in H. destruct H as ([tabs els2] & l1 & l2 & Htl & H & ->).
  unfold lret in H. injection H as <- <-. rewrite app_nil_r.
  apply image_loop_links in Hloop.
  destruct Hloop as (ims & rest1 & -> & -> & Hli & Hty1 & Hsh1 & Hn1).
  simpl in Htl.
  destruct (table_loop_links n tbls 0 (tables r) (text_elements blocks ++ rest1))
    as (ts & rest2 & l & Heq & Hlt & Hty2 & Hsh2 & Hn2 & Hlen & Hw).
  rewrite Heq in Htl. injection Htl as <- <- <-.
  exists page, blocks, image_list, tbls, ims, rest1, ts, rest2. simpl.
  rewrite <- app_assoc. repeat split; auto.
Qed.

Lemma page_step_links n load r r' l :
  page_step n load r = (Ok r', l) -> links_added r r'.
Proof.
  intros H. apply page_step_adds in H.
  destruct H as (page & blocks & image_list & tbls & ims & rest1 & ts & rest2 &
                 _ & _ & _ & _ & Hp & Hi & Ht & Hli & Hty1 & _ & _ & Hlt & Hty2 & _).
  exists [mk_page_data (n + 1) (rect_width page) (rect_height page)
                       (text_elements blocks ++ rest1 ++ rest2)], ims, ts.
  split; [exact Hp|]. split; [exact Hi|]. split; [exact Ht|].
  unfold page_elements. simpl. rewrite app_nil_r, !map_app, !typed_elements_app.
  split.
  - rewrite (typed_elements_none "image" _ (text_elements blocks)),
            (typed_elements_all "image" _ rest1 Hty1),
            (typed_elements_none "image" _ rest2).
    + simpl. now rewrite app_nil_r.
    + eapply Forall_impl; [|exact Hty2]. intros e ->. discriminate.
    + eapply Forall_impl; [|apply text_elements_typed]. intros e ->. discriminate.
  - rewrite (typed_elements_none "table" _ (text_elements blocks)),
            (typed_elements_none "table" _ rest1),
            (typed_elements_all "table" _ rest2 Hty2).
    + exact Hlt.
    + eapply Forall_impl; [|exact Hty1]. intros e ->. discriminate.
    + eapply Forall_impl; [|apply text_elements_typed]. intros e ->. discriminate.
Qed.

Lemma page_step_ids n load r r' l :
  page_step n load r = (Ok r', l) ->
  ids_below "img_" (n, 0) (map image_id (images r)) ->
  ids_below "table_" (n, 0) (map table_id (tables r)) ->
  ids_below "img_" (n + 1, 0) (map image_id (images r')) /\
  ids_below "table_" (n + 1, 0) (map table_id (tables r')).
Proof.
  unfold page_step. intros H Hi Ht.
  apply LocalFacts.lbind_lift_ok in H. destruct H as (page & -> & H).
  apply LocalFacts.lbind_lift_ok in H. destruct H as (txt & Htxt & H).
  apply LocalFacts.lbind_lift_ok in H. destruct H as (blocks & Hblocks & H).
  apply LocalFacts.lbind_lift_ok in H. destruct H as (image_list & Himgs & H).
  apply LocalFacts.lbind_lift_ok in H. destruct H as ([imgs els1] & Hloop & H).
  apply LocalFacts.lbind_lift_ok in H. destruct H as (tbls & Htbls & H).
  apply LocalFacts.lbind_ok in H. destruct H as ([tabs els2] & l1 & l2 & Htl & H & ->).
  unfold lret in H. injection H as <- <-. simpl in *.
  apply image_loop_ids in Hloop; [|exact Hi].
  apply table_loop_ids in Htl; [|exact Ht].
  split.
  - eapply ids_below_weaken; [|exact Hloop].
    unfold key_lt; simpl; intros; lia.
  - eapply ids_below_weaken; [|exact Htl].
    unfold key_lt; simpl; intros; lia.
Qed.

Lemma page_step_shapes n load r r' l :
  page_step n load r = (Ok r', l) ->
  Forall image_shape (images r) -> Forall table_shape (tables r) ->
  Forall image_shape (images r') /\ Forall table_shape (tables r').
Proof.
  intros H Hi Ht. apply page_step_adds in H.
  destruct H as (page & blocks & image_list & tbls & ims & rest1 & ts & rest2 &
                 _ & _ & _ & _ & _ & -> & -> & _ & _ & Hsh1 & _ & _ & _ & Hsh2 & _).
  split; apply Forall_app; auto.
Qed.

Lemma page_step_ok n load r :
  is_ok (fst (page_step n load r)) = page_ready load.
Proof.
  unfold page_step, page_ready, lbind, lift, lret.
  destruct load as [page|]; [|reflexivity].
  destruct (get_text page) as [txt|]; [|reflexivity].
  destruct (get_text_dict page) as [blocks|]; [|reflexivity].
  destruct (get_images page) as [image_list|]; [|reflexivity].
  simpl. rewrite <- (image_loop_ok n image_list 0 (images r) (text_elements blocks)).
  destruct (image_loop n 0 image_list (images r) (text_elements blocks))
    as [[imgs els1]|]; [|reflexivity].
  destruct (find_tables page) as [tbls|]; [|reflexivity].
  destruct (table_loop_links n tbls 0 (tables r) els1) as (ts & rest & l & -> & _).
  reflexivity.
Qed.

(** ** The loop over the pages *)

Lemma page_loop_ok doc :
  forall k r, is_ok (fst (page_loop k doc r)) = forallb page_ready doc.
Proof.
  induction doc as [|load doc IH]; intros k r; simpl; [reflexivity|].
  rewrite <- (page_step_ok k load r). unfold lbind.
  destruct (page_step k load r) as [[r1|e] l1]; [|reflexivity].
  specialize (IH (k + 1) r1).
  destruct (page_loop (k + 1) doc r1) as [out l2]. exact IH.
Qed.

Lemma page_loop_links doc :
  forall k r r' l, page_loop k doc r = (Ok r', l) -> links_added r r'.
Proof.
  induction doc as [|load doc IH]; simpl; intros k r r' l H.
  - injection H as <- <-. apply local_links_refl.
  - apply LocalFacts.lbind_ok in H. destruct H as (r1 & l1 & l2 & Hstep & H & ->).
    eapply local_links_trans; [eapply page_step_links|eapply IH]; eassumption.
Qed.

Lemma page_loop_ids doc :
  forall k r r' l,
    page_loop k doc r = (Ok r', l) ->
    ids_below "img_" (k, 0) (map image_id (images r)) ->
    ids_below "table_" (k, 0) (map table_id (tables r)) ->
    NoDup (map image_id (images r')) /\ NoDup (map table_id (tables r')).
Proof.
  induction doc as [|load doc IH]; simpl; intros k r r' l H Hi Ht.
  - injection H as <- <-. split; [apply Hi|apply Ht].
  - apply LocalFacts.lbind_ok in H. destruct H as (r1 & l1 & l2 & Hstep & H & ->).
    destruct (page_step_ids k load r r1 l1 Hstep Hi Ht) as [Hi1 Ht1].
    exact (IH (k + 1) r1 r' l2 H Hi1 Ht1).
Qed.

Lemma page_loop_shapes doc :
  forall k r r' l,
    page_loop k doc r = (Ok r', l) ->
    Forall image_shape (images r) -> Forall table_shape (tables r) ->
    Forall image_shape (images r') /\ Forall table_shape (tables r').
Proof.
  induction doc as [|load doc IH]; simpl; intros k r r' l H Hi Ht.
  - injection H as <- <-. auto.
  - apply LocalFacts.lbind_ok in H. destruct H as (r1 & l1 & l2 & Hstep & H & ->).
    destruct (page_step_shapes k load r r1 l1 Hstep Hi Ht) as [Hi1 Ht1].
    exact (IH (k + 1) r1 r' l2 H Hi1 Ht1).
Qed.

(** The lines logged while the pages are read are warnings, one for each
    table that was not extracted. *)
Lemma page_loop_counts doc :
  forall k r r' l,
    page_loop k doc r = (Ok r', l) ->
    Forall (fun m => fst m = WARNING) l /\
    len (tables r') = len (tables r) + len (filter table_ready (found_tables doc)) /\
    len (tables r') + len l = len (tables r) + len (found_tables doc) /\
    len (images r') = len (images r) + len (filter kept (found_pixmaps doc)).
Proof.
  induction doc as [|load doc IH]; intros k r r' l H.
  - simpl in H. injection H as <- <-. split; [constructor|].
    unfold len; simpl; lia.
  - simpl in H.
    apply LocalFacts.lbind_ok in H. destruct H as (r1 & l1 & l2 & Hstep & H & ->).
    apply IH in H. destruct H as (Hw2 & Hn2 & Hl2 & Hi2).
    apply page_step_adds in Hstep.
    destruct Hstep as (page & blocks & image_list & tbls & ims & rest1 & ts & rest2 &
                       -> & _ & Himgs & Htbls & _ & Hi & Ht & _ & _ & _ & Hni & _ & _ &
                       _ & Hnt & Hlen & Hw1).
    unfold found_tables, found_pixmaps in *. simpl flat_map.
    rewrite Himgs, Htbls, !filter_app.
    split; [apply Forall_app; auto|].
    rewrite Ht in Hn2, Hl2. rewrite Hi in Hi2. rewrite !len_app in *. lia.
Qed.

Section Outcomes.

Variable fitz_open : string -> outcome fitz_document.

(** The three ways [extract_with_basic_tools] ends. *)
Lemma basic_tools_cases pdf_path :
  (exists doc r0 l,
      fitz_open pdf_path = Ok doc /\ page_loop 0 doc empty_result = (Ok r0, l) /\
      extract_with_basic_tools fitz_open pdf_path = (with_counts r0, l)) \/
  (exists e l,
      fst (extract_with_basic_tools fitz_open pdf_path) = failed_result e /\
      snd (extract_with_basic_tools fitz_open pdf_path) =
      l ++ [(ERROR, ("Basic extraction failed: " ++ str_exn e)%string)] /\
      (fitz_open pdf_path = Raise e /\ l = [] \/
       exists doc, fitz_open pdf_path = Ok doc /\
                   page_loop 0 doc empty_result = (Raise e, l))).
Proof.
  destruct (fitz_open pdf_path) as [doc|e] eqn:Ho.
  - destruct (page_loop 0 doc empty_result) as [[r0|e] l] eqn:Hl.
    + left. exists doc, r0, l. repeat split; auto.
      now apply (LocalFacts.basic_tools_completes fitz_open pdf_path doc).
    + right. exists e, l.
      rewrite (LocalFacts.basic_tools_page_fails fitz_open pdf_path doc e l Ho Hl).
      repeat split. right. exists doc. auto.
  - right. exists e, [].
    rewrite (LocalFacts.basic_tools_cannot_open fitz_open pdf_path e Ho).
    repeat split. left. auto.
Qed.

Lemma basic_tools_ok_iff pdf_path :
  error (meta (fst (extract_with_basic_tools fitz_open pdf_path))) = None <->
  exists doc, fitz_open pdf_path = Ok doc /\ forallb page_ready doc = true.
Proof.
  split.
  - intros H. apply LocalFacts.basic_tools_completed in H.
    destruct H as (doc & r0 & l & Ho & Hl & _). exists doc. split; [exact Ho|].
    rewrite <- (page_loop_ok doc 0 empty_result), Hl. reflexivity.
  - intros (doc & Ho & Hready).
    rewrite <- (page_loop_ok doc 0 empty_result) in Hready.
    destruct (page_loop 0 doc empty_result) as [[r0|e] l] eqn:Hl; [|discriminate].
    rewrite (LocalFacts.basic_tools_completes fitz_open pdf_path doc r0 l Ho Hl).
    reflexivity.
Qed.

End Outcomes.

(** ** Loading the models *)

Section Loading.

Variables detector extractor engine : Type.
Variable new_layout_detector : outcome detector.
Variable new_ocr_engine : outcome engine.

Lemma load_models_flag (st : globals detector extractor engine) :
  fst (load_models new_layout_detector new_ocr_engine st) =
  models_loaded (snd (load_models new_layout_detector new_ocr_engine st)) /\
  fst (load_models new_layout_detector new_ocr_engine st) =
  models_loaded st || negb (breaks new_layout_detector || breaks new_ocr_engine).
Proof.
  unfold load_models, breaks.
  destruct (models_loaded st) eqn:Hm; [simpl; auto|].
  destruct new_layout_detector as [d|e1]; [|destruct (is_import_error e1)];
    destruct new_ocr_engine as [o|e2]; try destruct (is_import_error e2);
    simpl; auto.
Qed.

Lemma load_models_table_extractor (st : globals detector extractor engine) :
  table_extractor (snd (load_models new_layout_detector new_ocr_engine st)) =
  table_extractor st.
Proof.
  unfold load_models.
  destruct (models_loaded st) eqn:Hm; [reflexivity|].
  destruct new_layout_detector as [d|e1]; [|destruct (is_import_error e1)];
    destruct new_ocr_engine as [o|e2]; try destruct (is_import_error e2);
    reflexivity.
Qed.

Lemma load_models_again (st : globals detector extractor engine) :
  models_loaded st = true ->
  load_models new_layout_detector new_ocr_engine st = (true, st).
Proof. unfold load_models. now intros ->. Qed.

End Loading.

End LocalMore.

(* ------------------------------------------------------------------ *)
(** * The properties of the extraction pipeline *)

Import Samples.

(** C1.  For every document processed to completion the metadata equal
    the sizes of the collections: [totalPages], [totalTables],
    [totalImages], [totalFormulas] and [textLength] are the lengths of
    [pages], [tables], [images], [formulas] and [text].  This holds for what
    [process_pdf] returns and for what [extract_with_basic_tools] returns
    when it did not end in its failure branch.  The counts are written once,
    after the loops: the loops leave the metadata as they found them. *)
Theorem metadata_counts_collections :
  (forall g render_region fl pdf_path r,
      ApiServer.process_pdf g render_region fl pdf_path = Ok r ->
      Spec.metadata_counts r) /\
  (forall fitz_open pdf_path,
      PdfExtractServer.error
        (PdfExtractServer.meta
           (fst (PdfExtractServer.extract_with_basic_tools fitz_open pdf_path))) = None ->
      LocalSpec.metadata_counts
        (fst (PdfExtractServer.extract_with_basic_tools fitz_open pdf_path))) /\
  (forall g render_region fl pdf_path k pls r r',
      ApiServer.process_pages g render_region fl pdf_path k pls r = Ok r' ->
      ApiServer.meta r' = ApiServer.meta r) /\
  (forall k doc r r' l,
      PdfExtractServer.page_loop k doc r = (Ok r', l) ->
      PdfExtractServer.meta r' = PdfExtractServer.meta r).
Proof.
  split; [|split; [|split]].
  - exact ApiFacts.api_metadata_counts.
  - exact LocalFacts.local_metadata_counts.
  - exact ApiFacts.assembly_leaves_metadata.
  - exact LocalFacts.local_loop_leaves_metadata.
Qed.

Lemma metadata_counts_collections_witness :
  (exists r,
      ApiServer.process_pdf Api.hello_models Api.render_png Api.all_flags "case.pdf" = Ok r /\
      Spec.metadata_counts r /\
      ApiServer.meta r = Some (ApiServer.mk_metadata 2 1 0 0 6)) /\
  (PdfExtractServer.error
     (PdfExtractServer.meta
        (fst (PdfExtractServer.extract_with_basic_tools Local.photo_open "case.pdf"))) = None /\
   LocalSpec.metadata_counts
     (fst (PdfExtractServer.extract_with_basic_tools Local.photo_open "case.pdf"))) /\
  (exists r,
      ApiServer.process_pages Api.hello_models Api.render_png Api.all_flags "case.pdf" 1
        (ApiServer.lr_pages Api.hello_layout) ApiServer.empty_result = Ok r /\
      ApiServer.meta r = None) /\
  (exists r l,
      PdfExtractServer.page_loop 0 [Ok Local.photo_page] PdfExtractServer.empty_result =
      (Ok r, l) /\
      PdfExtractServer.meta r = PdfExtractServer.NoMetadata).
Proof.
  destruct metadata_counts_collections as (Hapi & Hlocal & Hloop & Hlloop).
  split; [|split; [|split]].
  - eexists. split; [vm_compute; reflexivity|]. split; [|reflexivity].
    apply (Hapi Api.hello_models Api.render_png Api.all_flags "case.pdf").
    vm_compute. reflexivity.
  - split; [reflexivity|].
    apply (Hlocal Local.photo_open "case.pdf"). reflexivity.
  - eexists. split; [vm_compute; reflexivity|].
    apply (Hloop Api.hello_models Api.render_png Api.all_flags "case.pdf" 1
                 (ApiServer.lr_pages Api.hello_layout) ApiServer.empty_result).
    vm_compute. reflexivity.
  - eexists. eexists. split; [vm_compute; reflexivity|].
    eapply (Hlloop 0 [Ok Local.photo_page] PdfExtractServer.empty_result).
    vm_compute. reflexivity.
Defined.

(** C10.  In the model-based assembler every region the layout detector
    returned is recorded in the elements of its page, in order, with its
    type, its bbox and its confidence (1.0 when the detector gave none),
    whatever the four flags are: the recorded regions of a returned document
    are the detected ones, so two runs that differ in the flags only record
    the same regions.  A flag decides only the ['content'] of an element
    ([Spec.content_of], part of [Spec.page_records]) and what is appended to
    the collections. *)
Theorem detected_elements_all_recorded :
  forall g render_region fl pdf_path detect layout r,
    ApiServer.layout_model g = Some detect ->
    detect pdf_path = Ok layout ->
    ApiServer.process_pdf g render_region fl pdf_path = Ok r ->
    Spec.recorded_pages r = Spec.detected_pages layout /\
    Forall2 (Spec.page_records g fl pdf_path)
            (enumerate 1 (ApiServer.lr_pages layout)) (ApiServer.pages r) /\
    (forall fl' r',
        ApiServer.process_pdf g render_region fl' pdf_path = Ok r' ->
        Spec.recorded_pages r' = Spec.recorded_pages r).
Proof.
  intros g render_region fl pdf_path detect layout r Hm Hd H.
  pose proof (ApiFacts.api_recorded_pages g render_region fl pdf_path
                detect layout r Hm Hd H) as Hrec.
  split; [exact Hrec|]. split.
  - apply (ApiFacts.process_pdf_layout g render_region fl pdf_path detect layout r Hm Hd H).
  - intros fl' r' H'. rewrite Hrec.
    exact (ApiFacts.api_recorded_pages g render_region fl' pdf_path
             detect layout r' Hm Hd H').
Qed.

Lemma detected_elements_all_recorded_witness :
  exists r r',
    ApiServer.process_pdf Api.formula_models Api.render_png Api.all_flags "case.pdf" = Ok r /\
    ApiServer.process_pdf Api.formula_models Api.render_png Api.no_image_flags "case.pdf" = Ok r' /\
    Spec.recorded_pages r = Spec.detected_pages Api.formula_layout /\
    Spec.recorded_pages r' = Spec.recorded_pages r /\
    List.length (ApiServer.images r) = 1%nat /\ ApiServer.images r' = [].
Proof.
  eexists. eexists.
  split; [vm_compute; reflexivity|]. split; [vm_compute; reflexivity|].
  assert (Hrun : ApiServer.process_pdf Api.formula_models Api.render_png
                   Api.all_flags "case.pdf" = Ok _) by (vm_compute; reflexivity).
  destruct (detected_elements_all_recorded
              Api.formula_models Api.render_png Api.all_flags "case.pdf"
              (fun _ => Ok Api.formula_layout) Api.formula_layout _
              eq_refl eq_refl Hrun) as (Hrec & _ & Hfl).
  split; [exact Hrec|]. split.
  - apply (Hfl Api.no_image_flags). vm_compute. reflexivity.
  - split; reflexivity.
Defined.

(** C9.  In the local server the model-based strategy returns exactly
    what the fallback strategy returns, for every path; it only logs one
    more line.  So the answer of the endpoint does not depend on
    [models_loaded]. *)
Theorem kit_strategy_returns_basic_result :
  forall fitz_open pdf_path,
    fst (PdfExtractServer.extract_with_pdf_extract_kit fitz_open pdf_path) =
    fst (PdfExtractServer.extract_with_basic_tools fitz_open pdf_path) /\
    (forall temp_path req,
        PdfExtractServer.extract_document fitz_open true temp_path req =
        PdfExtractServer.extract_document fitz_open false temp_path req).
Proof.
  intros fitz_open pdf_path. split.
  - unfold PdfExtractServer.extract_with_pdf_extract_kit.
    destruct (PdfExtractServer.extract_with_basic_tools fitz_open pdf_path) as [r l].
    reflexivity.
  - intros temp_path req. apply LocalFacts.models_loaded_irrelevant.
Qed.




(** C3.  The text extractor is not total.  On the two-page sample, whose
    first region is a text line, an OCR model that raises makes
    [process_pdf] raise: no document is assembled and the endpoint answers
    500.  (The table, formula and image extractors do return their
    placeholders: [ApiFacts.extract_table_placeholder] and its
    siblings.) *)
Theorem ocr_failure_aborts_document :
  ApiServer.ocr_model Api.ocr_failing_models = Some (fun _ _ _ => Raise Api.ocr_error) /\
  ApiServer.process_pdf Api.ocr_failing_models Api.render_png Api.all_flags
                        "/tmp/case.pdf" = Raise Api.ocr_error /\
  fst (ApiServer.extract_document Api.no_kit Api.render_png Api.save_ok Api.remove_ok
                                  Api.ocr_failing_models Api.upload) =
  ApiServer.mk_response 500 (ApiServer.JsonError "OCR failed").
Proof.
  split; [reflexivity|]. split.
  - unfold ApiServer.process_pdf, try_except, bind. simpl ApiServer.layout_model.
    cbv iota beta. simpl ApiServer.lr_pages.
    unfold ApiServer.process_pages, ApiServer.process_page, bind.
    simpl ApiServer.pl_elements. unfold ApiServer.process_elements, bind.
    rewrite (ApiFacts.api_text_region_raises Api.ocr_failing_models Api.render_png
               Api.all_flags "/tmp/case.pdf" (fun _ _ _ => Raise Api.ocr_error)
               1 Api.hello_element ApiServer.empty_result Api.ocr_error);
      reflexivity.
  - vm_compute. reflexivity.
Qed.

(** C4, as stated, fails in both servers: a page that fails is not emitted
    with an empty element list, the whole document is lost.  In the
    model-based assembler the OCR failure on page 2 leaves [process_pdf] as
    an exception; in the local server the page that cannot be loaded turns
    the result into the failure result, without pages and without
    [totalPages]. *)
Lemma failing_page_loses_document :
  ApiServer.process_pdf Api.page2_failing_models Api.render_png Api.all_flags
                        "/tmp/case.pdf" = Raise Api.ocr_error /\
  PdfExtractServer.pages
    (fst (PdfExtractServer.extract_with_basic_tools Local.page2_failing_open
                                                    "/tmp/tmpk3v9.pdf")) = [] /\
  PdfExtractServer.totalPages
    (PdfExtractServer.meta
       (fst (PdfExtractServer.extract_with_basic_tools Local.page2_failing_open
                                                       "/tmp/tmpk3v9.pdf"))) = None.
Proof. split; [vm_compute; reflexivity|]. split; reflexivity. Qed.

(** C4, amended.  A page that fails to process fails the document: in the
    model-based assembler the exception leaves [process_pdf], whatever the
    pages before it gave; in the local server the result becomes the
    failure result.  When [process_pdf] returns, and when the local
    extraction did not fail, one page is emitted per physical page,
    numbered from 1 in order, and [totalPages] is the physical page
    count. *)
Theorem page_failure_fails_document :
  (forall g render_region fl pdf_path detect layout pre pl post r1 e,
      ApiServer.layout_model g = Some detect -> detect pdf_path = Ok layout ->
      ApiServer.lr_pages layout = pre ++ pl :: post ->
      ApiServer.process_pages g render_region fl pdf_path 1 pre
                              ApiServer.empty_result = Ok r1 ->
      ApiServer.process_page g render_region fl pdf_path (1 + len pre) pl r1 = Raise e ->
      ApiServer.process_pdf g render_region fl pdf_path = Raise e) /\
  (forall g render_region fl pdf_path detect layout r,
      ApiServer.layout_model g = Some detect -> detect pdf_path = Ok layout ->
      ApiServer.process_pdf g render_region fl pdf_path = Ok r ->
      map ApiServer.pageNumber (ApiServer.pages r) =
      map fst (enumerate 1 (ApiServer.lr_pages layout)) /\
      (exists m, ApiServer.meta r = Some m /\
                 ApiServer.totalPages m = len (ApiServer.lr_pages layout))) /\
  (forall fitz_open pdf_path pre load post r1 l1 e l2,
      fitz_open pdf_path = Ok (pre ++ load :: post) ->
      PdfExtractServer.page_loop 0 pre PdfExtractServer.empty_result = (Ok r1, l1) ->
      PdfExtractServer.page_step (len pre) load r1 = (Raise e, l2) ->
      fst (PdfExtractServer.extract_with_basic_tools fitz_open pdf_path) =
      PdfExtractServer.failed_result e) /\
  (forall fitz_open pdf_path doc,
      fitz_open pdf_path = Ok doc ->
      PdfExtractServer.error
        (PdfExtractServer.meta
           (fst (PdfExtractServer.extract_with_basic_tools fitz_open pdf_path))) = None ->
      PdfExtractServer.totalPages
        (PdfExtractServer.meta
           (fst (PdfExtractServer.extract_with_basic_tools fitz_open pdf_path))) =
      Some (len doc) /\
      map PdfExtractServer.pageNumber
          (PdfExtractServer.pages
             (fst (PdfExtractServer.extract_with_basic_tools fitz_open pdf_path))) =
      map (fun np => fst np + 1) (enumerate 0 doc)).
Proof.
  split; [|split; [|split]].
  - exact ApiFacts.api_failing_page.
  - intros g render_region fl pdf_path detect layout r Hm Hd H.
    destruct (ApiFacts.api_page_numbers g render_region fl pdf_path detect layout r
                Hm Hd H) as (Hnum & Hlen).
    split; [exact Hnum|].
    destruct (ApiFacts.api_metadata_counts g render_region fl pdf_path r H)
      as (m & Hmeta & Hpages & _).
    exists m. split; [exact Hmeta|]. now rewrite Hpages.
  - exact LocalFacts.local_failing_page.
  - exact LocalFacts.local_page_numbers.
Qed.

Lemma page_failure_fails_document_witness :
  ApiServer.process_pdf Api.page2_failing_models Api.render_png Api.all_flags
                        "/tmp/case.pdf" = Raise Api.ocr_error /\
  (exists r,
      ApiServer.process_pdf Api.hello_models Api.render_png Api.all_flags
                            "/tmp/case.pdf" = Ok r /\
      map ApiServer.pageNumber (ApiServer.pages r) = [1; 2] /\
      exists m, ApiServer.meta r = Some m /\ ApiServer.totalPages m = 2) /\
  fst (PdfExtractServer.extract_with_basic_tools Local.page2_failing_open
                                                 "/tmp/tmpk3v9.pdf") =
  PdfExtractServer.failed_result Local.page_error /\
  PdfExtractServer.totalPages
    (PdfExtractServer.meta
       (fst (PdfExtractServer.extract_with_basic_tools Local.hello_open
                                                       "/tmp/tmpk3v9.pdf"))) = Some 2.
Proof.
  destruct page_failure_fails_document as (Hfail & Hok & Hlfail & Hlok).
  split; [|split; [|split]].
  - eapply (Hfail Api.page2_failing_models Api.render_png Api.all_flags "/tmp/case.pdf"
                  (fun _ => Ok Api.two_text_pages) Api.two_text_pages
                  [ApiServer.mk_page_layout 612 792 [Api.hello_element]]
                  (ApiServer.mk_page_layout 612 792 [Api.hello_element]) []);
      reflexivity.
  - eexists. split; [vm_compute; reflexivity|].
    eapply (Hok Api.hello_models Api.render_png Api.all_flags "/tmp/case.pdf"
                (fun _ => Ok Api.hello_layout) Api.hello_layout); reflexivity.
  - eapply (Hlfail Local.page2_failing_open "/tmp/tmpk3v9.pdf"
                   [Ok Local.hello_page] (Raise Local.page_error) []);
      reflexivity.
  - apply (Hlok Local.hello_open "/tmp/tmpk3v9.pdf"
                [Ok Local.hello_page; Ok Local.blank_page] eq_refl).
    reflexivity.
Defined.

(** C5.  The local server does not honour [extract_images]: the endpoint
    reads the option from the form and then calls the extraction without
    it.  For the one-page sample with an embedded RGB image and the form
    value [false], the answer still holds the image entity, and the image
    element still has its content.  (The model-based assembler does honour
    the flag: [ApiFacts.api_images_disabled].) *)
Theorem local_server_ignores_extract_images :
  PdfExtractServer.form_flag
    (PdfExtractServer.form_extract_images Local.upload_without_images) "true" = false /\
  exists r,
    PdfExtractServer.extract_document Local.photo_open false "/tmp/tmpk3v9.pdf"
                                      Local.upload_without_images =
    PdfExtractServer.mk_response 200 (PdfExtractServer.JsonResult r) /\
    map PdfExtractServer.image_id (PdfExtractServer.images r) = ["img_0_0"] /\
    map (fun pd => map (fun e => (PdfExtractServer.elem_type e,
                                  PdfExtractServer.elem_content e))
                       (PdfExtractServer.elements pd))
        (PdfExtractServer.pages r) =
    [[("image", "Image"); ("table", "Table with 1 rows")]].
Proof.
  split; [reflexivity|].
  eexists. split; [reflexivity|]. split; reflexivity.
Qed.

(** C6, as stated, fails for the fallback strategy, whose ids hold the
    page index counted from 0 and the position in the page's list of
    images or tables, not the bounding box: the image of page 1 at
    [(0, 0)] is [img_0_0], not [image_1_0_0], and the table of page 1 at
    [(10.5, 30.25)] is [table_0_0], not [table_1_10_30].  In the
    model-based assembler [int] truncates towards zero, which is not the
    floor on negative coordinates. *)
Lemma fallback_ids_are_index_based :
  map (fun i => (PdfExtractServer.image_id i, PdfExtractServer.image_pageNumber i,
                 PdfExtractServer.image_bbox i))
      (PdfExtractServer.images
         (fst (PdfExtractServer.extract_with_basic_tools Local.photo_open "case.pdf"))) =
  [("img_0_0", 1,
    [PdfExtractServer.Int 0; PdfExtractServer.Int 0;
     PdfExtractServer.Int 10; PdfExtractServer.Int 20])] /\
  map (fun t => (PdfExtractServer.table_id t, PdfExtractServer.table_pageNumber t,
                 PdfExtractServer.table_bbox t))
      (PdfExtractServer.tables
         (fst (PdfExtractServer.extract_with_basic_tools Local.photo_open "case.pdf"))) =
  [("table_0_0", 1,
    [PdfExtractServer.Float 10.5; PdfExtractServer.Float 30.25;
     PdfExtractServer.Float 200; PdfExtractServer.Float 120])] /\
  "img_0_0" <> "image_1_0_0" /\ "table_0_0" <> "table_1_10_30" /\
  ApiServer.entity_id "image" 1 [-0.5; -1.5; 300; 400]%float = Ok "image_1_0_-1" /\
  floor_of_float (-0.5)%float = Ok (-1) /\ floor_of_float (-1.5)%float = Ok (-2).
Proof.
  split; [reflexivity|]. split; [reflexivity|].
  split; [discriminate|]. split; [discriminate|].
  split; [vm_compute; reflexivity|]. split; vm_compute; reflexivity.
Qed.

(** C6, amended.  In the model-based assembler every table, formula and
    image entity of a returned document stems from a region of the
    layout, of type [table], [formula], and [image] or [figure]; it has
    the bbox of that region and the number, counted from 1, of its page,
    and its id is [kind_page_int(x0)_int(y0)], with [int] truncating
    towards zero.  In the fallback strategy the id of an image is
    [img_p_i] and the id of a table [table_p_i], where [p] is the page
    number minus 1 and [i] the position, counted from 0, in the list of
    images or of tables of that page: the images of the result are, in
    order, the pixmaps of the document that are not CMYK, the tables
    those whose extraction returned, and each holds the page index and
    the position of its pixmap in [page.get_images()], or of its table in
    [page.find_tables()], the skipped ones counted.  No formula entity is
    produced. *)
Theorem entity_ids_by_strategy :
  (forall g render_region fl pdf_path detect layout r,
      ApiServer.layout_model g = Some detect -> detect pdf_path = Ok layout ->
      ApiServer.process_pdf g render_region fl pdf_path = Ok r ->
      Forall (fun t => Spec.identified "table" (fun ty => String.eqb ty "table") layout
                         (ApiServer.table_id t) (ApiServer.table_bbox t)
                         (ApiServer.table_pageNumber t))
             (ApiServer.tables r) /\
      Forall (fun f => Spec.identified "formula" (fun ty => String.eqb ty "formula") layout
                         (ApiServer.formula_id f) (ApiServer.formula_bbox f)
                         (ApiServer.formula_pageNumber f))
             (ApiServer.formulas r) /\
      Forall (fun i => Spec.identified "image" Spec.image_typed layout
                         (ApiServer.image_id i) (ApiServer.image_bbox i)
                         (ApiServer.image_pageNumber i))
             (ApiServer.images r)) /\
  (forall fitz_open pdf_path doc,
      fitz_open pdf_path = Ok doc ->
      PdfExtractServer.error
        (PdfExtractServer.meta
           (fst (PdfExtractServer.extract_with_basic_tools fitz_open pdf_path))) = None ->
      Forall (fun i => LocalSpec.image_indexed (PdfExtractServer.image_pageNumber i - 1) i)
             (PdfExtractServer.images
                (fst (PdfExtractServer.extract_with_basic_tools fitz_open pdf_path))) /\
      Forall (fun t => LocalSpec.table_indexed (PdfExtractServer.table_pageNumber t - 1) t)
             (PdfExtractServer.tables
                (fst (PdfExtractServer.extract_with_basic_tools fitz_open pdf_path))) /\
      Forall2 LocalSpec.image_at
              (filter (fun k => LocalSpec.kept (snd k)) (LocalSpec.positioned_pixmaps doc))
              (PdfExtractServer.images
                 (fst (PdfExtractServer.extract_with_basic_tools fitz_open pdf_path))) /\
      Forall2 LocalSpec.table_at
              (filter (fun k => LocalSpec.table_ready (snd k))
                      (LocalSpec.positioned_tables doc))
              (PdfExtractServer.tables
                 (fst (PdfExtractServer.extract_with_basic_tools fitz_open pdf_path))) /\
      PdfExtractServer.formulas
        (fst (PdfExtractServer.extract_with_basic_tools fitz_open pdf_path)) = []).
Proof.
  split.
  - exact ApiFacts.api_entities_identified.
  - intros fitz_open pdf_path doc Ho Hdone.
    destruct (LocalFacts.local_completed_document fitz_open pdf_path doc Ho Hdone)
      as (_ & _ & Hi & Ht & Hf).
    destruct (LocalFacts.local_positions fitz_open pdf_path doc Ho Hdone)
      as (Hpi & Hpt).
    auto 6.
Qed.

Lemma entity_ids_by_strategy_witness :
  (exists r,
      ApiServer.process_pdf Api.formula_models Api.render_png Api.all_flags "case.pdf" = Ok r /\
      Forall (fun f => Spec.identified "formula" (fun ty => String.eqb ty "formula")
                         Api.formula_layout
                         (ApiServer.formula_id f) (ApiServer.formula_bbox f)
                         (ApiServer.formula_pageNumber f))
             (ApiServer.formulas r) /\
      map ApiServer.formula_id (ApiServer.formulas r) =
      ["formula_1_72_100"; "formula_1_72_200"] /\
      map ApiServer.image_id (ApiServer.images r) = ["image_1_0_-1"]) /\
  Forall (fun i => LocalSpec.image_indexed (PdfExtractServer.image_pageNumber i - 1) i)
         (PdfExtractServer.images
            (fst (PdfExtractServer.extract_with_basic_tools Local.photo_open "case.pdf"))) /\
  (Forall2 LocalSpec.image_at
           [(0, 1, Ok Local.rgb_pixmap); (1, 0, Ok Local.rgb_pixmap)]
           (PdfExtractServer.images
              (fst (PdfExtractServer.extract_with_basic_tools Local.mixed_open "case.pdf"))) /\
   Forall2 LocalSpec.table_at
           [(0, 1, Local.ab_fitz_table); (0, 2, Local.header_only_table);
            (1, 0, Local.ab_fitz_table)]
           (PdfExtractServer.tables
              (fst (PdfExtractServer.extract_with_basic_tools Local.mixed_open "case.pdf"))) /\
   map PdfExtractServer.image_id
       (PdfExtractServer.images
          (fst (PdfExtractServer.extract_with_basic_tools Local.mixed_open "case.pdf"))) =
   ["img_0_1"; "img_1_0"] /\
   map PdfExtractServer.table_id
       (PdfExtractServer.tables
          (fst (PdfExtractServer.extract_with_basic_tools Local.mixed_open "case.pdf"))) =
   ["table_0_1"; "table_0_2"; "table_1_0"]).
Proof.
  split; [|split].
  - eexists. split; [vm_compute; reflexivity|]. split; [|split; reflexivity].
    eapply (proj1 entity_ids_by_strategy Api.formula_models Api.render_png
                  Api.all_flags "case.pdf" (fun _ => Ok Api.formula_layout));
      reflexivity.
  - eapply (proj2 entity_ids_by_strategy Local.photo_open "case.pdf"); reflexivity.
  - destruct (proj2 entity_ids_by_strategy Local.mixed_open "case.pdf"
                    [Ok Local.mixed_page; Ok Local.photo_page] eq_refl eq_refl)
      as (_ & _ & Hi & Ht & _).
    split; [exact Hi|]. split; [exact Ht|]. split; reflexivity.
Defined.

(** C7, as stated, fails: when the formula model raises, the entity that
    [extract_formula] returns, and [process_pdf] appends, has the kind
    [unknown], which is neither [block] nor [inline]. *)
Lemma failed_formula_has_kind_unknown :
  exists r,
    ApiServer.process_pdf Api.formula_failing_models Api.render_png Api.all_flags
                          "case.pdf" = Ok r /\
    map (fun f => (ApiServer.formula_id f, ApiServer.formula_type f))
        (ApiServer.formulas r) =
    [("formula_1_72_100", "unknown"); ("formula_1_72_200", "unknown")] /\
    ~ In "unknown" ["block"; "inline"].
Proof.
  eexists. split; [vm_compute; reflexivity|]. split; [reflexivity|].
  simpl. intros [H|[H|[]]]; discriminate.
Qed.

(** C7, amended.  Every formula entity of a returned document is either
    the placeholder, of kind [unknown] with empty LaTeX and confidence 0,
    or has a kind in [block], [inline] that is [block] exactly when
    [y1 - y0 > 50] for the entries 3 and 1 of its bbox (in binary64
    arithmetic).  The extractor gives the placeholder exactly when the
    formula model raised (or is not loaded) or the bbox has no entry 3. *)
Theorem formula_kind_block_inline_unknown :
  (forall g render_region fl pdf_path r,
      ApiServer.process_pdf g render_region fl pdf_path = Ok r ->
      Forall Spec.formula_kind_ok (ApiServer.formulas r)) /\
  (forall g pdf_path n b f,
      ApiServer.extract_formula g pdf_path n b = Ok f ->
      (ApiServer.formula_type f = "unknown" <->
       (exists e, Spec.formula_answer g pdf_path n b = Raise e) \/
       nth_error b 3 = None)).
Proof.
  split.
  - exact ApiFacts.api_formula_kinds.
  - intros g pdf_path n b f H.
    apply ApiFacts.extract_formula_kind in H.
    destruct H as (_ & _ & _ & [(fr & y0 & y1 & Ha & _ & H3 & Hk & _)|(Hwhy & Hk & _)]).
    + split.
      * rewrite Hk. destruct (PrimFloat.ltb 50 (PrimFloat.sub y1 y0)); discriminate.
      * intros [(e & He)|Hn]; congruence.
    + split; auto.
Qed.

Lemma formula_kind_block_inline_unknown_witness :
  (exists r,
      ApiServer.process_pdf Api.formula_models Api.render_png Api.all_flags "case.pdf" = Ok r /\
      Forall Spec.formula_kind_ok (ApiServer.formulas r) /\
      map ApiServer.formula_type (ApiServer.formulas r) = ["inline"; "block"]) /\
  (exists f,
      ApiServer.extract_formula Api.formula_failing_models "case.pdf" 1
                                [72; 100; 300; 130]%float = Ok f /\
      (ApiServer.formula_type f = "unknown" <->
       (exists e, Spec.formula_answer Api.formula_failing_models "case.pdf" 1
                                      [72; 100; 300; 130]%float = Raise e) \/
       nth_error [72; 100; 300; 130]%float 3 = None)).
Proof.
  destruct formula_kind_block_inline_unknown as (Hkinds & Hunknown).
  split.
  - eexists. split; [vm_compute; reflexivity|]. split; [|reflexivity].
    apply (Hkinds Api.formula_models Api.render_png Api.all_flags "case.pdf").
    vm_compute. reflexivity.
  - eexists. split; [vm_compute; reflexivity|].
    apply (Hunknown Api.formula_failing_models "case.pdf" 1 [72; 100; 300; 130]%float).
    vm_compute. reflexivity.
Defined.

(** C8, as stated, fails for the fallback strategy: there the text of a
    page, as PyMuPDF gives it, is appended followed by a newline, once per
    page.  For two pages whose only text is [Hello] on page 1 the text of
    the document is [Hello], a newline for page 1 and a newline for page 2,
    not [Hello] and a space. *)
Lemma fallback_text_ends_with_newlines :
  PdfExtractServer.text
    (fst (PdfExtractServer.extract_with_basic_tools Local.hello_open "case.pdf")) =
  ("Hello" ++ PdfExtractServer.nl ++ PdfExtractServer.nl)%string /\
  PdfExtractServer.text
    (fst (PdfExtractServer.extract_with_basic_tools Local.hello_open "case.pdf")) <>
  "Hello " /\
  map (fun pd => map PdfExtractServer.elem_content (PdfExtractServer.elements pd))
      (PdfExtractServer.pages
         (fst (PdfExtractServer.extract_with_basic_tools Local.hello_open "case.pdf"))) =
  [["Hello"]; []].
Proof.
  split; [reflexivity|]. split; [|reflexivity].
  vm_compute. discriminate.
Qed.

(** C8, amended.  In the model-based assembler, with text extraction
    enabled and the OCR model loaded, processing a region of type [text],
    [title] or [header] sets its content to the text the OCR model
    returned and appends that text and one space to the text of the
    document; for two pages whose only such region is on page 1 and reads
    [s], the text of the returned document is [s] and one space ([Hello]
    and a space for [Hello]).  In the fallback strategy the text of the
    document is, page after page, the text of the page followed by a
    newline, and the text elements of a page are its non-blank lines, each
    with the stripped, space-joined texts of its spans as content. *)
Theorem text_elements_by_strategy :
  (forall g render_region fl pdf_path ocr n el r e r',
      ApiServer.extract_text fl = true ->
      Spec.text_typed (ApiServer.le_type el) = true ->
      ApiServer.ocr_model g = Some ocr ->
      ApiServer.process_element g render_region fl pdf_path n el r = Ok (e, r') ->
      exists s, ocr pdf_path n (ApiServer.le_bbox el) = Ok s /\
                ApiServer.elem_content e = Some s /\
                ApiServer.text r' = (ApiServer.text r ++ s ++ " ")%string) /\
  (forall g render_region fl pdf_path detect ocr p1 p2 el s r,
      ApiServer.extract_text fl = true ->
      ApiServer.layout_model g = Some detect ->
      ApiServer.ocr_model g = Some ocr ->
      detect pdf_path = Ok (ApiServer.mk_layout_results [p1; p2]) ->
      filter (fun el => Spec.text_typed (ApiServer.le_type el))
             (ApiServer.pl_elements p1) = [el] ->
      filter (fun el => Spec.text_typed (ApiServer.le_type el))
             (ApiServer.pl_elements p2) = [] ->
      ocr pdf_path 1 (ApiServer.le_bbox el) = Ok s ->
      ApiServer.process_pdf g render_region fl pdf_path = Ok r ->
      ApiServer.text r = (s ++ " ")%string) /\
  (forall fitz_open pdf_path doc,
      fitz_open pdf_path = Ok doc ->
      PdfExtractServer.error
        (PdfExtractServer.meta
           (fst (PdfExtractServer.extract_with_basic_tools fitz_open pdf_path))) = None ->
      PdfExtractServer.text
        (fst (PdfExtractServer.extract_with_basic_tools fitz_open pdf_path)) =
      Spec.concat_strings (map LocalSpec.page_text doc) /\
      Forall2 LocalSpec.page_loaded (enumerate 0 doc)
              (PdfExtractServer.pages
                 (fst (PdfExtractServer.extract_with_basic_tools fitz_open pdf_path)))) /\
  (forall blocks,
      Forall (LocalSpec.line_element blocks) (PdfExtractServer.text_elements blocks)).
Proof.
  split; [|split; [|split]].
  - exact ApiFacts.api_text_element.
  - exact ApiFacts.api_single_text_scenario.
  - intros fitz_open pdf_path doc Ho Hdone.
    destruct (LocalFacts.local_completed_document fitz_open pdf_path doc Ho Hdone)
      as (Hp & Ht & _).
    split; [exact Ht|exact Hp].
  - exact LocalFacts.text_elements_lines.
Qed.

Lemma text_elements_by_strategy_witness :
  (exists e r,
      ApiServer.process_element Api.hello_models Api.render_png Api.all_flags "case.pdf"
                                1 Api.hello_element ApiServer.empty_result = Ok (e, r) /\
      exists s, ApiServer.elem_content e = Some s /\
                ApiServer.text r = (ApiServer.text ApiServer.empty_result ++ s ++ " ")%string) /\
  (exists r,
      ApiServer.process_pdf Api.hello_models Api.render_png Api.all_flags "case.pdf" = Ok r /\
      ApiServer.text r = "Hello " /\
      map (fun pd => map ApiServer.elem_content (ApiServer.elements pd)) (ApiServer.pages r) =
      [[Some "Hello"]; [Some "Table with 1 rows"]] /\
      map ApiServer.table_data (ApiServer.tables r) = [[["1"; "2"]]]) /\
  PdfExtractServer.text
    (fst (PdfExtractServer.extract_with_basic_tools Local.hello_open "case.pdf")) =
  Spec.concat_strings
    (map LocalSpec.page_text [Ok Local.hello_page; Ok Local.blank_page]).
Proof.
  destruct text_elements_by_strategy as (Helement & Hscenario & Hlocal & _).
  split; [|split].
  - eexists. eexists. split; [vm_compute; reflexivity|].
    destruct (Helement Api.hello_models Api.render_png Api.all_flags "case.pdf"
                       (fun _ _ _ => Ok "Hello") 1 Api.hello_element
                       ApiServer.empty_result _ _ eq_refl eq_refl eq_refl eq_refl)
      as (s & _ & Hc & Ht).
    exists s. split; [exact Hc|exact Ht].
  - eexists. split; [vm_compute; reflexivity|]. split; [|split; reflexivity].
    eapply (Hscenario Api.hello_models Api.render_png Api.all_flags "case.pdf"
                      (fun _ => Ok Api.hello_layout) (fun _ _ _ => Ok "Hello")
                      (ApiServer.mk_page_layout 612 792 [Api.hello_element])
                      (ApiServer.mk_page_layout 612 792 [Api.table_element])
                      Api.hello_element "Hello");
      reflexivity.
  - eapply (Hlocal Local.hello_open "case.pdf"); reflexivity.
Defined.

(* ------------------------------------------------------------------ *)
(** * Further properties of the model-based server *)

(** X1.  In a document [process_pdf] returns, the entities follow the
    elements: with [extract_tables] on, the tables are, one for one and in
    page order and then detection order, the elements of type [table]; the
    [k]-th table has the page number and the bbox of the [k]-th such
    element, whose content is [Table with N rows] for the [N] data rows of
    that table.  Likewise the formulas and the elements of type [formula]
    (content: the LaTeX of the formula), and the images and the elements of
    type [image] or [figure] (content: [Image]).  With the flag off the
    collection is empty. *)
Theorem entities_follow_elements :
  forall g render_region fl pdf_path r,
    ApiServer.process_pdf g render_region fl pdf_path = Ok r ->
    Spec.linked_when (ApiServer.extract_tables fl) Spec.table_typed Spec.table_linked
                     (Spec.doc_elements r) (ApiServer.tables r) /\
    Spec.linked_when (ApiServer.extract_formulas fl) Spec.formula_typed Spec.formula_linked
                     (Spec.doc_elements r) (ApiServer.formulas r) /\
    Spec.linked_when (ApiServer.extract_images fl) Spec.image_typed Spec.image_linked
                     (Spec.doc_elements r) (ApiServer.images r).
Proof.
  intros g render_region fl pdf_path r H.
  destruct (ApiMore.process_pdf_links g render_region fl pdf_path r H) as (Ht & Hf & Hi).
  split; [exact Ht|]. split; [exact Hf|exact Hi].
Qed.

Lemma entities_follow_elements_witness :
  exists r,
    ApiServer.process_pdf Api.formula_models Api.render_png Api.all_flags "case.pdf" = Ok r /\
    Forall2 Spec.formula_linked
            (Spec.typed_elements Spec.formula_typed (Spec.doc_elements r))
            (ApiServer.formulas r) /\
    Forall2 Spec.image_linked
            (Spec.typed_elements Spec.image_typed (Spec.doc_elements r))
            (ApiServer.images r) /\
    ApiServer.tables r = [].
Proof.
  eexists. split; [vm_compute; reflexivity|].
  destruct (entities_follow_elements Api.formula_models Api.render_png Api.all_flags
              "case.pdf" _ eq_refl) as (Ht & Hf & Hi).
  split; [exact Hf|]. split; [exact Hi|reflexivity].
Defined.

(** X2.  A flag that is off leaves no trace in the document [process_pdf]
    returns.  With [extract_text] off the text is empty and no element of
    type [text], [title] or [header] has a content; with [extract_tables]
    off there is no table and no element of type [table] has a content;
    with [extract_formulas] off there is no formula and no element of type
    [formula] has a content. *)
Theorem disabled_flag_leaves_no_trace :
  forall g render_region fl pdf_path r,
    ApiServer.process_pdf g render_region fl pdf_path = Ok r ->
    (ApiServer.extract_text fl = false ->
     ApiServer.text r = EmptyString /\
     Forall (fun ne => Spec.text_typed (ApiServer.elem_type (snd ne)) = true ->
                       ApiServer.elem_content (snd ne) = None)
            (Spec.doc_elements r)) /\
    (ApiServer.extract_tables fl = false ->
     ApiServer.tables r = [] /\
     Forall (fun ne => Spec.table_typed (ApiServer.elem_type (snd ne)) = true ->
                       ApiServer.elem_content (snd ne) = None)
            (Spec.doc_elements r)) /\
    (ApiServer.extract_formulas fl = false ->
     ApiServer.formulas r = [] /\
     Forall (fun ne => Spec.formula_typed (ApiServer.elem_type (snd ne)) = true ->
                       ApiServer.elem_content (snd ne) = None)
            (Spec.doc_elements r)).
Proof.
  intros g render_region fl pdf_path r H.
  destruct (ApiMore.process_pdf_links g render_region fl pdf_path r H) as (Ht & Hf & _).
  split; [|split]; intros Hoff.
  - split.
    + now apply (ApiMore.text_empty_when_off g render_region fl pdf_path).
    + apply (ApiMore.contents_unset g render_region fl pdf_path _ r H).
      intros n el. now apply ApiMore.content_of_text_off.
  - split.
    + rewrite Hoff in Ht. exact Ht.
    + apply (ApiMore.contents_unset g render_region fl pdf_path _ r H).
      intros n el. now apply ApiMore.content_of_tables_off.
  - split.
    + rewrite Hoff in Hf. exact Hf.
    + apply (ApiMore.contents_unset g render_region fl pdf_path _ r H).
      intros n el. now apply ApiMore.content_of_formulas_off.
Qed.

Lemma disabled_flag_leaves_no_trace_witness :
  exists r,
    ApiServer.process_pdf Api.hello_models Api.render_png
      (ApiServer.mk_flags false false true false) "case.pdf" = Ok r /\
    ApiServer.text r = EmptyString /\ ApiServer.tables r = [] /\
    ApiServer.formulas r = [] /\
    map (fun ne => ApiServer.elem_content (snd ne)) (Spec.doc_elements r) = [None; None].
Proof.
  eexists. split; [vm_compute; reflexivity|].
  destruct (disabled_flag_leaves_no_trace Api.hello_models Api.render_png
              (ApiServer.mk_flags false false true false) "case.pdf" _ eq_refl)
    as (Htext & Htables & Hformulas).
  split; [exact (proj1 (Htext eq_refl))|].
  split; [exact (proj1 (Htables eq_refl))|].
  split; [exact (proj1 (Hformulas eq_refl))|reflexivity].
Defined.

(** X3.  Every entity of a document [process_pdf] returns is stamped with
    the number of a page of that document: the page number of each table,
    formula and image lies between 1 and [totalPages]. *)
Theorem entity_pages_in_range :
  forall g render_region fl pdf_path r,
    ApiServer.process_pdf g render_region fl pdf_path = Ok r ->
    exists m,
      ApiServer.meta r = Some m /\
      Forall (fun t => exists n, ApiServer.table_pageNumber t = Some n /\
                                 1 <= n <= ApiServer.totalPages m)
             (ApiServer.tables r) /\
      Forall (fun f => exists n, ApiServer.formula_pageNumber f = Some n /\
                                 1 <= n <= ApiServer.totalPages m)
             (ApiServer.formulas r) /\
      Forall (fun i => exists n, ApiServer.image_pageNumber i = Some n /\
                                 1 <= n <= ApiServer.totalPages m)
             (ApiServer.images r).
Proof.
  intros g render_region fl pdf_path r H.
  destruct (ApiFacts.api_metadata_counts g render_region fl pdf_path r H)
    as (m & Hmeta & Hpages & _).
  pose proof (ApiFacts.process_pdf_assembles g render_region fl pdf_path r H)
    as (detect & layout & Hm & Hd & _).
  destruct (ApiFacts.api_page_numbers g render_region fl pdf_path detect layout r
              Hm Hd H) as (_ & Hlen).
  destruct (ApiFacts.api_entities_identified g render_region fl pdf_path detect layout r
              Hm Hd H) as (Ht & Hf & Hi).
  exists m. split; [exact Hmeta|]. rewrite Hpages, Hlen.
  split; [|split].
  - eapply Forall_impl; [|exact Ht].
    intros t (n & pl & el & Hin & _ & _ & _ & Hpn & _).
    exists n. split; [exact Hpn|]. apply ApiMore.enumerate_bounds in Hin. lia.
  - eapply Forall_impl; [|exact Hf].
    intros f (n & pl & el & Hin & _ & _ & _ & Hpn & _).
    exists n. split; [exact Hpn|]. apply ApiMore.enumerate_bounds in Hin. lia.
  - eapply Forall_impl; [|exact Hi].
    intros i (n & pl & el & Hin & _ & _ & _ & Hpn & _).
    exists n. split; [exact Hpn|]. apply ApiMore.enumerate_bounds in Hin. lia.
Qed.

Lemma entity_pages_in_range_witness :
  exists r m,
    ApiServer.process_pdf Api.hello_models Api.render_png Api.all_flags "case.pdf" = Ok r /\
    ApiServer.meta r = Some m /\ ApiServer.totalPages m = 2 /\
    Forall (fun t => exists n, ApiServer.table_pageNumber t = Some n /\
                               1 <= n <= ApiServer.totalPages m)
           (ApiServer.tables r).
Proof.
  eexists.
  destruct (entity_pages_in_range Api.hello_models Api.render_png Api.all_flags
              "case.pdf" _ eq_refl) as (m & Hmeta & Ht & _).
  exists m. split; [vm_compute; reflexivity|]. split; [exact Hmeta|].
  split; [|exact Ht].
  vm_compute in Hmeta. injection Hmeta as <-. reflexivity.
Defined.

(** X4.  With the four flags off [process_pdf] calls no extractor: as soon
    as the layout detector returns, it returns the layout itself as a
    document, one page per page of the layout with its regions as elements
    without content, empty text and collections, and the metadata
    [totalPages] pages and 0 for the other counts. *)
Theorem all_flags_off_returns_layout :
  forall g render_region fl pdf_path detect layout,
    Spec.flags_off fl ->
    ApiServer.layout_model g = Some detect -> detect pdf_path = Ok layout ->
    ApiServer.process_pdf g render_region fl pdf_path = Ok (Spec.layout_only layout).
Proof.
  intros g render_region fl pdf_path detect layout Hoff Hm Hd.
  unfold Spec.flags_off in Hoff.
  now apply (ApiMore.process_pdf_blank g render_region fl pdf_path detect layout).
Qed.

Lemma all_flags_off_returns_layout_witness :
  ApiServer.process_pdf Api.ocr_failing_models Api.render_png Api.no_flags "case.pdf" =
  Ok (Spec.layout_only Api.hello_layout).
Proof.
  apply (all_flags_off_returns_layout Api.ocr_failing_models Api.render_png Api.no_flags
           "case.pdf" (fun _ => Ok Api.hello_layout) Api.hello_layout).
  - repeat split.
  - reflexivity.
  - reflexivity.
Defined.

(** X5.  The table, formula and image extractors return exactly when the
    id can be formed, that is when the bbox has two leading entries that
    are neither NaN nor infinite, whatever the model or the renderer
    does: a failing model gives the placeholder, a bbox without such a
    corner makes the extractor raise. *)
Theorem extractors_return_iff_corner :
  forall g render_region pdf_path n b,
    is_ok (ApiServer.extract_table g pdf_path n b) = Spec.has_corner b /\
    is_ok (ApiServer.extract_formula g pdf_path n b) = Spec.has_corner b /\
    is_ok (ApiServer.extract_image render_region pdf_path n b) = Spec.has_corner b.
Proof.
  intros g render_region pdf_path n b.
  split; [apply ApiMore.extract_table_ok|].
  split; [apply ApiMore.extract_formula_ok|apply ApiMore.extract_image_ok].
Qed.

(** X6.  Once the layout detector has returned a layout, [process_pdf]
    returns a document exactly when every region is ready: the OCR model
    returns on every region it is called on (type [text], [title] or
    [header], [extract_text] on and the model loaded), and every region
    sent to the table, formula or image extractor has a bbox with a
    corner.  One region that is not ready makes [process_pdf] raise. *)
Theorem process_pdf_returns_iff_ready :
  forall g render_region fl pdf_path detect layout,
    ApiServer.layout_model g = Some detect -> detect pdf_path = Ok layout ->
    is_ok (ApiServer.process_pdf g render_region fl pdf_path) =
    Spec.layout_ready g fl pdf_path layout.
Proof.
  intros g render_region fl pdf_path detect layout Hm Hd.
  now apply (ApiMore.process_pdf_ready g render_region fl pdf_path detect layout).
Qed.

Lemma process_pdf_returns_iff_ready_witness :
  is_ok (ApiServer.process_pdf Api.formula_failing_models Api.render_png Api.all_flags
                               "case.pdf") = true /\
  Spec.layout_ready Api.formula_failing_models Api.all_flags "case.pdf"
                    Api.formula_layout = true /\
  is_ok (ApiServer.process_pdf Api.short_bbox_models Api.render_png Api.all_flags
                               "case.pdf") = false /\
  Spec.layout_ready Api.short_bbox_models Api.all_flags "case.pdf"
                    Api.short_bbox_layout = false.
Proof.
  pose proof (process_pdf_returns_iff_ready Api.formula_failing_models Api.render_png
                Api.all_flags "case.pdf" (fun _ => Ok Api.formula_layout)
                Api.formula_layout eq_refl eq_refl) as H1.
  pose proof (process_pdf_returns_iff_ready Api.short_bbox_models Api.render_png
                Api.all_flags "case.pdf" (fun _ => Ok Api.short_bbox_layout)
                Api.short_bbox_layout eq_refl eq_refl) as H2.
  split; [vm_compute; reflexivity|]. split; [rewrite <- H1; vm_compute; reflexivity|].
  split; [vm_compute; reflexivity|]. rewrite <- H2. vm_compute. reflexivity.
Defined.

(** X7.  Rendering what [process_pdf] returned never fails, and the page
    shows the physical page count: the HTML and the Markdown of a returned
    document are the pages for the number of pages of the layout, the text
    of the document and the pre-rendered HTML, or Markdown, of its tables
    in order.  For a layout without pages this is the minimal shell. *)
Theorem rendering_a_processed_document :
  forall g render_region fl pdf_path detect layout r,
    ApiServer.layout_model g = Some detect -> detect pdf_path = Ok layout ->
    ApiServer.process_pdf g render_region fl pdf_path = Ok r ->
    ApiServer.format_as_html r =
    Ok (Spec.html_page (len (ApiServer.lr_pages layout)) (ApiServer.text r)
                       (map ApiServer.table_html (ApiServer.tables r))) /\
    ApiServer.format_as_markdown r =
    Ok (Spec.markdown_page (len (ApiServer.lr_pages layout)) (ApiServer.text r)
                           (map ApiServer.table_markdown (ApiServer.tables r))).
Proof.
  intros g render_region fl pdf_path detect layout r Hm Hd H.
  destruct (ApiFacts.api_page_numbers g render_region fl pdf_path detect layout r
              Hm Hd H) as (_ & Hlen).
  destruct (ApiFacts.api_metadata_counts g render_region fl pdf_path r H)
    as (m & Hmeta & Hpages & _).
  rewrite <- Hlen, <- Hpages. split.
  - now apply ApiMore.format_as_html_page.
  - now apply ApiMore.format_as_markdown_page.
Qed.

Lemma rendering_a_processed_document_witness :
  exists r,
    ApiServer.process_pdf Api.empty_models Api.render_png Api.all_flags "case.pdf" = Ok r /\
    ApiServer.format_as_html r =
    Ok "<html><body><h1>Extracted Document</h1><p>Pages: 0</p></body></html>" /\
    ApiServer.format_as_markdown r =
    Ok ("# Extracted Document" ++ ApiServer.nl ++ ApiServer.nl
        ++ "**Pages:** 0" ++ ApiServer.nl ++ ApiServer.nl)%string.
Proof.
  eexists. split; [vm_compute; reflexivity|].
  exact (rendering_a_processed_document Api.empty_models Api.render_png Api.all_flags
           "case.pdf" (fun _ => Ok Api.empty_layout) Api.empty_layout _
           eq_refl eq_refl eq_refl).
Defined.

(** X8.  The HTML and Markdown renderings are lossy views: they depend on
    [totalPages], the text and the pre-rendered HTML, or Markdown, of the
    tables only; two documents that agree on these render alike, whatever
    their pages, elements, images and formulas are.  On a document without
    metadata both renderers raise. *)
Theorem renderings_depend_on_pages_text_tables :
  (forall d1 d2 m1 m2,
      ApiServer.meta d1 = Some m1 -> ApiServer.meta d2 = Some m2 ->
      ApiServer.totalPages m1 = ApiServer.totalPages m2 ->
      ApiServer.text d1 = ApiServer.text d2 ->
      (map ApiServer.table_html (ApiServer.tables d1) =
       map ApiServer.table_html (ApiServer.tables d2) ->
       ApiServer.format_as_html d1 = ApiServer.format_as_html d2) /\
      (map ApiServer.table_markdown (ApiServer.tables d1) =
       map ApiServer.table_markdown (ApiServer.tables d2) ->
       ApiServer.format_as_markdown d1 = ApiServer.format_as_markdown d2)) /\
  (forall d,
      ApiServer.meta d = None ->
      is_ok (ApiServer.format_as_html d) = false /\
      is_ok (ApiServer.format_as_markdown d) = false).
Proof.
  split.
  - intros d1 d2 m1 m2 H1 H2 Hp Ht. split; intros Htab.
    + rewrite (ApiMore.format_as_html_page d1 m1 H1),
        (ApiMore.format_as_html_page d2 m2 H2). congruence.
    + rewrite (ApiMore.format_as_markdown_page d1 m1 H1),
        (ApiMore.format_as_markdown_page d2 m2 H2). congruence.
  - exact ApiMore.format_without_metadata.
Qed.

Lemma renderings_depend_on_pages_text_tables_witness :
  (exists r r',
      ApiServer.process_pdf Api.formula_models Api.render_png Api.all_flags "case.pdf" = Ok r /\
      ApiServer.process_pdf Api.formula_models Api.render_png Api.no_flags "case.pdf" = Ok r' /\
      List.length (ApiServer.formulas r) = 2%nat /\ ApiServer.formulas r' = [] /\
      ApiServer.format_as_html r = ApiServer.format_as_html r') /\
  is_ok (ApiServer.format_as_html ApiServer.empty_result) = false.
Proof.
  destruct renderings_depend_on_pages_text_tables as (Hsame & Hnone).
  split.
  - eexists. eexists.
    split; [vm_compute; reflexivity|]. split; [vm_compute; reflexivity|].
    split; [reflexivity|]. split; [reflexivity|].
    match goal with
    | |- ApiServer.format_as_html ?a = ApiServer.format_as_html ?b =>
        apply (proj1 (Hsame a b _ _ eq_refl eq_refl eq_refl eq_refl))
    end.
    reflexivity.
  - apply (Hnone ApiServer.empty_result). reflexivity.
Defined.

(** X9.  The endpoint answers 400 exactly for a request without upload or
    with an upload whose file name is empty, and it does so before it
    touches the models: they are left as they were, loaded or not. *)
Theorem bad_upload_is_rejected_first :
  forall import_kit render_region save_upload os_remove g req,
    (ApiServer.status
       (fst (ApiServer.extract_document import_kit render_region save_upload
                                        os_remove g req))
     = 400 <-> Spec.bad_upload req) /\
    (Spec.bad_upload req ->
     snd (ApiServer.extract_document import_kit render_region save_upload
                                     os_remove g req) = g).
Proof.
  intros import_kit render_region save_upload os_remove g req. split; [split|].
  - intros Hstatus. unfold Spec.bad_upload.
    destruct (ApiServer.req_file req) as [filename|] eqn:Hf; [|now left].
    destruct (String.eqb filename EmptyString) eqn:Heq.
    + apply String.eqb_eq in Heq. subst. now right.
    + exfalso. apply String.eqb_neq in Heq.
      rewrite (ApiMore.extract_document_named import_kit render_region save_upload
                 os_remove g req filename Hf Heq) in Hstatus.
      destruct (save_upload ("/tmp/" ++ filename)%string); [|discriminate].
      destruct (Spec.models_for_request import_kit g) as [[|] g']; [|discriminate].
      repeat match type of Hstatus with
             | context [match ?c with Ok _ => _ | Raise _ => _ end] => destruct c
             end;
        discriminate.
  - intros Hbad.
    apply (ApiMore.extract_document_rejected import_kit render_region save_upload
             os_remove g req Hbad).
  - intros Hbad.
    apply (ApiMore.extract_document_rejected import_kit render_region save_upload
             os_remove g req Hbad).
Qed.

Lemma bad_upload_is_rejected_first_witness :
  ApiServer.extract_document Api.broken_kit Api.render_png Api.save_ok Api.remove_ok
                             Api.no_models Api.unnamed_upload =
  (ApiServer.mk_response 400 (ApiServer.JsonError "Empty filename"), Api.no_models) /\
  snd (ApiServer.extract_document Api.broken_kit Api.render_png Api.save_ok
                                  Api.remove_ok Api.no_models Api.unnamed_upload)
  = Api.no_models.
Proof.
  split; [reflexivity|].
  apply (proj2 (bad_upload_is_rejected_first Api.broken_kit Api.render_png
                  Api.save_ok Api.remove_ok Api.no_models Api.unnamed_upload)).
  right. reflexivity.
Defined.

(** X10.  With the four models loaded, the endpoint on a named upload
    never initialises anything and leaves the models as they are.  When
    saving the upload as [/tmp/<name>] raises, it answers 500 with the
    message of the save and [process_pdf] is not called.  Otherwise it
    answers what [process_pdf] gives for that file and the flags of the
    form: status 500 and the message of the exception when it raises;
    when it returns, status 500 and the message when removing the file
    raises, and else status 200 and the document, as JSON or rendered as
    the HTML or Markdown page with its number of pages.  A format other
    than [html] and [markdown], compared as given, means JSON. *)
Theorem endpoint_with_models_loaded :
  forall import_kit render_region save_upload os_remove g req filename,
    ApiServer.all_models g = true ->
    ApiServer.req_file req = Some filename -> filename <> EmptyString ->
    ApiServer.extract_document import_kit render_region save_upload os_remove g req =
    (match save_upload ("/tmp/" ++ filename)%string with
     | Raise e => ApiServer.mk_response 500 (ApiServer.JsonError (str_exn e))
     | Ok _ =>
         match ApiServer.process_pdf g render_region (Spec.request_flags req)
                                     ("/tmp/" ++ filename)%string with
         | Ok r =>
             match os_remove ("/tmp/" ++ filename)%string with
             | Ok _ => ApiServer.mk_response 200
                         (Spec.rendered req r (len (ApiServer.pages r)))
             | Raise e => ApiServer.mk_response 500 (ApiServer.JsonError (str_exn e))
             end
         | Raise e => ApiServer.mk_response 500 (ApiServer.JsonError (str_exn e))
         end
     end, g).
Proof.
  intros import_kit render_region save_upload os_remove g req filename Hall Hf Hne.
  rewrite (ApiMore.extract_document_named import_kit render_region save_upload
             os_remove g req filename Hf Hne).
  unfold Spec.models_for_request. rewrite Hall.
  destruct (save_upload ("/tmp/" ++ filename)%string); reflexivity.
Qed.

Lemma endpoint_with_models_loaded_witness :
  fst (ApiServer.extract_document Api.no_kit Api.render_png Api.save_ok Api.remove_ok
                                  Api.empty_models Api.html_upload) =
  ApiServer.mk_response 200
    (ApiServer.Page
       "<html><body><h1>Extracted Document</h1><p>Pages: 0</p></body></html>") /\
  fst (ApiServer.extract_document Api.no_kit Api.render_png Api.save_ok Api.remove_ok
                                  Api.ocr_failing_models Api.markdown_upload) =
  ApiServer.mk_response 500 (ApiServer.JsonError "OCR failed") /\
  ApiServer.extract_document Api.no_kit Api.render_png Api.save_fails Api.remove_ok
                             Api.hello_models Api.nested_upload =
  (ApiServer.mk_response 500 (ApiServer.JsonError (str_exn Api.save_error)),
   Api.hello_models) /\
  fst (ApiServer.extract_document Api.no_kit Api.render_png Api.save_ok
                                  Api.remove_fails Api.hello_models Api.upload) =
  ApiServer.mk_response 500 (ApiServer.JsonError (str_exn Api.remove_error)).
Proof.
  split; [|split; [|split]].
  - rewrite (endpoint_with_models_loaded Api.no_kit Api.render_png Api.save_ok
               Api.remove_ok Api.empty_models Api.html_upload "case.pdf"
               eq_refl eq_refl); [reflexivity|discriminate].
  - rewrite (endpoint_with_models_loaded Api.no_kit Api.render_png Api.save_ok
               Api.remove_ok Api.ocr_failing_models Api.markdown_upload "case.pdf"
               eq_refl eq_refl);
      [vm_compute; reflexivity|discriminate].
  - rewrite (endpoint_with_models_loaded Api.no_kit Api.render_png Api.save_fails
               Api.remove_ok Api.hello_models Api.nested_upload "nodir/case.pdf"
               eq_refl eq_refl); [reflexivity|discriminate].
  - rewrite (endpoint_with_models_loaded Api.no_kit Api.render_png Api.save_ok
               Api.remove_fails Api.hello_models Api.upload "case.pdf"
               eq_refl eq_refl); [vm_compute; reflexivity|discriminate].
Defined.

(** X11.  [initialize_models] returns [True] only when the package was
    imported and the four constructors returned, and then the four models
    are loaded; whether it returns [True] or [False], a model variable that
    held a model before still holds one afterwards. *)
Theorem initialize_models_loads_all_or_keeps :
  forall import_kit g,
    (fst (ApiServer.initialize_models import_kit g) = true ->
     ApiServer.all_models (snd (ApiServer.initialize_models import_kit g)) = true /\
     exists k lm tm fm om,
       import_kit = Ok k /\
       ApiServer.DocLayoutYOLO k = Ok lm /\ ApiServer.TableExtractor k = Ok tm /\
       ApiServer.FormulaExtractor k = Ok fm /\ ApiServer.OCRExtractor k = Ok om /\
       snd (ApiServer.initialize_models import_kit g) =
       ApiServer.mk_models (Some lm) (Some tm) (Some fm) (Some om)) /\
    (Spec.loaded (ApiServer.layout_model g) ->
     Spec.loaded (ApiServer.layout_model (snd (ApiServer.initialize_models import_kit g)))) /\
    (Spec.loaded (ApiServer.table_model g) ->
     Spec.loaded (ApiServer.table_model (snd (ApiServer.initialize_models import_kit g)))) /\
    (Spec.loaded (ApiServer.formula_model g) ->
     Spec.loaded (ApiServer.formula_model (snd (ApiServer.initialize_models import_kit g)))) /\
    (Spec.loaded (ApiServer.ocr_model g) ->
     Spec.loaded (ApiServer.ocr_model (snd (ApiServer.initialize_models import_kit g)))).
Proof.
  intros import_kit g. split.
  - apply ApiMore.initialize_models_success.
  - apply (ApiMore.initialize_models_keeps import_kit g).
Qed.

Lemma initialize_models_loads_all_or_keeps_witness :
  fst (ApiServer.initialize_models Api.broken_kit Api.no_models) = false /\
  Spec.loaded (ApiServer.layout_model
                 (snd (ApiServer.initialize_models Api.broken_kit Api.hello_models))) /\
  ApiServer.all_models (snd (ApiServer.initialize_models Api.broken_kit Api.no_models))
  = false.
Proof.
  split; [reflexivity|]. split; [|reflexivity].
  apply (proj1 (proj2 (initialize_models_loads_all_or_keeps Api.broken_kit
                         Api.hello_models))).
  discriminate.
Defined.

(** X12.  A request the endpoint answers with status 200 leaves the four
    models loaded, so that [health_check] reports [models_loaded] as true
    afterwards.  On a named upload that cannot be saved the answer is 500
    with the message of the save, and the models are neither initialised
    nor changed; on one that is saved, when the models were not all loaded
    and their initialisation fails, the answer is 500 with [Failed to
    initialize models], the models are those the failed initialisation
    left, and [process_pdf] is not called. *)
Theorem success_means_models_loaded :
  forall import_kit render_region save_upload os_remove g req,
    (ApiServer.status
       (fst (ApiServer.extract_document import_kit render_region save_upload
                                        os_remove g req))
     = 200 ->
     ApiServer.health_check
       (snd (ApiServer.extract_document import_kit render_region save_upload
                                        os_remove g req)) =
     ("healthy", "pdf-extract-kit", true)) /\
    (forall filename e,
        ApiServer.req_file req = Some filename -> filename <> EmptyString ->
        save_upload ("/tmp/" ++ filename)%string = Raise e ->
        ApiServer.extract_document import_kit render_region save_upload os_remove g req =
        (ApiServer.mk_response 500 (ApiServer.JsonError (str_exn e)), g)) /\
    (forall filename,
        ApiServer.req_file req = Some filename -> filename <> EmptyString ->
        save_upload ("/tmp/" ++ filename)%string = Ok tt ->
        ApiServer.all_models g = false ->
        fst (ApiServer.initialize_models import_kit g) = false ->
        ApiServer.extract_document import_kit render_region save_upload os_remove g req =
        (ApiServer.mk_response 500 (ApiServer.JsonError "Failed to initialize models"),
         snd (ApiServer.initialize_models import_kit g))).
Proof.
  intros import_kit render_region save_upload os_remove g req. split; [|split].
  - intros Hstatus. unfold ApiServer.health_check. do 2 f_equal.
    destruct (ApiServer.req_file req) as [filename|] eqn:Hf.
    2:{ unfold ApiServer.extract_document in Hstatus. rewrite Hf in Hstatus.
        discriminate. }
    destruct (String.eqb filename EmptyString) eqn:Heq.
    { unfold ApiServer.extract_document in Hstatus. rewrite Hf, Heq in Hstatus.
      discriminate. }
    apply String.eqb_neq in Heq.
    rewrite (ApiMore.extract_document_named import_kit render_region save_upload
               os_remove g req filename Hf Heq) in *.
    destruct (save_upload ("/tmp/" ++ filename)%string); [|discriminate].
    unfold Spec.models_for_request in *.
    destruct (ApiServer.all_models g) eqn:Hall.
    + simpl. exact Hall.
    + destruct (ApiServer.initialize_models import_kit g) as [ready g'] eqn:Hinit.
      destruct ready; simpl in *; [|discriminate].
      pose proof (ApiMore.initialize_models_success import_kit g) as Hs.
      rewrite Hinit in Hs. apply Hs. reflexivity.
  - intros filename e Hf Hne Hsave.
    rewrite (ApiMore.extract_document_named import_kit render_region save_upload
               os_remove g req filename Hf Hne), Hsave.
    reflexivity.
  - intros filename Hf Hne Hsave Hall Hinit.
    rewrite (ApiMore.extract_document_named import_kit render_region save_upload
               os_remove g req filename Hf Hne), Hsave.
    unfold Spec.models_for_request. rewrite Hall.
    destruct (ApiServer.initialize_models import_kit g) as [ready g'].
    simpl in Hinit. subst ready. reflexivity.
Qed.

Lemma success_means_models_loaded_witness :
  ApiServer.health_check
    (snd (ApiServer.extract_document Api.no_kit Api.render_png Api.save_ok
                                     Api.remove_ok Api.hello_models Api.upload)) =
  ("healthy", "pdf-extract-kit", true) /\
  ApiServer.extract_document Api.broken_kit Api.render_png Api.save_fails Api.remove_ok
                             Api.no_models Api.nested_upload =
  (ApiServer.mk_response 500 (ApiServer.JsonError (str_exn Api.save_error)),
   Api.no_models) /\
  ApiServer.extract_document Api.broken_kit Api.render_png Api.save_ok Api.remove_ok
                             Api.no_models Api.upload =
  (ApiServer.mk_response 500 (ApiServer.JsonError "Failed to initialize models"),
   snd (ApiServer.initialize_models Api.broken_kit Api.no_models)).
Proof.
  destruct (success_means_models_loaded Api.broken_kit Api.render_png Api.save_ok
              Api.remove_ok Api.no_models Api.upload) as (_ & _ & Hfail).
  destruct (success_means_models_loaded Api.broken_kit Api.render_png Api.save_fails
              Api.remove_ok Api.no_models Api.nested_upload) as (_ & Hsave & _).
  split; [|split].
  - apply (proj1 (success_means_models_loaded Api.no_kit Api.render_png Api.save_ok
                    Api.remove_ok Api.hello_models Api.upload)).
    vm_compute. reflexivity.
  - apply (Hsave "nodir/case.pdf" Api.save_error); try reflexivity. discriminate.
  - apply (Hfail "case.pdf"); try reflexivity. discriminate.
Defined.

(** X13.  The ids of the model-based server identify the page and the
    truncated top-left corner of the region, and nothing else: two
    entities of one kind have the same id exactly when they are on the
    same page and [int(bbox[0])], [int(bbox[1])] agree.  Two different
    regions of a page whose corners differ by fractions share their id. *)
Theorem entity_ids_equal_iff_same_corner :
  forall kind n n' b b' id id',
    ApiServer.entity_id kind n b = Ok id ->
    ApiServer.entity_id kind n' b' = Ok id' ->
    (id = id' <-> n = n' /\ Spec.truncated_corner b = Spec.truncated_corner b').
Proof.
  intros kind n n' b b' id id' H H'.
  apply IdFacts.entity_id_corner in H, H'.
  destruct H as (i0 & i1 & Hc & ->), H' as (j0 & j1 & Hc' & ->).
  rewrite Hc, Hc', IdFacts.ids_equal_iff. split.
  - intros (-> & -> & ->). auto.
  - intros (-> & Heq). injection Heq as -> ->. auto.
Qed.

Lemma entity_ids_equal_iff_same_corner_witness :
  ApiServer.entity_id "table" 1 [72.5; 100.25; 300; 130]%float = Ok "table_1_72_100" /\
  ApiServer.entity_id "table" 1 [72.75; 100.5; 500; 700]%float = Ok "table_1_72_100".
Proof.
  assert (H1 : ApiServer.entity_id "table" 1 [72.5; 100.25; 300; 130]%float
               = Ok "table_1_72_100") by (vm_compute; reflexivity).
  split; [exact H1|].
  destruct (ApiServer.entity_id "table" 1 [72.75; 100.5; 500; 700]%float)
    as [id'|e] eqn:H2; [|vm_compute in H2; discriminate].
  f_equal. symmetry.
  apply (proj2 (entity_ids_equal_iff_same_corner "table" 1 1
                  [72.5; 100.25; 300; 130]%float [72.75; 100.5; 500; 700]%float
                  "table_1_72_100" id' H1 H2)).
  split; [reflexivity|vm_compute; reflexivity].
Defined.

(* ------------------------------------------------------------------ *)
(** * Further properties of the local server *)

Import PdfExtractServer LocalSpec.

(** X14.  Whatever the document, no two images of the result of
    [extract_with_basic_tools] share an id, and no two tables do: the id
    holds the index of the page and the position among the images, or the
    tables, found on it. *)
Theorem local_ids_are_unique :
  forall fitz_open pdf_path,
    NoDup (map image_id (images (fst (extract_with_basic_tools fitz_open pdf_path)))) /\
    NoDup (map table_id (tables (fst (extract_with_basic_tools fitz_open pdf_path)))).
Proof.
  intros fitz_open pdf_path.
  destruct (LocalMore.basic_tools_cases fitz_open pdf_path)
    as [(doc & r0 & l & Ho & Hl & ->)|(e & l & -> & _)].
  - simpl. eapply LocalMore.page_loop_ids;
      [exact Hl|apply LocalMore.ids_below_nil|apply LocalMore.ids_below_nil].
  - simpl. split; constructor.
Qed.

(** X15.  In the result of [extract_with_basic_tools] the images are, one
    for one and in page order and then detection order, the elements of
    type [image] of the layout: the [k]-th image has the page number and
    the bbox of the [k]-th such element, whose content is [Image].
    Likewise the tables and the elements of type [table], whose content is
    [Table with N rows] for the [N] data rows of the table. *)
Theorem local_entities_follow_elements :
  forall fitz_open pdf_path,
    Forall2 image_linked
            (typed_elements "image"
               (page_elements (pages (fst (extract_with_basic_tools fitz_open pdf_path)))))
            (images (fst (extract_with_basic_tools fitz_open pdf_path))) /\
    Forall2 table_linked
            (typed_elements "table"
               (page_elements (pages (fst (extract_with_basic_tools fitz_open pdf_path)))))
            (tables (fst (extract_with_basic_tools fitz_open pdf_path))).
Proof.
  intros fitz_open pdf_path.
  destruct (LocalMore.basic_tools_cases fitz_open pdf_path)
    as [(doc & r0 & l & Ho & Hl & ->)|(e & l & -> & _)].
  - simpl. apply LocalMore.page_loop_links in Hl.
    destruct Hl as (pds & ims & ts & -> & -> & -> & Hi & Ht). simpl. auto.
  - simpl. split; constructor.
Qed.

(** X16.  Every image of the result of [extract_with_basic_tools] has a
    page number between 1 and [totalPages], the bbox [[0, 0, width,
    height]] and the type [photo]; every table has a page number between 1
    and [totalPages], [rows] and [columns] equal to the lengths of [data]
    and [headers], and an empty [markdown]. *)
Theorem local_entity_fields :
  forall fitz_open pdf_path,
    (forall i,
        In i (images (fst (extract_with_basic_tools fitz_open pdf_path))) ->
        image_shape i /\
        exists n,
          totalPages (meta (fst (extract_with_basic_tools fitz_open pdf_path))) = Some n /\
          1 <= image_pageNumber i <= n) /\
    (forall t,
        In t (tables (fst (extract_with_basic_tools fitz_open pdf_path))) ->
        table_shape t /\
        exists n,
          totalPages (meta (fst (extract_with_basic_tools fitz_open pdf_path))) = Some n /\
          1 <= table_pageNumber t <= n).
Proof.
  intros fitz_open pdf_path.
  destruct (LocalMore.basic_tools_cases fitz_open pdf_path)
    as [(doc & r0 & l & Ho & Hl & ->)|(e & l & -> & _)].
  2:{ simpl. split; intros x []. }
  simpl.
  destruct (LocalMore.page_loop_shapes doc 0 empty_result r0 l Hl
              (Forall_nil _) (Forall_nil _)) as [Hsi Hst].
  apply LocalFacts.page_loop_extends in Hl.
  destruct Hl as ((pds & Hp & Hpds) & _ & (ims & Hi & Hims) & (ts & Hts & Htabs) & _).
  simpl in Hp, Hi, Hts. subst pds ims ts.
  assert (Hlen : len (pages r0) = len doc).
  { unfold len. apply Forall2_length in Hpds.
    now rewrite <- Hpds, enumerate_length. }
  rewrite Forall_forall in Hsi, Hst, Hims, Htabs.
  split.
  - intros i Hin. split; [auto|]. exists (len (pages r0)). split; [reflexivity|].
    destruct (Hims i Hin) as (n & Hn & idx & _ & _ & ->). lia.
  - intros t Hin. split; [auto|]. exists (len (pages r0)). split; [reflexivity|].
    destruct (Htabs t Hin) as (n & Hn & idx & _ & _ & ->). lia.
Qed.

Lemma local_entity_fields_witness :
  exists i t,
    (image_shape i /\
     exists n,
       totalPages (meta (fst (extract_with_basic_tools Local.mixed_open "case.pdf"))) = Some n /\
       1 <= image_pageNumber i <= n) /\
    (table_shape t /\
     exists n,
       totalPages (meta (fst (extract_with_basic_tools Local.mixed_open "case.pdf"))) = Some n /\
       1 <= table_pageNumber t <= n).
Proof.
  destruct (local_entity_fields Local.mixed_open "case.pdf") as [Hi Ht].
  eexists _, _. split.
  - apply Hi. vm_compute. left. reflexivity.
  - apply Ht. vm_compute. left. reflexivity.
Defined.

(** X17.  A table enters the result exactly when its rows are extracted
    and, where the table object has [to_pandas], its HTML rendering
    returns.  No extracted row is lost: [headers] is the first row and
    [data] the rows after it, whether there are none, one or more; without
    rows both are empty.  The HTML is empty where the table object has no
    [to_pandas]. *)
Theorem table_entry_keeps_the_rows :
  forall n idx tb,
    is_ok (table_entry n idx tb) = table_ready tb /\
    forall t el,
      table_entry n idx tb = Ok (t, el) ->
      exists rows,
        ft_extract tb = Ok rows /\
        (rows = [] -> table_headers t = [] /\ table_data t = []) /\
        (rows <> [] -> table_headers t :: table_data t = rows /\
                       table_rows t = len rows - 1) /\
        (ft_to_pandas tb = None -> table_html t = EmptyString).
Proof.
  intros n idx tb. split; [apply LocalFacts.table_entry_ok|].
  intros t el H. apply LocalMore.table_entry_fields in H.
  destruct H as (rows & Hrows & Hh & Hd & _ & _ & Hhtml & (Hr & _) & _).
  exists rows. split; [exact Hrows|]. split; [|split].
  - intros ->. auto.
  - intros Hne. destruct rows as [|h rest]; [contradiction|].
    simpl in Hh, Hd. rewrite Hh, Hd, Hr, Hd, LocalMore.len_cons.
    split; [reflexivity|lia].
  - intros Hnone. now rewrite Hnone in Hhtml.
Qed.

Lemma table_entry_keeps_the_rows_witness :
  exists t el rows,
    table_entry 0 1 Local.ab_fitz_table = Ok (t, el) /\
    ft_extract Local.ab_fitz_table = Ok rows /\
    table_headers t :: table_data t = rows /\
    table_rows t = len rows - 1 /\
    table_html t = EmptyString.
Proof.
  destruct (table_entry 0 1 Local.ab_fitz_table) as [[t el]|e] eqn:H;
    [|vm_compute in H; discriminate].
  destruct (proj2 (table_entry_keeps_the_rows 0 1 Local.ab_fitz_table) t el H)
    as (rows & Hrows & _ & Hsplit & Hhtml).
  exists t, el, rows. split; [reflexivity|]. split; [exact Hrows|].
  assert (Hne : rows <> []).
  { intros ->. vm_compute in Hrows. discriminate. }
  destruct (Hsplit Hne) as [Hs Hr].
  split; [exact Hs|]. split; [exact Hr|]. apply Hhtml. reflexivity.
Defined.

(** X18.  When [extract_with_basic_tools] gets through a document,
    [totalImages] is the number of embedded images whose pixmap is not
    CMYK and [totalTables] the number of tables found whose extraction
    returned; the lines logged are warnings, one for each table whose
    extraction raised.  Images left out are not logged. *)
Theorem local_totals_count_what_was_kept :
  forall fitz_open pdf_path doc,
    fitz_open pdf_path = Ok doc ->
    error (meta (fst (extract_with_basic_tools fitz_open pdf_path))) = None ->
    totalImages (meta (fst (extract_with_basic_tools fitz_open pdf_path))) =
    Some (len (filter kept (found_pixmaps doc))) /\
    totalTables (meta (fst (extract_with_basic_tools fitz_open pdf_path))) =
    Some (len (filter table_ready (found_tables doc))) /\
    Forall (fun m => fst m = WARNING)
           (snd (extract_with_basic_tools fitz_open pdf_path)) /\
    len (snd (extract_with_basic_tools fitz_open pdf_path)) =
    len (found_tables doc) - len (filter table_ready (found_tables doc)).
Proof.
  intros fitz_open pdf_path doc Ho H.
  apply LocalFacts.basic_tools_completed in H.
  destruct H as (doc' & r0 & l & Ho' & Hl & ->).
  rewrite Ho in Ho'. injection Ho' as <-.
  apply LocalMore.page_loop_counts in Hl.
  destruct Hl as (Hw & Ht & Htl & Hi). simpl in *.
  unfold len in Ht, Htl, Hi; simpl in Ht, Htl, Hi. fold (@len) in *.
  split; [f_equal; unfold len in *; lia|].
  split; [f_equal; unfold len in *; lia|].
  split; [exact Hw|unfold len in *; lia].
Qed.

Lemma local_totals_count_what_was_kept_witness :
  totalImages (meta (fst (extract_with_basic_tools Local.mixed_open "case.pdf"))) = Some 2 /\
  totalTables (meta (fst (extract_with_basic_tools Local.mixed_open "case.pdf"))) = Some 3 /\
  len (snd (extract_with_basic_tools Local.mixed_open "case.pdf")) = 1.
Proof.
  destruct (local_totals_count_what_was_kept Local.mixed_open "case.pdf"
              [Ok Local.mixed_page; Ok Local.photo_page] eq_refl)
    as (Hi & Ht & _ & Hl).
  - vm_compute. reflexivity.
  - split; [exact Hi|]. split; [exact Ht|exact Hl].
Defined.

(** X19.  [extract_with_basic_tools] returns a result without the [error]
    key exactly when the document opens and, on every page, the page
    loads, its text and its blocks are read, its images are listed, every
    pixmap is built, every pixmap that is not CMYK is encoded, and its
    tables are searched.  A table whose extraction raises and a CMYK
    pixmap that cannot be encoded do not matter. *)
Theorem basic_tools_completes_iff_pages_ready :
  forall fitz_open pdf_path,
    error (meta (fst (extract_with_basic_tools fitz_open pdf_path))) = None <->
    exists doc, fitz_open pdf_path = Ok doc /\ forallb page_ready doc = true.
Proof. intros fitz_open pdf_path. apply LocalMore.basic_tools_ok_iff. Qed.

Lemma basic_tools_completes_iff_pages_ready_witness :
  error (meta (fst (extract_with_basic_tools Local.mixed_open "case.pdf"))) = None.
Proof.
  apply (proj2 (basic_tools_completes_iff_pages_ready Local.mixed_open "case.pdf")).
  exists [Ok Local.mixed_page; Ok Local.photo_page]. split; reflexivity.
Defined.

(** X20.  [load_models] returns the value [models_loaded] has afterwards,
    so the two fields of the answer of [/models/load] always agree.  The
    value, which [/health] reports afterwards, is [True] unless the models
    were not loaded before and building the layout detector or the OCR
    engine raises something other than [ImportError].  Once
    [models_loaded] is set a further call changes nothing, and no call
    assigns [table_extractor]. *)
Theorem load_models_answer :
  forall (detector extractor engine : Type)
         (new_layout_detector : outcome detector) (new_ocr_engine : outcome engine)
         (st : globals detector extractor engine),
    let loaded :=
      models_loaded st || negb (breaks new_layout_detector || breaks new_ocr_engine) in
    let st' := snd (load_models new_layout_detector new_ocr_engine st) in
    load_models_endpoint new_layout_detector new_ocr_engine st = ((loaded, loaded), st') /\
    models_loaded st' = loaded /\
    health_check st' = ("healthy", "pdf-extract-kit-local", loaded, "1.0.0") /\
    table_extractor st' = table_extractor st /\
    (loaded = true ->
     load_models new_layout_detector new_ocr_engine st' = (true, st')).
Proof.
  intros detector extractor engine new_layout_detector new_ocr_engine st loaded st'.
  destruct (LocalMore.load_models_flag detector extractor engine
              new_layout_detector new_ocr_engine st) as [Hflag Hval].
  fold st' in Hflag. fold loaded in Hval.
  split; [|split; [|split; [|split]]].
  - unfold load_models_endpoint. subst st'.
    destruct (load_models new_layout_detector new_ocr_engine st) as [ok st1].
    simpl in *. now rewrite <- Hflag, Hval.
  - now rewrite <- Hflag.
  - unfold health_check. now rewrite <- Hflag, Hval.
  - apply LocalMore.load_models_table_extractor.
  - intros Hl. apply LocalMore.load_models_again. now rewrite <- Hflag, Hval.
Qed.

Lemma load_models_answer_witness :
  load_models_endpoint (Ok tt) Local.not_installed (initial_globals (extractor := unit)) =
  ((true, true), mk_globals true (Some tt) None None) /\
  load_models (Ok tt) Local.not_installed
              (mk_globals (extractor := unit) true (Some tt) None None) =
  (true, mk_globals true (Some tt) None None).
Proof.
  destruct (load_models_answer unit unit unit (Ok tt) Local.not_installed initial_globals)
    as (Hanswer & _ & _ & _ & Hagain).
  split; [exact Hanswer|exact (Hagain eq_refl)].
Defined.

(** X21.  After the first call of [load_models], [/models/status] reports
    the layout detector as available exactly when its constructor
    returned, the OCR engine exactly when its constructor returned and the
    layout detector's did not raise something other than [ImportError],
    and the table extractor never.  So [models_loaded] is reported with no
    model available when both packages are missing, and a model is
    reported available with [models_loaded] false when the layout detector
    was built and the OCR engine could not be. *)
Theorem models_status_after_first_load :
  forall (detector extractor engine : Type)
         (new_layout_detector : outcome detector) (new_ocr_engine : outcome engine),
    models_status
      (snd (load_models new_layout_detector new_ocr_engine
                        (initial_globals (extractor := extractor)))) =
    (negb (breaks new_layout_detector || breaks new_ocr_engine),
     (is_ok new_layout_detector, false,
      is_ok new_ocr_engine && negb (breaks new_layout_detector))).
Proof.
  intros detector extractor engine new_layout_detector new_ocr_engine.
  unfold models_status, load_models, breaks, initial_globals. simpl.
  destruct new_layout_detector as [d|e1]; [|destruct (is_import_error e1)];
    destruct new_ocr_engine as [o|e2]; try destruct (is_import_error e2);
    reflexivity.
Qed.

(** X22.  The content of every element of type [text] in the result of
    [extract_with_basic_tools] is not empty and has no white space at
    either end: stripping it again changes nothing. *)
Theorem local_text_elements_are_trimmed :
  forall fitz_open pdf_path ne,
    In ne (page_elements (pages (fst (extract_with_basic_tools fitz_open pdf_path)))) ->
    elem_type (snd ne) = "text" ->
    strip (elem_content (snd ne)) = elem_content (snd ne) /\
    elem_content (snd ne) <> EmptyString.
Proof.
  intros fitz_open pdf_path ne Hin Hty.
  destruct (LocalMore.basic_tools_cases fitz_open pdf_path)
    as [(doc & r0 & l & Ho & Hl & Heq)|(e & l & Heq & _)];
    rewrite Heq in Hin; simpl in Hin; [|contradiction].
  apply LocalFacts.page_loop_extends in Hl.
  destruct Hl as ((pds & Hp & Hpds) & _). simpl in Hp. subst pds.
  unfold page_elements in Hin. apply in_flat_map in Hin.
  destruct Hin as (pd & Hpd & Hin). apply in_map_iff in Hin.
  destruct Hin as (el & <- & Hel). simpl in *.
  destruct (LocalMore.Forall2_in_right _ _ _ _ Hpds Hpd) as (np & _ & Hloaded).
  destruct Hloaded as (_ & page & blocks & rest & _ & _ & _ & _ & Hels & Hrest).
  rewrite Hels in Hel. apply in_app_or in Hel. destruct Hel as [Hel|Hel].
  - pose proof (LocalMore.line_elements_trimmed blocks) as Htr.
    rewrite Forall_forall in Htr. destruct (Htr el Hel) as (Hs & Hne & _). auto.
  - rewrite Forall_forall in Hrest. destruct (Hrest el Hel) as [Hc|Hc];
      rewrite Hty in Hc; discriminate.
Qed.

Lemma local_text_elements_are_trimmed_witness :
  exists ne,
    In ne (page_elements (pages (fst (extract_with_basic_tools Local.mixed_open "case.pdf")))) /\
    elem_content (snd ne) = "Hello world" /\
    strip (elem_content (snd ne)) = elem_content (snd ne).
Proof.
  eexists. split; [vm_compute; left; reflexivity|].
  split; [reflexivity|].
  apply (local_text_elements_are_trimmed Local.mixed_open "case.pdf").
  - vm_compute. left. reflexivity.
  - reflexivity.
Defined.
